(** * learn-by-doing backend: workflow orchestration, generation client and
      resource validator

    A shallow embedding of the Python sources under [app/] and the
    properties of the specification that are settled against it.

    Conventions of the embedding.
    - A Python [str] is a [string]; every [ascii] stands for one code point
      below 256.
    - A Python [int] is a [Z] and a Python [float] a binary64 value of
      IEEE 754 ([spec_float] at precision 53), with the rounding, the
      infinities and the not-a-number of the doubles; [sum] adds from left
      to right, one rounded addition after the other, as CPython does up to
      version 3.11.  The pauses of the retry wrapper are kept as exact
      rationals ([Q]).
    - A raised exception is the left injection of a sum; [str(e)] is the
      message carried by the exception.
    - What the program learns from the outside world (HTTP exchanges, the
      search provider, [json.loads]) is an argument of the function that
      consumes it. *)

From Stdlib Require Import ZArith QArith Qround List String Ascii Bool Lia.
From Stdlib Require Import SpecFloat.
From Stdlib Require Import DecimalString DecimalZ DecimalPos.
From stdpp Require Import base option list gmap strings.

Import ListNotations.
Set Warnings "-register-all".
Local Open Scope string_scope.
Local Open Scope Z_scope.

(* ===================================================================== *)
(** * Python primitives *)
(* ===================================================================== *)

Module Py.

(** ** Exceptions *)

Inductive exn_class :=
| LLMException | JSONDecodeError | ValueError | KeyError | TypeError
| AttributeError | ZeroDivisionError | OverflowError | OtherException.

Record exn := Raise { exn_cls : exn_class; exn_str : string }.

(** [result A] is the outcome of a computation that may raise. *)
Definition result (A : Type) : Type := exn + A.

Definition ret {A} (a : A) : result A := inr a.
Definition raise {A} (c : exn_class) (msg : string) : result A :=
  inl (Raise c msg).
Definition bind {A B} (m : result A) (k : A -> result B) : result B :=
  match m with
  | inl e => inl e
  | inr a => k a
  end.

Notation "x <- m ;; k" := (bind m (fun x => k))
  (at level 100, m at next level, right associativity).

(** ** Strings *)

(** [str.isspace] on one code point below 256. *)
Definition isspace (c : ascii) : bool :=
  let n := Z.of_nat (nat_of_ascii c) in
  ((9 <=? n) && (n <=? 13)) || ((28 <=? n) && (n <=? 32))
  || (n =? 133) || (n =? 160).

Fixpoint lstrip (s : string) : string :=
  match s with
  | String c s' => if isspace c then lstrip s' else s
  | EmptyString => EmptyString
  end.

Fixpoint rstrip (s : string) : string :=
  match s with
  | String c s' =>
      match rstrip s' with
      | EmptyString => if isspace c then EmptyString else String c EmptyString
      | r => String c r
      end
  | EmptyString => EmptyString
  end.

(** [s.strip()] *)
Definition strip (s : string) : string := rstrip (lstrip s).

Definition len (s : string) : Z := Z.of_nat (String.length s).

(** [s.startswith(p)] *)
Fixpoint startswith (s p : string) : bool :=
  match p, s with
  | EmptyString, _ => true
  | String a p', String b s' => Ascii.eqb a b && startswith s' p'
  | String _ _, EmptyString => false
  end.

(** Offset of the first occurrence of [sub] in [s], if any. *)
Fixpoint find_offset (s sub : string) : option nat :=
  if startswith s sub then Some O
  else match s with
       | String _ s' => option_map S (find_offset s' sub)
       | EmptyString => None
       end.

Fixpoint drop (n : nat) (s : string) : string :=
  match n, s with
  | O, _ => s
  | S n', String _ s' => drop n' s'
  | S _, EmptyString => EmptyString
  end.

Fixpoint take (n : nat) (s : string) : string :=
  match n, s with
  | O, _ => EmptyString
  | S n', String c s' => String c (take n' s')
  | S _, EmptyString => EmptyString
  end.

(** Python maps a slice bound into [0, len]. *)
Definition slice_bound (n i : Z) : Z :=
  if i <? 0 then Z.max 0 (n + i) else Z.min i n.

(** [s.find(sub, start)], [-1] when absent. *)
Definition find_from (s sub : string) (start : Z) : Z :=
  if len s <? start then -1
  else
    let a := slice_bound (len s) start in
    match find_offset (drop (Z.to_nat a) s) sub with
    | Some k => a + Z.of_nat k
    | None => -1
    end.

(** [s.find(sub)] *)
Definition find (s sub : string) : Z := find_from s sub 0.

(** [sub in s] *)
Definition contains (s sub : string) : bool :=
  match find_offset s sub with Some _ => true | None => false end.

(** [s[a:b]] *)
Definition slice (s : string) (a b : Z) : string :=
  let a' := slice_bound (len s) a in
  let b' := slice_bound (len s) b in
  take (Z.to_nat (b' - a')) (drop (Z.to_nat a') s).

(** [s[a:]] *)
Definition slice_from (s : string) (a : Z) : string :=
  drop (Z.to_nat (slice_bound (len s) a)) s.

(** [s[:b]] *)
Definition slice_to (s : string) (b : Z) : string :=
  take (Z.to_nat (slice_bound (len s) b)) s.

(** [str(n)] for an [int]. *)
Definition str_of_int (n : Z) : string :=
  NilZero.string_of_int (Z.to_int n).

(** [repr(s)] for a key or another text without quotes or escapes. *)
Definition repr_str (s : string) : string := "'" ++ s ++ "'".

Fixpoint join (sep : string) (l : list string) : string :=
  match l with
  | [] => EmptyString
  | [x] => x
  | x :: l' => x ++ sep ++ join sep l'
  end.

(** [str(l)] for a list of such texts. *)
Definition str_of_str_list (l : list string) : string :=
  "[" ++ join ", " (map repr_str l) ++ "]".

(** ** Numbers

    A [float] is a binary64 value of IEEE 754, in the representation of
    the library's [SpecFloat]: a signed zero, a signed infinity, the
    not-a-number or [(-1)^s * m * 2^e]; the arithmetic rounds to the
    nearest double, ties to even.  The doubles are the values [f] with
    [valid_binary prec emax f = true]; the literals, [json.loads] and the
    arithmetic produce no others. *)

Definition float : Set := spec_float.
Definition prec : Z := 53.
Definition emax : Z := 1024.

Inductive number :=
| Int (n : Z)
| Float (f : float).

(** The double nearest to [(-1)^s * n / d]; an infinity beyond the
    range. *)
Definition nearest (s : bool) (n : N) (d : positive) : float :=
  match n with
  | N0 => S754_zero s
  | Npos m => SFdiv prec emax (S754_finite s m 0) (S754_finite false d 0)
  end.

Definition is_finite (f : float) : bool :=
  match f with
  | S754_zero _ | S754_finite _ _ _ => true
  | _ => false
  end.

Definition is_zero (f : float) : bool :=
  match f with S754_zero _ => true | _ => false end.

(** The conversion of an [int] operand that meets a [float]. *)
Definition float_of_int (n : Z) : result float :=
  let f := nearest (n <? 0) (Z.abs_N n) 1 in
  if is_finite f then ret f
  else raise OverflowError "int too large to convert to float".

(** The value of a finite double. *)
Definition float_value (s : bool) (m : positive) (e : Z) : Q :=
  ((if s then -1 else 1) * inject_Z (Z.pos m) * 2 ^ e)%Q.

(** An [int] against a [float]: the values are compared, nothing is
    rounded. *)
Definition compare_int_float (n : Z) (f : float) : option comparison :=
  match f with
  | S754_nan => None
  | S754_infinity s => Some (if s then Gt else Lt)
  | S754_zero _ => Some (n ?= 0)
  | S754_finite s m e => Some (inject_Z n ?= float_value s m e)%Q
  end.

Definition num_compare (x y : number) : option comparison :=
  match x, y with
  | Int a, Int b => Some (a ?= b)
  | Int a, Float g => compare_int_float a g
  | Float f, Int b => option_map CompOpp (compare_int_float b f)
  | Float f, Float g => SFcompare f g
  end.

(** [x >= y] *)
Definition num_ge (x y : number) : bool :=
  match num_compare x y with
  | Some Gt | Some Eq => true
  | _ => false
  end.

(** [x + y] *)
Definition py_add (x y : number) : result number :=
  match x, y with
  | Int a, Int b => ret (Int (a + b))
  | Int a, Float g =>
      f <- float_of_int a ;; ret (Float (SFadd prec emax f g))
  | Float f, Int b =>
      g <- float_of_int b ;; ret (Float (SFadd prec emax f g))
  | Float f, Float g => ret (Float (SFadd prec emax f g))
  end.

Definition float_div (f g : float) : result float :=
  if is_zero g then raise ZeroDivisionError "float division by zero"
  else ret (SFdiv prec emax f g).

(** [x / y] *)
Definition py_truediv (x y : number) : result float :=
  match x, y with
  | Int a, Int b =>
      match b with
      | 0 => raise ZeroDivisionError "division by zero"
      | Z.pos d | Z.neg d =>
          let f := nearest (xorb (a <? 0) (b <? 0)) (Z.abs_N a) d in
          if is_finite f then ret f
          else raise OverflowError
                 "integer division result too large for a float"
      end
  | Int a, Float g => f <- float_of_int a ;; float_div f g
  | Float f, Int b => g <- float_of_int b ;; float_div f g
  | Float f, Float g => float_div f g
  end.

(** Nearest integer, ties to the even one. *)
Definition round_half_even (q : Q) : Z :=
  let f := Qfloor q in
  match Qcompare (q - inject_Z f) (1 # 2) with
  | Lt => f
  | Gt => f + 1
  | Eq => if Z.even f then f else f + 1
  end.

(** [round(x, 2)] for a [float]: the value of [x] is rounded to two
    decimals, ties to the even last digit, and the double nearest to that
    decimal is returned; the sign is kept, and an infinity or the
    not-a-number is returned as it is. *)
Definition round2 (x : float) : float :=
  match x with
  | S754_finite s m e =>
      nearest s (Z.to_N (round_half_even (float_value false m e * 100))) 100
  | _ => x
  end.

(** ** Documents

    The values [json.loads] produces.  A [dict] keeps its keys in
    insertion order and is an association list; a lookup takes the first
    binding of the key. *)

Inductive json :=
| JNull
| JBool (b : bool)
| JNum (x : number)
| JStr (s : string)
| JList (l : list json)
| JObj (kvs : list (string * json)).

Definition dict := list (string * json).

Fixpoint dict_get (d : dict) (key : string) : option json :=
  match d with
  | [] => None
  | (k, v) :: d' => if String.eqb k key then Some v else dict_get d' key
  end.

(** [d[key] = v]: an existing key keeps its position. *)
Fixpoint dict_set (d : dict) (key : string) (v : json) : dict :=
  match d with
  | [] => [(key, v)]
  | (k, w) :: d' =>
      if String.eqb k key then (k, v) :: d' else (k, w) :: dict_set d' key v
  end.

Definition dict_has (d : dict) (key : string) : bool :=
  match dict_get d key with Some _ => true | None => false end.

(** Interpreter-raised errors carry a short description of the failing
    operation; the interpreter's exact wording is not modelled. *)
Definition type_error {A} (what : string) : result A := raise TypeError what.
Definition attribute_error {A} (what : string) : result A :=
  raise AttributeError what.
Definition key_error {A} (key : string) : result A :=
  raise KeyError (repr_str key).

(** [bool(v)] *)
Definition truthy (v : json) : bool :=
  match v with
  | JNull => false
  | JBool b => b
  | JNum (Int n) => negb (n =? 0)
  | JNum (Float f) => negb (is_zero f)
  | JStr s => negb (String.eqb s EmptyString)
  | JList l => match l with [] => false | _ => true end
  | JObj d => match d with [] => false | _ => true end
  end.

(** The numeric value of [v] in arithmetic and comparisons ([bool] is a
    subtype of [int]). *)
Definition to_num (v : json) : option number :=
  match v with
  | JBool b => Some (Int (if b then 1 else 0))
  | JNum x => Some x
  | _ => None
  end.

Definition is_str (v : json) (s : string) : bool :=
  match v with JStr t => String.eqb t s | _ => false end.

(** [key in v] for a [str] key. *)
Definition py_in (key : string) (v : json) : result bool :=
  match v with
  | JObj d => ret (dict_has d key)
  | JList l => ret (existsb (fun x => is_str x key) l)
  | JStr s => ret (contains s key)
  | _ => type_error "argument is not iterable"
  end.

(** [v[key]] for a [str] key. *)
Definition getitem (v : json) (key : string) : result json :=
  match v with
  | JObj d =>
      match dict_get d key with
      | Some x => ret x
      | None => key_error key
      end
  | JList _ | JStr _ => type_error "indices must be integers"
  | _ => type_error "object is not subscriptable"
  end.

(** [v[key] = x] for a [str] key. *)
Definition setitem (v : json) (key : string) (x : json) : result json :=
  match v with
  | JObj d => ret (JObj (dict_set d key x))
  | JList _ => type_error "list indices must be integers"
  | _ => type_error "object does not support item assignment"
  end.

(** [v.get(key, default)] *)
Definition get_default (v : json) (key : string) (default : json)
  : result json :=
  match v with
  | JObj d =>
      match dict_get d key with
      | Some x => ret x
      | None => ret default
      end
  | _ => attribute_error "object has no attribute 'get'"
  end.

(** [v.get(key)] *)
Definition get (v : json) (key : string) : result json :=
  get_default v key JNull.

Definition chars (s : string) : list json :=
  map (fun c => JStr (String c EmptyString)) (list_ascii_of_string s).

(** The elements [for x in v] visits. *)
Definition iter (v : json) : result (list json) :=
  match v with
  | JList l => ret l
  | JObj d => ret (map (fun kv => JStr (fst kv)) d)
  | JStr s => ret (chars s)
  | _ => type_error "object is not iterable"
  end.

(** [len(v)] *)
Definition py_len (v : json) : result Z :=
  match v with
  | JList l => ret (Z.of_nat (List.length l))
  | JObj d => ret (Z.of_nat (List.length d))
  | JStr s => ret (len s)
  | _ => type_error "object has no len()"
  end.

(** [v.values()] *)
Definition values (v : json) : result (list json) :=
  match v with
  | JObj d => ret (map snd d)
  | _ => attribute_error "object has no attribute 'values'"
  end.

(** Whether [v] can be a member of a [set]. *)
Definition hashable (v : json) : bool :=
  match v with
  | JList _ | JObj _ => false
  | _ => true
  end.

(** [sum(vs)], from the accumulator [acc] on: [acc + v] for one value
    after the other. *)
Fixpoint py_sum (vs : list json) (acc : number) : result number :=
  match vs with
  | [] => ret acc
  | v :: vs' =>
      match to_num v with
      | Some x => acc <- py_add acc x ;; py_sum vs' acc
      | None => type_error "unsupported operand type(s) for +"
      end
  end.

(** [v >= bound] against a number. *)
Definition py_ge (v : json) (bound : number) : result bool :=
  match to_num v with
  | Some x => ret (num_ge x bound)
  | None => type_error "'>=' not supported between these instances"
  end.

(** [all(score >= bound for score in vs)] *)
Fixpoint all_ge (vs : list json) (bound : number) : result bool :=
  match vs with
  | [] => ret true
  | v :: vs' =>
      b <- py_ge v bound ;;
      if b then all_ge vs' bound else ret false
  end.

End Py.

(* ===================================================================== *)
(** * core/llm.py: the generation client *)
(* ===================================================================== *)

Module LLM.
Import Py.

Definition fence_json : string := "```json".
Definition fence : string := "```".

(** The [for i, char in enumerate(response[start:])] loop of
    [generate_json]: [Some (i + 1)] when the loop breaks at offset [i],
    [None] when it runs to the end of the text. *)
Fixpoint brace_scan (rest : string) (i : Z) (brace_count : Z) : option Z :=
  match rest with
  | EmptyString => None
  | String char rest' =>
      if Ascii.eqb char "{" then brace_scan rest' (i + 1) (brace_count + 1)
      else if Ascii.eqb char "}" then
        let brace_count := brace_count - 1 in
        if brace_count =? 0 then Some (i + 1)
        else brace_scan rest' (i + 1) brace_count
      else brace_scan rest' (i + 1) brace_count
  end.

(** Lines 125-134: contents of a fenced block. *)
Definition strip_fences (response : string) : string :=
  if contains response fence_json then
    let start := find response fence_json + 7 in
    let end_ := find_from response fence start in
    if negb (end_ =? -1) then strip (slice response start end_)
    else response
  else if contains response fence then
    let start := find response fence + 3 in
    let end_ := find_from response fence start in
    if negb (end_ =? -1) then strip (slice response start end_)
    else response
  else response.

(** Lines 137-150: the span from the first brace to its matching brace. *)
Definition brace_span (response : string) : string :=
  if negb (startswith response "{") then
    let start := find response "{" in
    if negb (start =? -1) then
      let end_ :=
        match brace_scan (slice_from response start) 0 0 with
        | Some k => start + k
        | None => start
        end in
      slice response start end_
    else response
  else response.

(** Lines 122-152 of [generate_json]: the text handed to [json.loads]. *)
Definition clean_response (raw : string) : string :=
  let response := strip raw in
  let response := strip_fences response in
  let response := brace_span response in
  strip response.

(** ** Messages

    A chat turn is a message dict with its 'role' and 'content'.  Message
    objects live in a store and a message list holds references to them,
    so that two lists can share one message object. *)

Record message := Message { role : string; content : string }.

(** The turns a list of references denotes in a store. *)
Definition deref (h : gmap nat message) (messages : list nat)
  : list message :=
  omap (fun l => h !! l) messages.

(** ** One HTTP exchange with the generation endpoint *)

Inductive response_body :=
| BadJson (e : string)
    (** [response.json()] raises, [e] is [str] of the error *)
| Data (data_str : string) (choice : string + json)
    (** [response.json()] returns [data]; [data_str] is [str(data)] and
        [choice] the outcome of reading
        [data["choices"][0]["message"]["content"]]: the content, whatever
        value it is, or [str] of the error that reading it raises *).

Record http_response :=
  { status_code : Z; text : string; body : response_body }.

Inductive http_result :=
| ConnectError (e : string)
| ReadError (e : string)
| TimeoutException (e : string)
| OtherError (e : string)
| Response (r : http_response).

(** [response.raise_for_status()] raises outside the 2xx range. *)
Definition is_success (status : Z) : bool :=
  (200 <=? status) && (status <=? 299).

(** The fall-through handler [except Exception as e] of [generate]. *)
Definition failed_to_generate {A} (e : string) : result A :=
  raise LLMException ("Failed to generate response: " ++ e).

(** [generate]: the exchange is performed by the caller of this function
    and handed over as [r].  The content is returned as it is once
    [len(content)] has been taken for the log: a text, but also a list or
    a dict; a content without a length ([null], a number, a truth value)
    raises there, inside the [try]. *)
Definition generate (r : http_result) : result json :=
  match r with
  | ConnectError e => raise LLMException ("CONNECTION_ERROR: " ++ e)
  | ReadError e => raise LLMException ("CONNECTION_ERROR: " ++ e)
  | TimeoutException e => raise LLMException ("TIMEOUT_ERROR: " ++ e)
  | OtherError e => failed_to_generate e
  | Response resp =>
      if status_code resp =? 429 then
        match body resp with
        | BadJson e => failed_to_generate e
        | Data error_data _ =>
            (* raised inside the [try], hence caught and wrapped again *)
            failed_to_generate ("429 RATE_LIMITED: " ++ error_data)
        end
      else if negb (is_success (status_code resp)) then
        raise LLMException
          ("HTTP error " ++ str_of_int (status_code resp) ++ ": "
             ++ text resp)
      else
        match body resp with
        | BadJson e => failed_to_generate e
        | Data _ (inl e) => failed_to_generate e
        | Data _ (inr content) =>
            match py_len content with
            | inr _ => ret content
            | inl e => failed_to_generate (exn_str e)
            end
        end
  end.

(** What one call of the client does to the outside world. *)
Inductive event :=
| Post (messages : list message)
| Sleep (seconds : Q).

Definition JSON_INSTRUCTION : string :=
  String (ascii_of_nat 10) (String (ascii_of_nat 10)
    "Respond ONLY with valid JSON. Do not include any thoughts, explanations, or markdown formatting.").

Section Client.

(** [_extract_retry_delay]: a regular-expression search over the error
    text, kept abstract. *)
Variable extract_retry_delay : string -> Q.

(** [json.loads]: the parsed document, or [str] of the
    [JSONDecodeError]. *)
Variable json_loads : string -> string + json.

(** The exchange of each attempt, by attempt number and turns sent. *)
Variable http : Z -> list message -> http_result.

(** [str(last_error)] *)
Definition str_of_last_error (last_error : option exn) : string :=
  match last_error with
  | Some e => exn_str e
  | None => "None"
  end.

(** The pause after a failed attempt (lines 208-222). *)
Definition backoff (max_retries attempt : Z) (error_str : string)
  : list event :=
  if contains error_str "CONNECTION_ERROR"
     || contains error_str "TIMEOUT_ERROR" then
    [Sleep (inject_Z (Z.min (2 ^ attempt) 10))]
  else if contains error_str "429"
          || contains error_str "RATE_LIMITED" then
    [Sleep (extract_retry_delay error_str)]
  else if attempt <? max_retries - 1 then
    [Sleep (inject_Z (Z.min (2 ^ attempt) 30))]
  else [].

(** The [for attempt in range(max_retries)] loop with [remaining]
    iterations to go, and the [raise] after it. *)
Fixpoint retry_loop (messages : list message) (max_retries : Z)
    (remaining : nat) (attempt : Z) (last_error : option exn)
  : list event * result json :=
  match remaining with
  | O =>
      ([], raise LLMException
             ("Failed after " ++ str_of_int max_retries ++ " attempts: "
                ++ str_of_last_error last_error))
  | S remaining' =>
      match generate (http attempt messages) with
      | inr content => ([Post messages], ret content)
      | inl e =>
          let '(events, r) :=
            retry_loop messages max_retries remaining' (attempt + 1)
              (Some e) in
          (Post messages :: backoff max_retries attempt (exn_str e)
             ++ events, r)
      end
  end.

Definition generate_with_retry (messages : list message)
    (max_retries : Z) : list event * result json :=
  retry_loop messages max_retries (Z.to_nat max_retries) 0 None.

(** Lines 108-110: [messages.copy()] makes a new list holding the same
    references, and [+=] rebinds the 'content' of the message object
    the last reference points to. *)
Definition add_json_instruction (h : gmap nat message)
    (json_messages : list nat) : gmap nat message :=
  match last json_messages with
  | Some l =>
      match h !! l with
      | Some m =>
          if String.eqb (role m) "user" then
            <[l := Message (role m) (content m ++ JSON_INSTRUCTION)]> h
          else h
      | None => h
      end
  | None => h
  end.

(** Lines 152-160: the cleaned text is parsed unless it is empty. *)
Definition parse_response (raw : string) : result json :=
  let response := clean_response raw in
  if String.eqb response EmptyString then
    raise LLMException "Empty response after cleaning"
  else
    match json_loads response with
    | inr document => ret document
    | inl e => raise LLMException ("Invalid JSON response: " ++ e)
    end.

(** Lines 119-160 on what [generate_with_retry] returned.  Only a text
    can be cleaned and parsed: a list has no [strip], and a dict cannot be
    sliced (a TypeError up to CPython 3.11); these errors are raised again
    as they are by the last handler. *)
Definition parse_reply (response : json) : result json :=
  match response with
  | JStr raw => parse_response raw
  | JList _ => attribute_error "'list' object has no attribute 'strip'"
  | JObj _ => type_error "unhashable type: 'slice'"
  | _ => type_error "object is not subscriptable"
  end.

(** [generate_json]: the store after the call, what the call did, and
    what it returned or raised. *)
Definition generate_json (h : gmap nat message) (messages : list nat)
  : gmap nat message * list event * result json :=
  let json_messages := messages in
  let h' := add_json_instruction h json_messages in
  let '(events, r) := generate_with_retry (deref h' json_messages) 3 in
  (h', events, response <- r ;; parse_reply response).

End Client.

End LLM.

(* ===================================================================== *)
(** * services/validation_service.py: the resource validator *)
(* ===================================================================== *)

Module Validation.
Import Py.

(** What one request of the HTTP client comes back with. *)
Inductive probe_result :=
| ProbeResponse (status_code : Z) (content_type : option string)
| ProbeTimeout
| ProbeError (e : string).

(** The exchanges available to one [validate_url] call: the answer to
    the HEAD request and the answer to the GET request, should it be
    made. *)
Record probe := Probe { head : probe_result; get_ : probe_result }.

Definition json_of_option_str (o : option string) (default : json) : json :=
  match o with Some s => JStr s | None => default end.

Definition probe_failed (url : json) (error : string) : dict :=
  [ ("url", url); ("accessible", JBool false); ("status_code", JNull);
    ("content_type", JNull); ("error", JStr error) ].

Definition probe_answered (url : json) (status_code : Z)
    (content_type : option string) : dict :=
  [ ("url", url); ("accessible", JBool (status_code <? 400));
    ("status_code", JNum (Int status_code));
    ("content_type", json_of_option_str content_type (JStr "unknown"));
    ("error", JNull) ].

Definition validate_url (p : probe) (url : json) : dict :=
  match head p with
  | ProbeTimeout => probe_failed url "Timeout"
  | ProbeError e => probe_failed url e
  | ProbeResponse status_code content_type =>
      if 400 <=? status_code then
        match get_ p with
        | ProbeTimeout => probe_failed url "Timeout"
        | ProbeError e => probe_failed url e
        | ProbeResponse status_code content_type =>
            probe_answered url status_code content_type
        end
      else probe_answered url status_code content_type
  end.

(** [resource.get("title", "Unknown")] *)
Definition resource_title (resource : dict) : json :=
  match dict_get resource "title" with
  | Some t => t
  | None => JStr "Unknown"
  end.

(** [resource["url"]] *)
Definition resource_url (resource : dict) : result json :=
  match dict_get resource "url" with
  | Some u => ret u
  | None => key_error "url"
  end.

(** The task [validate_with_limit(resource)], once it holds the
    semaphore. *)
Definition validate_with_limit (p : probe) (resource : dict)
  : result dict :=
  url <- resource_url resource ;;
  ret (dict_set (validate_url p url) "resource_title"
         (resource_title resource)).

(** [asyncio.gather] with [return_exceptions=True]: the outcome of each
    task, in the order of the tasks; task [i] meets the exchanges
    [net i]. *)
Fixpoint gather (net : nat -> probe) (i : nat) (resources : list dict)
  : list (result dict) :=
  match resources with
  | [] => []
  | r :: rest => validate_with_limit (net i) r :: gather net (S i) rest
  end.

(** The loop [for i, result in enumerate(results)]. *)
Fixpoint process_results (resources : list dict)
    (results : list (result dict)) : result (list dict) :=
  match resources, results with
  | r :: resources', inl e :: results' =>
      url <- resource_url r ;;
      rest <- process_results resources' results' ;;
      ret ([ ("url", url); ("accessible", JBool false);
             ("error", JStr (exn_str e));
             ("resource_title", resource_title r) ] :: rest)
  | _ :: resources', inr result :: results' =>
      rest <- process_results resources' results' ;;
      ret (result :: rest)
  | _, _ => ret []
  end.

(** How a call ends. *)
Inductive outcome (A : Type) :=
| Returns (a : A)
| Raises (e : exn)
| Hangs.
Arguments Returns {A} a.
Arguments Raises {A} e.
Arguments Hangs {A}.

(** [validate_batch].  [asyncio.Semaphore] rejects a negative value, and
    no task ever acquires a semaphore of value zero. *)
Definition validate_batch (net : nat -> probe) (resources : list dict)
    (max_concurrent : Z) : outcome (list dict) :=
  if max_concurrent <? 0 then
    Raises (Raise ValueError "Semaphore initial value must be >= 0")
  else if (max_concurrent =? 0)
          && negb (Nat.eqb (List.length resources) 0) then Hangs
  else
    match process_results resources (gather net 0 resources) with
    | inr processed_results => Returns processed_results
    | inl e => Raises e
    end.

End Validation.

(* ===================================================================== *)
(** * config.py, workflow/state.py, agents/base.py *)
(* ===================================================================== *)

Module Config.

Record Settings := { MAX_ITERATIONS : Z; QUALITY_THRESHOLD : Py.float }.

(** The values [config.py] declares: 2 and the double [0.85]. *)
Definition default_settings : Settings :=
  {| MAX_ITERATIONS := 2; QUALITY_THRESHOLD := Py.nearest false 85 100 |}.

End Config.

Module State.
Import Py.

(** An entry of [agent_logs]. *)
Record log_entry :=
  { log_agent : string; log_action_name : string; log_iteration : Z;
    log_details : dict }.

Record WorkflowState :=
  { topic : string;
    context : option string;
    experience_level : string;
    research_findings : json;
    draft_curriculum : json;
    expert_feedback : json;
    quality_review : json;
    iteration : Z;
    approved : json;
    final_output : json;
    started_at : Z;
    completed_at : option Z;
    errors : list string;
    agent_logs : list log_entry }.

Definition create_initial_state (now : Z) (topic : string)
    (context : option string) (experience_level : string)
  : WorkflowState :=
  {| topic := topic;
     context := context;
     experience_level := experience_level;
     research_findings := JObj [];
     draft_curriculum := JObj [];
     expert_feedback := JObj [];
     quality_review := JObj [];
     iteration := 0;
     approved := JBool false;
     final_output := JNull;
     started_at := now;
     completed_at := None;
     errors := [];
     agent_logs := [] |}.

(** Assignments [state[key] = v]. *)

Definition set_research_findings (v : json) (s : WorkflowState) :=
  {| topic := topic s; context := context s;
     experience_level := experience_level s;
     research_findings := v;
     draft_curriculum := draft_curriculum s;
     expert_feedback := expert_feedback s;
     quality_review := quality_review s;
     iteration := iteration s; approved := approved s;
     final_output := final_output s; started_at := started_at s;
     completed_at := completed_at s; errors := errors s;
     agent_logs := agent_logs s |}.

Definition set_draft_curriculum (v : json) (s : WorkflowState) :=
  {| topic := topic s; context := context s;
     experience_level := experience_level s;
     research_findings := research_findings s;
     draft_curriculum := v;
     expert_feedback := expert_feedback s;
     quality_review := quality_review s;
     iteration := iteration s; approved := approved s;
     final_output := final_output s; started_at := started_at s;
     completed_at := completed_at s; errors := errors s;
     agent_logs := agent_logs s |}.

Definition set_expert_feedback (v : json) (s : WorkflowState) :=
  {| topic := topic s; context := context s;
     experience_level := experience_level s;
     research_findings := research_findings s;
     draft_curriculum := draft_curriculum s;
     expert_feedback := v;
     quality_review := quality_review s;
     iteration := iteration s; approved := approved s;
     final_output := final_output s; started_at := started_at s;
     completed_at := completed_at s; errors := errors s;
     agent_logs := agent_logs s |}.

Definition set_quality_review (v : json) (s : WorkflowState) :=
  {| topic := topic s; context := context s;
     experience_level := experience_level s;
     research_findings := research_findings s;
     draft_curriculum := draft_curriculum s;
     expert_feedback := expert_feedback s;
     quality_review := v;
     iteration := iteration s; approved := approved s;
     final_output := final_output s; started_at := started_at s;
     completed_at := completed_at s; errors := errors s;
     agent_logs := agent_logs s |}.

Definition set_iteration (v : Z) (s : WorkflowState) :=
  {| topic := topic s; context := context s;
     experience_level := experience_level s;
     research_findings := research_findings s;
     draft_curriculum := draft_curriculum s;
     expert_feedback := expert_feedback s;
     quality_review := quality_review s;
     iteration := v; approved := approved s;
     final_output := final_output s; started_at := started_at s;
     completed_at := completed_at s; errors := errors s;
     agent_logs := agent_logs s |}.

Definition set_approved (v : json) (s : WorkflowState) :=
  {| topic := topic s; context := context s;
     experience_level := experience_level s;
     research_findings := research_findings s;
     draft_curriculum := draft_curriculum s;
     expert_feedback := expert_feedback s;
     quality_review := quality_review s;
     iteration := iteration s; approved := v;
     final_output := final_output s; started_at := started_at s;
     completed_at := completed_at s; errors := errors s;
     agent_logs := agent_logs s |}.

Definition set_final_output (v : json) (s : WorkflowState) :=
  {| topic := topic s; context := context s;
     experience_level := experience_level s;
     research_findings := research_findings s;
     draft_curriculum := draft_curriculum s;
     expert_feedback := expert_feedback s;
     quality_review := quality_review s;
     iteration := iteration s; approved := approved s;
     final_output := v; started_at := started_at s;
     completed_at := completed_at s; errors := errors s;
     agent_logs := agent_logs s |}.

Definition set_completed_at (v : option Z) (s : WorkflowState) :=
  {| topic := topic s; context := context s;
     experience_level := experience_level s;
     research_findings := research_findings s;
     draft_curriculum := draft_curriculum s;
     expert_feedback := expert_feedback s;
     quality_review := quality_review s;
     iteration := iteration s; approved := approved s;
     final_output := final_output s; started_at := started_at s;
     completed_at := v; errors := errors s;
     agent_logs := agent_logs s |}.

Definition set_errors (v : list string) (s : WorkflowState) :=
  {| topic := topic s; context := context s;
     experience_level := experience_level s;
     research_findings := research_findings s;
     draft_curriculum := draft_curriculum s;
     expert_feedback := expert_feedback s;
     quality_review := quality_review s;
     iteration := iteration s; approved := approved s;
     final_output := final_output s; started_at := started_at s;
     completed_at := completed_at s; errors := v;
     agent_logs := agent_logs s |}.

Definition set_agent_logs (v : list log_entry) (s : WorkflowState) :=
  {| topic := topic s; context := context s;
     experience_level := experience_level s;
     research_findings := research_findings s;
     draft_curriculum := draft_curriculum s;
     expert_feedback := expert_feedback s;
     quality_review := quality_review s;
     iteration := iteration s; approved := approved s;
     final_output := final_output s; started_at := started_at s;
     completed_at := completed_at s; errors := errors s;
     agent_logs := v |}.

(** [BaseAgent.log_action] *)
Definition log_action (name : string) (s : WorkflowState)
    (action : string) (details : dict) : WorkflowState :=
  set_agent_logs
    (agent_logs s
       ++ [ {| log_agent := name; log_action_name := action;
               log_iteration := iteration s; log_details := details |} ])
    s.

(** [BaseAgent.add_error] *)
Definition add_error (name : string) (s : WorkflowState) (error : string)
  : WorkflowState :=
  set_errors (errors s ++ [ "[" ++ name ++ "] " ++ error ]) s.

(** The check every stage runs on the generated document:
    [for key in required_keys: if key not in response: raise ValueError]. *)
Fixpoint check_required (what : string) (required_keys : list string)
    (response : json) : result unit :=
  match required_keys with
  | [] => ret tt
  | key :: keys =>
      present <- py_in key response ;;
      if present then check_required what keys response
      else raise ValueError (what ++ key)
  end.

(** [f"{v:.2f}"] formats numbers only, an [int] as the [float] it
    converts to; the text itself is only logged. *)
Definition format_2f (v : json) : result unit :=
  match v with
  | JStr _ => raise ValueError "Unknown format code 'f'"
  | _ =>
      match to_num v with
      | Some (Int n) => _ <- float_of_int n ;; ret tt
      | Some (Float _) => ret tt
      | None => type_error "unsupported format string"
      end
  end.

End State.

(* ===================================================================== *)
(** * agents/quality.py: the Quality Gate stage *)
(* ===================================================================== *)

Module QualityAgent.
Import Py State.

Definition name : string := "QualityAgent".

Definition required_keys : list string :=
  ["approved"; "score"; "scores"; "violations"].

(** Line 132: [sum(scores.values()) / len(scores)]. *)
Definition mean (d : dict) : result float :=
  total <- py_sum (map snd d) (Int 0) ;;
  py_truediv total (Int (Z.of_nat (List.length d))).

(** Lines 131-133: the score becomes the rounded mean of the sub-scores
    when these come as a dict. *)
Definition average_scores (response scores : json) : result json :=
  match scores with
  | JObj d =>
      avg_score <- mean d ;;
      setitem response "score" (JNum (Float (round2 avg_score)))
  | _ => ret response
  end.

(** Lines 136-140: [a and b and c], evaluated left to right and stopping
    at the first operand that is not true. *)
Definition determine_approval (quality_threshold : float)
    (response scores : json) : result json :=
  reported <- getitem response "approved" ;;
  if negb (truthy reported) then ret reported
  else
    score <- getitem response "score" ;;
    above <- py_ge score (Float quality_threshold) ;;
    if negb above then ret (JBool false)
    else
      vs <- values scores ;;
      every <- all_ge vs (Float (nearest false 8 10)) ;;
      ret (JBool every).

(** Lines 117-142: from the generated document to the verdict. *)
Definition review (quality_threshold : float) (llm : result json)
  : result (json * json) :=
  response <- llm ;;
  _ <- check_required "Missing required key in quality review: "
         required_keys response ;;
  scores <- getitem response "scores" ;;
  response <- average_scores response scores ;;
  approved <- determine_approval quality_threshold response scores ;;
  response <- setitem response "approved" approved ;;
  ret (response, approved).

(** Line 164: the ceiling of the stage, [state["iteration"] >= 5]. *)
Definition ceiling_reached (s : WorkflowState) : bool := 5 <=? iteration s.

(** Lines 149-166, after the verdict is stored. *)
Definition report (s : WorkflowState) (response approved : json)
  : WorkflowState * option exn :=
  match
    (violations <- get_default response "violations" (JList []) ;;
     violation_count <- py_len violations ;;
     score <- getitem response "score" ;;
     ret (violation_count, score))
  with
  | inl e => (s, Some e)
  | inr (violation_count, score) =>
      let s :=
        log_action name s "Quality review completed"
          [ ("approved", approved); ("score", score);
            ("violations", JNum (Int violation_count));
            ("iteration", JNum (Int (iteration s))) ] in
      match format_2f score with
      | inl e => (s, Some e)
      | inr _ =>
          if negb (truthy approved) && ceiling_reached s then
            (set_approved (JBool true) s, None)
          else (s, None)
      end
  end.

Definition failed (s : WorkflowState) (e : exn) : WorkflowState :=
  add_error name s ("Quality review failed: " ++ exn_str e).

(** [QualityAgent.run]; [llm] is what [generate_json] returns or raises
    for this call. *)
Definition run (settings : Config.Settings) (llm : result json)
    (s : WorkflowState) : WorkflowState :=
  let s := log_action name s "Starting quality review" [] in
  match review (Config.QUALITY_THRESHOLD settings) llm with
  | inl e => failed s e
  | inr (response, approved) =>
      let s := set_quality_review response s in
      let s := set_approved approved s in
      match report s response approved with
      | (s, Some e) => failed s e
      | (s, None) => s
      end
  end.

End QualityAgent.

(* ===================================================================== *)
(** * agents/expert.py: the Technical Review stage *)
(* ===================================================================== *)

Module ExpertAgent.
Import Py State.

Definition name : string := "ExpertAgent".

Definition required_keys : list string :=
  ["validation"; "confidence"; "scores"; "issues"].

Definition validate (llm : result json) : result json :=
  response <- llm ;;
  _ <- check_required "Missing required key in expert review: "
         required_keys response ;;
  ret response.

(** [sum(1 for i in issues if i.get("severity") == "high")] *)
Fixpoint count_high (issues : list json) : result Z :=
  match issues with
  | [] => ret 0
  | i :: rest =>
      severity <- get i "severity" ;;
      n <- count_high rest ;;
      ret (if is_str severity "high" then 1 + n else n)
  end.

Definition report (s : WorkflowState) (response : json)
  : WorkflowState * option exn :=
  match
    (issues <- get_default response "issues" (JList []) ;;
     issue_count <- py_len issues ;;
     issues <- get_default response "issues" (JList []) ;;
     elements <- iter issues ;;
     high_severity <- count_high elements ;;
     validation <- getitem response "validation" ;;
     confidence <- getitem response "confidence" ;;
     ret (issue_count, high_severity, validation, confidence))
  with
  | inl e => (s, Some e)
  | inr (issue_count, high_severity, validation, confidence) =>
      let s :=
        log_action name s "Expert validation completed"
          [ ("validation", validation); ("confidence", confidence);
            ("issues_found", JNum (Int issue_count));
            ("high_severity_issues", JNum (Int high_severity)) ] in
      match format_2f confidence with
      | inl e => (s, Some e)
      | inr _ => (s, None)
      end
  end.

Definition failed (s : WorkflowState) (e : exn) : WorkflowState :=
  add_error name s ("Expert validation failed: " ++ exn_str e).

Definition run (llm : result json) (s : WorkflowState) : WorkflowState :=
  let s := log_action name s "Starting expert validation" [] in
  match validate llm with
  | inl e => failed s e
  | inr response =>
      let s := set_expert_feedback response s in
      match report s response with
      | (s, Some e) => failed s e
      | (s, None) => s
      end
  end.

End ExpertAgent.

(* ===================================================================== *)
(** * agents/tools.py, agents/research.py: the Discovery stage *)
(* ===================================================================== *)

Module Tools.
Import Py.

(** What [WebSearchClient.search] builds for each hit. *)
Record search_result :=
  { sr_title : string; sr_url : string; sr_snippet : string }.

Definition json_of_result (r : search_result) : json :=
  JObj [ ("title", JStr (sr_title r)); ("url", JStr (sr_url r));
         ("snippet", JStr (sr_snippet r)); ("source", JStr "duckduckgo") ].

End Tools.

Module ResearchAgent.
Import Py State Tools.

Definition name : string := "ResearchAgent".

Definition required_keys : list string :=
  ["topic_analysis"; "prerequisites"; "core_concepts"; "ecosystem";
   "scope_assessment"].

(** [search_queries[:3]] *)
Definition search_queries (topic : string) : list string :=
  [ topic ++ " what is it used for";
    topic ++ " official documentation getting started";
    topic ++ " best practices tutorial" ].

(** The search loop: a failed query is skipped.  [search i] is the
    outcome of query number [i]. *)
Fixpoint run_searches (search : nat -> result (list search_result))
    (i : nat) (queries : list string) : list search_result :=
  match queries with
  | [] => []
  | _ :: rest =>
      match search i with
      | inr results => results ++ run_searches search (S i) rest
      | inl _ => run_searches search (S i) rest
      end
  end.

(** Removal of duplicates by URL, first occurrence kept. *)
Fixpoint unique_by_url (results : list search_result)
    (seen_urls : gset string) : list search_result :=
  match results with
  | [] => []
  | r :: rest =>
      let url := sr_url r in
      if negb (String.eqb url EmptyString) && bool_decide (url ∉ seen_urls) then
        r :: unique_by_url rest ({[ url ]} ∪ seen_urls)
      else unique_by_url rest seen_urls
  end.

Definition confidence (sources_found : Z) : string :=
  if 5 <=? sources_found then "high"
  else if 3 <=? sources_found then "medium"
  else "low".

Definition search_metadata (topic : string)
    (search_results : list search_result) : json :=
  let n := Z.of_nat (List.length search_results) in
  JObj [ ("sources_found", JNum (Int n));
         ("confidence", JStr (confidence n));
         ("search_queries", JList (map JStr (search_queries topic))) ].

(** [[key for key in required_keys if key not in response]] *)
Definition missing_keys (response : dict) : list string :=
  List.filter (fun key => negb (dict_has response key)) required_keys.

(** From the generated document to the findings that get stored. *)
Definition analyse (topic : string) (search_results : list search_result)
    (llm : result json) : result json :=
  response <- llm ;;
  response <- setitem response "search_metadata"
                (search_metadata topic search_results) ;;
  response <- setitem response "_raw_search_results"
                (JList (map json_of_result search_results)) ;;
  match response with
  | JObj d =>
      match missing_keys d with
      | [] => ret response
      | missing =>
          raise ValueError
            ("Missing required keys: " ++ str_of_str_list missing)
      end
  | _ => type_error "argument is not iterable"
  end.

Definition report (s : WorkflowState) (response : json)
    (search_results : list search_result) : WorkflowState * option exn :=
  match
    (core_concepts <- getitem response "core_concepts" ;;
     concepts_found <- py_len core_concepts ;;
     scope <- getitem response "scope_assessment" ;;
     suggested_tasks <- getitem scope "suggested_tasks" ;;
     scope <- getitem response "scope_assessment" ;;
     suggested_phases <- getitem scope "suggested_phases" ;;
     metadata <- getitem response "search_metadata" ;;
     confidence <- getitem metadata "confidence" ;;
     ret (concepts_found, suggested_tasks, suggested_phases, confidence))
  with
  | inl e => (s, Some e)
  | inr (concepts_found, suggested_tasks, suggested_phases, confidence) =>
      (log_action name s "Research completed"
         [ ("concepts_found", JNum (Int concepts_found));
           ("suggested_tasks", suggested_tasks);
           ("suggested_phases", suggested_phases);
           ("search_sources",
             JNum (Int (Z.of_nat (List.length search_results))));
           ("confidence", confidence) ], None)
  end.

Definition failed (s : WorkflowState) (e : exn) : WorkflowState :=
  add_error name s ("Research failed: " ++ exn_str e).

Definition run (search : nat -> result (list search_result))
    (llm : result json) (s : WorkflowState) : WorkflowState :=
  let s := log_action name s "Starting research with web search" [] in
  let search_results :=
    run_searches search 0 (search_queries (topic s)) in
  let search_results := firstn 10 (unique_by_url search_results ∅) in
  match analyse (topic s) search_results llm with
  | inl e => failed s e
  | inr response =>
      let s := set_research_findings response s in
      match report s response search_results with
      | (s, Some e) => failed s e
      | (s, None) => s
      end
  end.

End ResearchAgent.

(* ===================================================================== *)
(** * agents/curriculum.py: the Structuring stage *)
(* ===================================================================== *)

Module CurriculumAgent.
Import Py State Tools.

Definition name : string := "CurriculumAgent".

Definition required_keys : list string :=
  ["id"; "title"; "phases"; "total_tasks"; "estimated_hours"].

(** ** The corrective feedback of the prompt (lines 132-143)

    The text of the prompt is of no consequence here; whether building it
    raises is. *)

Definition feedback_issue (issue : json) : result unit :=
  severity <- getitem issue "severity" ;;
  match severity with
  | JStr _ =>
      _ <- getitem issue "issue" ;;
      _ <- get issue "suggestion" ;;
      ret tt
  | _ => attribute_error "object has no attribute 'upper'"
  end.

Fixpoint feedback_issues (issues : list json) : result unit :=
  match issues with
  | [] => ret tt
  | issue :: rest => _ <- feedback_issue issue ;; feedback_issues rest
  end.

Definition build_feedback (iteration : Z) (expert_feedback : json)
  : result unit :=
  if (1 <? iteration) && truthy expert_feedback then
    issues <- get expert_feedback "issues" ;;
    if truthy issues then
      issues <- getitem expert_feedback "issues" ;;
      elements <- iter issues ;;
      feedback_issues elements
    else ret tt
  else ret tt.

(** ** Enrichment of task resources (lines 213-273) *)

Definition resource_of_result (r : search_result) : json :=
  JObj [ ("title", JStr (sr_title r)); ("url", JStr (sr_url r));
         ("type", JStr "documentation");
         ("description", JStr (slice_to (sr_snippet r) 100)) ].

(** [any(r.get("url") == url for r in current_resources)] *)
Fixpoint any_url (current_resources : list json) (url : string)
  : result bool :=
  match current_resources with
  | [] => ret false
  | r :: rest =>
      u <- get r "url" ;;
      if is_str u url then ret true else any_url rest url
  end.

(** The loop [for result in results[:2]]. *)
Fixpoint add_results (results : list search_result)
    (current_resources : list json) : result (list json) :=
  match results with
  | [] => ret current_resources
  | r :: rest =>
      present <- any_url current_resources (sr_url r) ;;
      if present then add_results rest current_resources
      else add_results rest (current_resources ++ [resource_of_result r])
  end.

(** Lines 249-262 for one task and a non-empty result list. *)
Definition enrich_task (results : list search_result) (task : json)
  : result json :=
  current_resources <- get_default task "resources" (JList []) ;;
  match current_resources with
  | JList l =>
      l <- add_results (firstn 2 results) l ;;
      setitem task "resources" (JList (firstn 5 l))
  | JStr _ | JObj _ => attribute_error "resources cannot be extended"
  | _ => type_error "object is not iterable"
  end.

(** The first pass (lines 223-228), which only collects titles. *)
Fixpoint collect_task_titles (tasks : list json) : result unit :=
  match tasks with
  | [] => ret tt
  | task :: rest =>
      task_title <- get_default task "title" (JStr EmptyString) ;;
      if hashable task_title then collect_task_titles rest
      else type_error "unhashable type"
  end.

Fixpoint collect_concepts (phases : list json) : result unit :=
  match phases with
  | [] => ret tt
  | phase :: rest =>
      tasks <- get_default phase "tasks" (JList []) ;;
      elements <- iter tasks ;;
      _ <- collect_task_titles elements ;;
      collect_concepts rest
  end.

(** The inner loop of the second pass over the tasks of one phase.
    [search n] is the outcome of the [n]-th documentation search of this
    stage run; the loop returns the tasks, the number of searches made so
    far and [searched_concepts]. *)
Fixpoint enrich_tasks (search : nat -> result (list search_result))
    (tasks : list json) (n : nat) (searched_concepts : Z)
  : list json * nat * Z :=
  match tasks with
  | [] => ([], n, searched_concepts)
  | task :: rest =>
      if 5 <=? searched_concepts then (tasks, n, searched_concepts)
      else
        let '(task, searched_concepts) :=
          match search n with
          | inr (r :: results) =>
              match enrich_task (r :: results) task with
              | inr task' => (task', searched_concepts + 1)
              | inl _ => (task, searched_concepts)
              end
          | inr [] => (task, searched_concepts)
          | inl _ => (task, searched_concepts)
          end in
        let '(rest, n, searched_concepts) :=
          enrich_tasks search rest (S n) searched_concepts in
        (task :: rest, n, searched_concepts)
  end.

(** The outer loop of the second pass. *)
Fixpoint enrich_phases (search : nat -> result (list search_result))
    (phases : list json) (n : nat) (searched_concepts : Z) : list json :=
  match phases with
  | [] => []
  | phase :: rest =>
      match phase with
      | JObj d =>
          match dict_get d "tasks" with
          | Some (JList tasks) =>
              let '(tasks, n, searched_concepts) :=
                enrich_tasks search tasks n searched_concepts in
              JObj (dict_set d "tasks" (JList tasks))
                :: enrich_phases search rest n searched_concepts
          | _ => phase :: enrich_phases search rest n searched_concepts
          end
      | _ => phase :: enrich_phases search rest n searched_concepts
      end
  end.

(** The first pass as a whole: it raises when a phase or a task is not a
    dict, when something is not iterable, or on an unhashable title. *)
Definition first_pass (curriculum : json) : result unit :=
  phases <- get_default curriculum "phases" (JList []) ;;
  elements <- iter phases ;;
  collect_concepts elements.

(** The second pass as a whole.  Once the first pass has gone through,
    the phases are a list of dicts whose tasks are lists of dicts, or
    there is nothing to visit. *)
Definition second_pass (search : nat -> result (list search_result))
    (curriculum : json) : json :=
  match curriculum with
  | JObj d =>
      match dict_get d "phases" with
      | Some (JList phases) =>
          JObj (dict_set d "phases"
                  (JList (enrich_phases search phases 0 0)))
      | _ => curriculum
      end
  | _ => curriculum
  end.

(** [_enrich_resources_with_search]: never raises; a failure of the
    first pass is logged and leaves the curriculum as it is. *)
Definition enrich_resources_with_search
    (search : nat -> result (list search_result)) (curriculum : json)
  : json :=
  match first_pass curriculum with
  | inr _ => second_pass search curriculum
  | inl _ => curriculum
  end.

Section Run.

(** [slugify] of the python-slugify package. *)
Variable slugify : json -> result string.

(** [str(v)], as an f-string renders a value. *)
Variable py_str : json -> string.

(** [raise ValueError(f"Phase {phase.get('id')} has no tasks")] *)
Definition no_tasks {A} (phase : json) : result A :=
  id <- get phase "id" ;;
  raise ValueError ("Phase " ++ py_str id ++ " has no tasks").

(** Lines 178-182: the loop over the phases with the running count. *)
Fixpoint count_tasks (phases : list json) (total_tasks : Z) : result Z :=
  match phases with
  | [] => ret total_tasks
  | phase :: rest =>
      has_tasks <- py_in "tasks" phase ;;
      if negb has_tasks then no_tasks phase
      else
        tasks <- getitem phase "tasks" ;;
        if negb (truthy tasks) then no_tasks phase
        else
          n <- py_len tasks ;;
          count_tasks rest (total_tasks + n)
  end.

(** Lines 161-185: validation of the generated document. *)
Definition validate (response : json) : result (json * Z) :=
  _ <- check_required "Missing required key in curriculum: "
         required_keys response ;;
  id <- getitem response "id" ;;
  slug <- slugify id ;;
  response <- setitem response "id" (JStr slug) ;;
  phases <- getitem response "phases" ;;
  elements <- iter phases ;;
  total_tasks <- count_tasks elements 0 ;;
  response <- setitem response "total_tasks"
                (JNum (Int total_tasks)) ;;
  ret (response, total_tasks).

(** Lines 127-192: from the state to the draft that gets stored. *)
Definition design (search : nat -> result (list search_result))
    (llm : result json) (s : WorkflowState) : result (json * Z) :=
  _ <- build_feedback (iteration s) (expert_feedback s) ;;
  response <- llm ;;
  validated <- validate response ;;
  let '(response, total_tasks) := validated in
  ret (enrich_resources_with_search search response, total_tasks).

Definition report (s : WorkflowState) (response : json) (total_tasks : Z)
  : WorkflowState * option exn :=
  match
    (phases <- getitem response "phases" ;;
     n <- py_len phases ;;
     estimated_hours <- getitem response "estimated_hours" ;;
     ret (n, estimated_hours))
  with
  | inl e => (s, Some e)
  | inr (n, estimated_hours) =>
      (log_action name s "Curriculum design completed"
         [ ("iteration", JNum (Int (iteration s)));
           ("phases", JNum (Int n));
           ("total_tasks", JNum (Int total_tasks));
           ("estimated_hours", estimated_hours) ], None)
  end.

Definition failed (s : WorkflowState) (e : exn) : WorkflowState :=
  add_error name s ("Curriculum design failed: " ++ exn_str e).

(** Lines 122-125: the entry of the stage, before the [try]. *)
Definition enter (s : WorkflowState) : WorkflowState :=
  let s := log_action name s "Starting curriculum design" [] in
  set_iteration (iteration s + 1) s.

(** [CurriculumAgent.run] *)
Definition run (search : nat -> result (list search_result))
    (llm : result json) (s : WorkflowState) : WorkflowState :=
  let s := enter s in
  match design search llm s with
  | inl e => failed s e
  | inr (response, total_tasks) =>
      let s := set_draft_curriculum response s in
      match report s response total_tasks with
      | (s, Some e) => failed s e
      | (s, None) => s
      end
  end.

End Run.

End CurriculumAgent.

(* ===================================================================== *)
(** * workflow/graph.py: the orchestrator *)
(* ===================================================================== *)

Module Graph.
Import Py State Tools.

(** [should_continue]: the name of the edge taken out of the quality
    node. *)
Definition should_continue (settings : Config.Settings)
    (s : WorkflowState) : string :=
  if truthy (approved s) then "finalize"
  else if Config.MAX_ITERATIONS settings <=? iteration s then "finalize"
  else "continue".

(** [finalize_node]: both branches store the draft. *)
Definition finalize_node (now : Z) (s : WorkflowState) : WorkflowState :=
  let s := set_completed_at (Some now) s in
  if truthy (approved s) && truthy (draft_curriculum s) then
    set_final_output (draft_curriculum s) s
  else set_final_output (draft_curriculum s) s.

(** The nodes [create_workflow] adds, and the end of the graph. *)
Inductive node := research | curriculum | expert | quality | finalize | END.

(** The mapping of [add_conditional_edges]. *)
Definition conditional_edge (label : string) : node :=
  if String.eqb label "continue" then curriculum else finalize.

(** What the outside world answers during one run: the searches and the
    generated document of Discovery, then, for each pass through the
    loop and the state the stage starts from, the generated documents and
    documentation searches, and the clock at finalization. *)
Record world :=
  { research_search : nat -> result (list search_result);
    research_llm : WorkflowState -> result json;
    curriculum_search : nat -> nat -> result (list search_result);
    curriculum_llm : nat -> WorkflowState -> result json;
    expert_llm : nat -> WorkflowState -> result json;
    quality_llm : nat -> WorkflowState -> result json;
    finalize_now : Z }.

Section Workflow.

Variable settings : Config.Settings.
Variable slugify : json -> result string.
Variable py_str : json -> string.
Variable w : world.

(** A configuration: the node about to run, the number of loop-backs
    taken so far, and the state. *)
Definition config : Type := node * nat * WorkflowState.

(** One super-step of the compiled graph. *)
Definition step (c : config) : option config :=
  let '(n, k, s) := c in
  match n with
  | research =>
      Some (curriculum, k,
            ResearchAgent.run (research_search w) (research_llm w s) s)
  | curriculum =>
      Some (expert, k,
            CurriculumAgent.run slugify py_str (curriculum_search w k)
              (curriculum_llm w k s) s)
  | expert => Some (quality, k, ExpertAgent.run (expert_llm w k s) s)
  | quality =>
      let s := QualityAgent.run settings (quality_llm w k s) s in
      match conditional_edge (should_continue settings s) with
      | curriculum => Some (curriculum, S k, s)
      | n' => Some (n', k, s)
      end
  | finalize => Some (END, k, finalize_node (finalize_now w) s)
  | END => None
  end.

(** The run of the graph from a configuration, for at most [fuel]
    super-steps: the final state once the end is reached. *)
Fixpoint exec (fuel : nat) (c : config) : option WorkflowState :=
  match c with
  | (END, _, s) => Some s
  | _ =>
      match fuel with
      | O => None
      | S fuel' =>
          match step c with
          | Some c' => exec fuel' c'
          | None => None
          end
      end
  end.

(** The configurations a run goes through. *)
Inductive reaches : config -> config -> Prop :=
| reaches_refl c : reaches c c
| reaches_step c c' c'' :
    step c = Some c' -> reaches c' c'' -> reaches c c''.

(** [workflow.ainvoke(initial_state)] *)
Definition ainvoke (fuel : nat) (initial_state : WorkflowState)
  : option WorkflowState :=
  exec fuel (research, O, initial_state).

End Workflow.

End Graph.

(* ===================================================================== *)
(** * Further Python primitives *)
(* ===================================================================== *)

Module PyText.
Import Py.

(** [c.lower()] on one code point below 256. *)
Definition lower_char (c : ascii) : ascii :=
  let n := Z.of_nat (nat_of_ascii c) in
  if ((65 <=? n) && (n <=? 90))
     || ((192 <=? n) && (n <=? 222) && negb (n =? 215))
  then ascii_of_nat (Z.to_nat (n + 32))
  else c.

(** [s.lower()] *)
Fixpoint lower (s : string) : string :=
  match s with
  | EmptyString => EmptyString
  | String c s' => String (lower_char c) (lower s')
  end.

(** [l[:b]] on a list. *)
Definition list_slice_to {A} (l : list A) (b : Z) : list A :=
  firstn (Z.to_nat (slice_bound (Z.of_nat (List.length l)) b)) l.

(** The decimal digits among the code points below 256, which is what
    [\d] matches there. *)
Definition is_digit (c : ascii) : bool :=
  let n := Z.of_nat (nat_of_ascii c) in
  (48 <=? n) && (n <=? 57).

Fixpoint all_digits (s : string) : bool :=
  match s with
  | EmptyString => true
  | String c s' => is_digit c && all_digits s'
  end.

(** The longest prefix of [s] whose characters satisfy [f], and the
    rest of [s]. *)
Fixpoint span (f : ascii -> bool) (s : string) : string * string :=
  match s with
  | EmptyString => (EmptyString, EmptyString)
  | String c s' =>
      if f c then let '(run, rest) := span f s' in (String c run, rest)
      else (EmptyString, s)
  end.

Definition digit_value (c : ascii) : Z := Z.of_nat (nat_of_ascii c) - 48.

(** The number a run of digits denotes, after the digits that gave
    [acc]. *)
Fixpoint digits_value (s : string) (acc : Z) : Z :=
  match s with
  | EmptyString => acc
  | String c s' => digits_value s' (10 * acc + digit_value c)
  end.

(** [float(text)] on a text of digits and dots, [None] for ValueError:
    the text must have a digit and at most one dot.  The value is exact
    (no rounding to a double, no overflow to infinity). *)
Definition float_of_text (text : string) : option Q :=
  let '(whole, rest) := span is_digit text in
  match rest with
  | EmptyString =>
      if String.eqb whole EmptyString then None
      else Some (inject_Z (digits_value whole 0))
  | String c fraction =>
      if Ascii.eqb c "." && all_digits fraction
         && negb (String.eqb whole EmptyString
                  && String.eqb fraction EmptyString)
      then
        Some (inject_Z (digits_value whole 0)
              + inject_Z (digits_value fraction 0)
                / inject_Z (10 ^ len fraction))%Q
      else None
  end.

End PyText.

(* ===================================================================== *)
(** * core/llm.py: the delay a rate-limit error asks for *)
(* ===================================================================== *)

Module RetryDelay.
Import Py PyText.

(** A text character against a letter of a pattern compiled with
    [re.IGNORECASE]. *)
Definition ci_eqb (c p : ascii) : bool :=
  Ascii.eqb (lower_char c) (lower_char p).

(** The literal [lit] at the start of [s], case-insensitively: the rest
    of [s] when it matches. *)
Fixpoint literal (lit s : string) : option string :=
  match lit with
  | EmptyString => Some s
  | String p lit' =>
      match s with
      | String c s' => if ci_eqb c p then literal lit' s' else None
      | EmptyString => None
      end
  end.

(** [re.search]: the group of the match of [pattern] at the first
    position of [s] where it matches. *)
Fixpoint search (pattern : string -> option string) (s : string)
  : option string :=
  match pattern s with
  | Some group => Some group
  | None =>
      match s with
      | String _ s' => search pattern s'
      | EmptyString => None
      end
  end.

Definition starts_with_s (s : string) : bool :=
  match s with
  | String c _ => ci_eqb c "s"
  | EmptyString => false
  end.

(** [retry in ([\d.]+)s] at the start of [s]. *)
Definition retry_in (s : string) : option string :=
  match literal "retry in " s with
  | Some rest =>
      let '(group, rest) :=
        span (fun c => is_digit c || Ascii.eqb c ".") rest in
      if negb (String.eqb group EmptyString) && starts_with_s rest
      then Some group else None
  | None => None
  end.

(** [retryDelay[^\d]*(\d+)] at the start of [s]. *)
Definition retry_delay (s : string) : option string :=
  match literal "retryDelay" s with
  | Some rest =>
      let '(_, rest) := span (fun c => negb (is_digit c)) rest in
      let '(group, _) := span is_digit rest in
      if negb (String.eqb group EmptyString) then Some group else None
  | None => None
  end.

(** [(\d+)s] at the start of [s]. *)
Definition digits_s (s : string) : option string :=
  let '(group, rest) := span is_digit s in
  if negb (String.eqb group EmptyString) && starts_with_s rest
  then Some group else None.

(** [.*?(\d+)s] at the start of [s]: the lazy [.*?] gives up one more
    character at a time, and never a line feed. *)
Fixpoint lazy_digits_s (s : string) : option string :=
  match digits_s s with
  | Some group => Some group
  | None =>
      match s with
      | String c s' =>
          if Ascii.eqb c (ascii_of_nat 10) then None else lazy_digits_s s'
      | EmptyString => None
      end
  end.

(** [RetryInfo.*?(\d+)s] at the start of [s]. *)
Definition retry_info (s : string) : option string :=
  match literal "RetryInfo" s with
  | Some rest => lazy_digits_s rest
  | None => None
  end.

(** [after (\d+) seconds] at the start of [s]. *)
Definition after_seconds (s : string) : option string :=
  match literal "after " s with
  | Some rest =>
      let '(group, rest) := span is_digit rest in
      if negb (String.eqb group EmptyString) then
        match literal " seconds" rest with
        | Some _ => Some group
        | None => None
        end
      else None
  | None => None
  end.

Definition patterns : list (string -> option string) :=
  [retry_in; retry_delay; retry_info; after_seconds].

(** The loop [for pattern in patterns]: a group [float] rejects sends
    the loop on to the next pattern. *)
Fixpoint first_delay (patterns : list (string -> option string))
    (error_message : string) : Q :=
  match patterns with
  | [] => 15
  | pattern :: rest =>
      match search pattern error_message with
      | Some group =>
          match float_of_text group with
          | Some delay => delay
          | None => first_delay rest error_message
          end
      | None => first_delay rest error_message
      end
  end.

(** [_extract_retry_delay] *)
Definition extract_retry_delay (error_message : string) : Q :=
  first_delay patterns error_message.

(** Whether [lit] occurs in [s], case-insensitively. *)
Fixpoint mentions (lit s : string) : bool :=
  match literal lit s with
  | Some _ => true
  | None =>
      match s with
      | String _ s' => mentions lit s'
      | EmptyString => false
      end
  end.

End RetryDelay.

(* ===================================================================== *)
(** * agents/tools.py: the search client *)
(* ===================================================================== *)

Module WebSearchClient.
Import Py PyText Tools.

(** A hit as the search provider yields it: the texts under 'title',
    'href' and 'body', where present. *)
Record hit :=
  { hit_title : option string; hit_href : option string;
    hit_body : option string }.

(** [result.get(key, '')] *)
Definition or_empty (o : option string) : string :=
  match o with Some s => s | None => EmptyString end.

(** [search]: [provider] is what the provider yields for the query, or
    the error it raises; an error is logged and gives no result. *)
Definition search (provider : result (list hit)) : list search_result :=
  match provider with
  | inr search_results =>
      map (fun result =>
             {| sr_title := or_empty (hit_title result);
                sr_url := or_empty (hit_href result);
                sr_snippet := or_empty (hit_body result) |})
        search_results
  | inl _ => []
  end.

Definition doc_keywords : list string :=
  ["docs"; "documentation"; "reference"; "api"; "guide"].

(** Lines 89-93: whether a result looks like documentation. *)
Definition is_doc (result : search_result) : bool :=
  let url := lower (sr_url result) in
  let title := lower (sr_title result) in
  existsb (fun keyword => contains url keyword || contains title keyword)
    doc_keywords.

(** The loop of lines 88-98 over the results still to visit. *)
Fixpoint filter_docs (results filtered : list search_result)
    (max_results : Z) : list search_result :=
  match results with
  | [] => filtered
  | result :: rest =>
      if is_doc result then
        let filtered := (filtered ++ [result])%list in
        if max_results <=? Z.of_nat (List.length filtered) then filtered
        else filter_docs rest filtered max_results
      else filter_docs rest filtered max_results
  end.

Definition documentation_query (topic : string) : string :=
  topic ++ " official documentation site:docs. OR site:documentation.".

(** [search_documentation]: [provider query n] is what the provider
    yields when asked for at most [n] hits of [query]. *)
Definition search_documentation
    (provider : string -> Z -> result (list hit)) (topic : string)
    (max_results : Z) : list search_result :=
  let query := documentation_query topic in
  let results := search (provider query (max_results * 2)) in
  list_slice_to (filter_docs results [] max_results) max_results.

(** The inner loop of [search_with_fallback] (lines 131-135). *)
Fixpoint add_unique (results : list search_result)
    (seen_urls : gset string) (all_results : list search_result)
  : gset string * list search_result :=
  match results with
  | [] => (seen_urls, all_results)
  | result :: rest =>
      let url := sr_url result in
      if negb (String.eqb url EmptyString) && bool_decide (url ∉ seen_urls)
      then
        add_unique rest ({[ url ]} ∪ seen_urls)
          (all_results ++ [result])%list
      else add_unique rest seen_urls all_results
  end.

(** The loop over the queries, from query number [i] on: the pauses made
    and the results collected.  Neither the pause nor [search] raises, so
    the handler of the loop body is never entered. *)
Fixpoint fallback_loop (provider : string -> Z -> result (list hit))
    (queries : list string) (i : nat) (max_results_per_query : Z)
    (delay_between_searches : Q) (seen_urls : gset string)
    (all_results : list search_result) : list Q * list search_result :=
  match queries with
  | [] => ([], all_results)
  | query :: rest =>
      let pause :=
        if negb (Nat.eqb i 0) && negb (Qle_bool delay_between_searches 0)
        then [delay_between_searches] else [] in
      let results := search (provider query max_results_per_query) in
      let '(seen_urls, all_results) :=
        add_unique results seen_urls all_results in
      let '(pauses, all_results) :=
        fallback_loop provider rest (S i) max_results_per_query
          delay_between_searches seen_urls all_results in
      ((pause ++ pauses)%list, all_results)
  end.

Definition search_with_fallback
    (provider : string -> Z -> result (list hit)) (queries : list string)
    (max_results_per_query : Z) (delay_between_searches : Q)
  : list Q * list search_result :=
  fallback_loop provider queries 0 max_results_per_query
    delay_between_searches ∅ [].

End WebSearchClient.

(* ===================================================================== *)
(** * services/path_service.py: what [generate_path] makes of a run *)
(* ===================================================================== *)

Module PathService.
Import Py State.

(** Lines 58-61 of [generate_path]: the path data of the final state. *)
Definition path_data (final_state : WorkflowState) : result json :=
  let path_data := final_output final_state in
  if negb (truthy path_data) then
    raise ValueError "Workflow completed but no path data generated"
  else ret path_data.

(** Lines 78-80: the 'max_iterations_reached' entry of the result. *)
Definition max_iterations_reached (settings : Config.Settings)
    (final_state : WorkflowState) : bool :=
  Config.MAX_ITERATIONS settings <=? iteration final_state.

(** The slug the loop of [_ensure_unique_slug] tries after [counter - 1]
    numbered ones. *)
Definition numbered_slug (base_slug : string) (counter : Z) : string :=
  base_slug ++ "-" ++ str_of_int counter.

(** The [while True] loop of [_ensure_unique_slug] with [fuel] rounds to
    go; [taken] holds the slugs of the stored paths (each slug held by one
    path, and the same paths throughout the loop), which is what the query
    of each round looks a slug up in. *)
Fixpoint unique_slug_loop (taken : gset string) (base_slug slug : string)
    (counter : Z) (fuel : nat) : option string :=
  match fuel with
  | O => None
  | S fuel' =>
      if bool_decide (slug ∉ taken) then Some slug
      else
        unique_slug_loop taken base_slug (numbered_slug base_slug counter)
          (counter + 1) fuel'
  end.

(** The slugs the loop tries, by round. *)
Definition candidate (base_slug : string) (i : nat) : string :=
  match i with
  | O => base_slug
  | S _ => numbered_slug base_slug (Z.of_nat i)
  end.

(** [_ensure_unique_slug] *)
Definition ensure_unique_slug (taken : gset string) (base_slug : string)
    (fuel : nat) : option string :=
  unique_slug_loop taken base_slug base_slug 1 fuel.

End PathService.

(* ===================================================================== *)
(** * Vocabulary of the statements *)
(* ===================================================================== *)

Module Spec.
Import Py LLM.

(** The trimmed contents of the first block that [opener] opens in
    [text], when a later fence closes it. *)
Definition fenced_block (text opener : string) : option string :=
  if contains text opener then
    let start := find text opener + len opener in
    let stop := find_from text fence start in
    if stop =? -1 then None else Some (strip (slice text start stop))
  else None.

(** The span from the first brace of [text] to its matching brace, when
    [text] has a brace; the span is empty when no brace matches. *)
Definition first_brace_span (text : string) : option string :=
  let start := find text "{" in
  if start =? -1 then None
  else
    Some (slice text start
            match brace_scan (slice_from text start) 0 0 with
            | Some k => start + k
            | None => start
            end).

(** What a step found, or else the text it was given. *)
Definition or_text (found : option string) (text : string) : string :=
  match found with
  | Some contents => contents
  | None => text
  end.

(** The extraction in the words of the specification: the contents of a
    fenced json block, else those of any fenced block, else the span from
    the first brace to its matching brace, trimming at each step. *)
Definition spec_extract (raw : string) : string :=
  let text := strip raw in
  strip match fenced_block text fence_json with
        | Some contents => contents
        | None =>
            match fenced_block text fence with
            | Some contents => contents
            | None => or_text (first_brace_span text) text
            end
        end.

(** The extraction in two stages.  First the contents of the json block
    when the text has a json fence (the text itself when that block is not
    closed), else the contents of any fenced block; then, unless the text
    so obtained starts with a brace, the span from its first brace to the
    matching brace; trimming at each step. *)
Definition staged_extract (raw : string) : string :=
  let text := strip raw in
  let text :=
    if contains text fence_json then
      or_text (fenced_block text fence_json) text
    else or_text (fenced_block text fence) text in
  let text :=
    if startswith text "{" then text
    else or_text (first_brace_span text) text in
  strip text.

(** The exchange fails in the connection class: [generate] reports it as
    a CONNECTION_ERROR carrying [e]. *)
Definition connection_failed (r : http_result) (e : string) : Prop :=
  r = ConnectError e \/ r = ReadError e.

(** The number of calls of [generate] in a trace. *)
Definition attempts (events : list event) : nat :=
  List.length
    (List.filter (fun ev => match ev with Post _ => true | _ => false end)
       events).

(** Every request of the trace carries the turns [sent]. *)
Definition posts_carry (sent : list message) (events : list event)
  : Prop :=
  Forall (fun ev => match ev with Post b => b = sent | Sleep _ => True end)
    events.

(** The resource carries the 'url' key the docstring of
    [validate_batch] asks for. *)
Definition has_url (resource : dict) : Prop :=
  dict_has resource "url" = true.

(** The error text with which probing fails, if it does: the HEAD
    request raises, or it answers with a status from 400 on and the GET
    request raises. *)
Definition probe_raises (p : Validation.probe) : option string :=
  match Validation.head p with
  | Validation.ProbeTimeout => Some "Timeout"
  | Validation.ProbeError e => Some e
  | Validation.ProbeResponse status_code _ =>
      if 400 <=? status_code then
        match Validation.get_ p with
        | Validation.ProbeTimeout => Some "Timeout"
        | Validation.ProbeError e => Some e
        | Validation.ProbeResponse _ _ => None
        end
      else None
  end.

(** The value of a number as a real number; an infinity and the
    not-a-number have none. *)
Definition real_value (x : number) : option Q :=
  match x with
  | Int n => Some (inject_Z n)
  | Float (S754_zero _) => Some 0%Q
  | Float (S754_finite s m e) => Some (float_value s m e)
  | Float _ => None
  end.

Fixpoint exact_sum (xs : list number) (acc : Q) : option Q :=
  match xs with
  | [] => Some acc
  | x :: xs' =>
      match real_value x with
      | Some q => exact_sum xs' (acc + q)%Q
      | None => None
      end
  end.

(** The mean of the sub-scores as a real number: nothing is rounded. *)
Definition mean (xs : list number) : option Q :=
  option_map
    (fun total => (total / inject_Z (Z.of_nat (List.length xs)))%Q)
    (exact_sum xs 0).

(** The mean of the sub-scores as Python computes it in doubles: the
    sub-scores are added to 0 one after the other, in their order, and the
    sum is divided by their number.  It raises ZeroDivisionError when
    there is no sub-score and OverflowError when an [int] among them, or
    their sum, is beyond the range of a double. *)
Fixpoint double_sum (xs : list number) (acc : number) : result number :=
  match xs with
  | [] => ret acc
  | x :: xs' => acc <- py_add acc x ;; double_sum xs' acc
  end.

Definition double_mean (xs : list number) : result float :=
  total <- double_sum xs (Int 0) ;;
  py_truediv total (Int (Z.of_nat (List.length xs))).

(** The minimum of every sub-score, the double [0.8]. *)
Definition minimum : number := Float (nearest false 8 10).

(** The verdict in the words of the specification: the stage's own bit,
    every sub-score at least 0.8, and the mean at least the threshold. *)
Definition spec_approved (threshold : float) (reported : bool)
    (xs : list number) : bool :=
  reported && forallb (fun x => num_ge x minimum) xs
  && match mean xs, real_value (Float threshold) with
     | Some m, Some t => Qle_bool t m
     | _, _ => false
     end.

(** The verdict the stage computes: the threshold is compared with the
    score the stage stores, the mean it has computed in doubles and
    rounded to two decimals. *)
Definition gate_approved (threshold : float) (reported : bool)
    (score : float) (xs : list number) : bool :=
  reported && num_ge (Float score) (Float threshold)
  && forallb (fun x => num_ge x minimum) xs.

(** The phases of a document, as the loop of Structuring visits
    them. *)
Definition doc_phases (doc : json) : result (list json) :=
  phases <- getitem doc "phases" ;; iter phases.

(** The number of tasks of a phase. *)
Definition task_count (phase : json) : Z :=
  match (tasks <- getitem phase "tasks" ;; py_len tasks) with
  | inr n => n
  | inl _ => 0
  end.

(** The sum over all phases of the number of tasks in that phase. *)
Definition sum_task_counts (doc : json) : Z :=
  match doc_phases doc with
  | inr phases => fold_right Z.add 0 (map task_count phases)
  | inl _ => 0
  end.

(** The phase is a dict with a non-empty 'tasks' entry. *)
Definition has_tasks (phase : json) : bool :=
  match phase with
  | JObj d =>
      match dict_get d "tasks" with
      | Some tasks => truthy tasks
      | None => false
      end
  | _ => false
  end.

(** The stage turns the document down: one more entry in the error list
    and the draft of the state as it was. *)
Definition rejected (s s' : State.WorkflowState) : Prop :=
  State.draft_curriculum s' = State.draft_curriculum s
  /\ exists entry, State.errors s' = (State.errors s ++ [entry])%list.

(** The four stages, with what each of them requires, where it writes
    its output and how it starts. *)
Inductive stage := Discovery | Structuring | TechnicalReview | QualityGate.

Definition stage_name (st : stage) : string :=
  match st with
  | Discovery => ResearchAgent.name
  | Structuring => CurriculumAgent.name
  | TechnicalReview => ExpertAgent.name
  | QualityGate => QualityAgent.name
  end.

Definition stage_required (st : stage) : list string :=
  match st with
  | Discovery => ResearchAgent.required_keys
  | Structuring => CurriculumAgent.required_keys
  | TechnicalReview => ExpertAgent.required_keys
  | QualityGate => QualityAgent.required_keys
  end.

Definition stage_output (st : stage) (s : State.WorkflowState) : json :=
  match st with
  | Discovery => State.research_findings s
  | Structuring => State.draft_curriculum s
  | TechnicalReview => State.expert_feedback s
  | QualityGate => State.quality_review s
  end.

(** The state once the stage has logged its start (and, for Structuring,
    counted the iteration). *)
Definition stage_entered (st : stage) (s : State.WorkflowState)
  : State.WorkflowState :=
  match st with
  | Discovery =>
      State.log_action ResearchAgent.name s
        "Starting research with web search" []
  | Structuring => CurriculumAgent.enter s
  | TechnicalReview =>
      State.log_action ExpertAgent.name s "Starting expert validation" []
  | QualityGate =>
      State.log_action QualityAgent.name s "Starting quality review" []
  end.

(** What a stage meets outside the state. *)
Record surroundings :=
  { sur_settings : Config.Settings;
    sur_slugify : json -> result string;
    sur_py_str : json -> string;
    sur_search : nat -> result (list Tools.search_result) }.

Definition stage_run (env : surroundings) (st : stage) (llm : result json)
    (s : State.WorkflowState) : State.WorkflowState :=
  match st with
  | Discovery => ResearchAgent.run (sur_search env) llm s
  | Structuring =>
      CurriculumAgent.run (sur_slugify env) (sur_py_str env)
        (sur_search env) llm s
  | TechnicalReview => ExpertAgent.run llm s
  | QualityGate => QualityAgent.run (sur_settings env) llm s
  end.

(** What the generator hands to the stage does not pass the validation of
    the stage: the generator has raised; or the document is no container
    of the required top-level keys, one of which is missing or cannot
    even be looked for (in [null], a number or a truth value); or, in
    Structuring, the phases can be read and one of them has no tasks. *)
Definition fails_validation (st : stage) (llm : result json) : Prop :=
  match llm with
  | inl _ => True
  | inr response =>
      (exists key,
          In key (stage_required st) /\ py_in key response <> inr true)
      \/ (st = Structuring
          /\ exists phases,
               doc_phases response = inr phases
               /\ Exists (fun phase => has_tasks phase = false) phases)
  end.

(** The stage raises before it stores its output: the part of its [try]
    block that ends with the store raises, whatever the ground.  What
    Discovery does there raises or not whatever the topic and the search
    results are. *)
Definition raises_before_store (env : surroundings) (st : stage)
    (llm : result json) (s : State.WorkflowState) : Prop :=
  match st with
  | Discovery =>
      exists topic results e,
        ResearchAgent.analyse topic results llm = inl e
  | Structuring =>
      exists e,
        CurriculumAgent.design (sur_slugify env) (sur_py_str env)
          (sur_search env) llm (CurriculumAgent.enter s) = inl e
  | TechnicalReview => exists e, ExpertAgent.validate llm = inl e
  | QualityGate =>
      exists e,
        QualityAgent.review (Config.QUALITY_THRESHOLD (sur_settings env))
          llm = inl e
  end.

(** Every field but the error list, the action log and the iteration
    counter is the same in both states. *)
Definition same_payload (s s' : State.WorkflowState) : Prop :=
  State.topic s' = State.topic s
  /\ State.context s' = State.context s
  /\ State.experience_level s' = State.experience_level s
  /\ State.research_findings s' = State.research_findings s
  /\ State.draft_curriculum s' = State.draft_curriculum s
  /\ State.expert_feedback s' = State.expert_feedback s
  /\ State.quality_review s' = State.quality_review s
  /\ State.approved s' = State.approved s
  /\ State.final_output s' = State.final_output s
  /\ State.started_at s' = State.started_at s
  /\ State.completed_at s' = State.completed_at s.

End Spec.

(* ===================================================================== *)
(** * Inputs used in examples *)
(* ===================================================================== *)

Module Examples.
Import Py.

Definition nl : string := String (ascii_of_nat 10) EmptyString.
Definition dq : string := String (ascii_of_nat 34) EmptyString.

(** The text [{"a":1}]. *)
Definition doc_a1 : string := "{" ++ dq ++ "a" ++ dq ++ ":1}".

(** A fenced json block after a line of prose. *)
Definition fenced_reply : string :=
  "Here you go:" ++ nl ++ "```json" ++ nl ++ doc_a1 ++ nl ++ "```".

(** A document between noise, without fences. *)
Definition noisy_reply : string := "noise" ++ doc_a1 ++ "tail".

Definition blank_reply : string := "  " ++ nl ++ " ".

(** A fenced json block whose contents begin with prose. *)
Definition fenced_prose_reply : string :=
  "```json" ++ nl ++ "Result: " ++ doc_a1 ++ nl ++ "```".

(** A document followed by text, without fences. *)
Definition trailing_reply : string := doc_a1 ++ "tail".

(** Five resources; the exchanges of the third one raise. *)
Definition five_resources : list dict :=
  map (fun u => [ ("title", JStr "Docs"); ("url", JStr u) ])
    [ "https://a.example"; "https://b.example"; "https://c.example";
      "https://d.example"; "https://e.example" ].

Definition third_probe_raises (i : nat) : Validation.probe :=
  if Nat.eqb i 2 then
    Validation.Probe (Validation.ProbeError "connection reset")
      Validation.ProbeTimeout
  else
    Validation.Probe (Validation.ProbeResponse 200 (Some "text/html"))
      Validation.ProbeTimeout.

(** A state of a run that has entered Structuring [n] times. *)
Definition state_at (n : Z) : State.WorkflowState :=
  State.set_iteration n
    (State.create_initial_state 0 "graph traversal" None "intermediate").

(** The double a decimal with two digits after the point denotes:
    [hundredths 85] is [0.85]. *)
Definition hundredths (n : N) : number := Float (nearest false n 100).

Definition scores_doc (scores : list (string * number)) : dict :=
  map (fun kv => (fst kv, JNum (snd kv))) scores.

Definition review_dict (reported : bool)
    (scores : list (string * number)) : dict :=
  [ ("approved", JBool reported); ("score", JNum (hundredths 87));
    ("scores", JObj (scores_doc scores)); ("violations", JList []) ].

Definition review_doc (reported : bool) (scores : list (string * number))
  : json :=
  JObj (review_dict reported scores).

(** Sub-scores whose mean lies below 0.85 and rounds to 0.85. *)
Definition rounding_scores : list (string * number) :=
  [ ("no_hand_holding", hundredths 85); ("no_repetition", hundredths 85);
    ("bottom_up_order", hundredths 84) ].

(** Sub-scores of a draft that is turned down; their mean is the double
    [0.845]. *)
Definition low_scores : list (string * number) :=
  [ ("no_hand_holding", hundredths 90); ("no_repetition", hundredths 79) ].

Definition low_mean : float := nearest false 845 1000.

(** Sub-scores whose sum picks up a rounding error: the mean computed in
    doubles is [0.8450000000000001] and rounds to 0.85. *)
Definition drifting_scores : list (string * number) :=
  [ ("no_hand_holding", hundredths 80); ("no_repetition", hundredths 80);
    ("bottom_up_order", hundredths 80); ("hands_on_only", hundredths 98) ].

Definition drifting_mean : float :=
  S754_finite false 7611083370256139 (-53).

(** The six sub-scores of the end-to-end scenario; the score computed
    from them is 0.83. *)
Definition scenario_scores : list (string * number) :=
  [ ("no_hand_holding", hundredths 90); ("no_repetition", hundredths 85);
    ("bottom_up_order", hundredths 82); ("hands_on_only", hundredths 81);
    ("fast_paced", hundredths 83); ("resource_quality", hundredths 80) ].

(** A sub-score beyond the range of a double. *)
Definition huge_scores : list (string * number) :=
  [ ("no_hand_holding", hundredths 90); ("no_repetition", Int (10 ^ 400)) ].

(** [slugify] on an identifier that is a slug already. *)
Definition slug_kept (v : json) : result string :=
  match v with
  | JStr s => ret s
  | _ => type_error "decoding to str: need a bytes-like object"
  end.

Definition shown (v : json) : string :=
  match v with JStr s => s | _ => "None" end.

(** A generated curriculum without any phase. *)
Definition no_phase_doc : json :=
  JObj [ ("id", JStr "graph-traversal"); ("title", JStr "Graph traversal");
         ("phases", JList []); ("total_tasks", JNum (Int 15));
         ("estimated_hours", JNum (Int 80)) ].

Definition task (id : string) : json :=
  JObj [ ("id", JStr id); ("title", JStr id); ("resources", JList []) ].

(** Two phases with three and four tasks, declared as fifteen. *)
Definition two_phase_doc : json :=
  JObj [ ("id", JStr "graph-traversal"); ("title", JStr "Graph traversal");
         ("total_tasks", JNum (Int 15)); ("estimated_hours", JNum (Int 80));
         ("phases",
           JList [ JObj [ ("id", JStr "basics");
                          ("tasks", JList [task "a"; task "b"; task "c"]) ];
                   JObj [ ("id", JStr "search");
                          ("tasks",
                            JList [task "d"; task "e"; task "f"; task "g"]) ] ]) ].

(** The same document with a second phase that has no tasks. *)
Definition two_phase_doc_without_tasks : json :=
  JObj [ ("id", JStr "graph-traversal"); ("title", JStr "Graph traversal");
         ("total_tasks", JNum (Int 15)); ("estimated_hours", JNum (Int 80));
         ("phases",
           JList [ JObj [ ("id", JStr "basics");
                          ("tasks", JList [task "a"; task "b"; task "c"]) ];
                   JObj [ ("id", JStr "search"); ("tasks", JList []) ] ]) ].

Definition one_hit (n : nat) : result (list Tools.search_result) :=
  ret [ {| Tools.sr_title := "Docs"; Tools.sr_url := "https://docs.example";
           Tools.sr_snippet := "Reference" |} ].

(** A state whose diagnostics are replaced by those of another. *)
Definition with_errors_of (s' s : State.WorkflowState)
  : State.WorkflowState :=
  State.set_errors (State.errors s') s.

(** An outside world in which every generation call fails. *)
Definition silent_world : Graph.world :=
  {| Graph.research_search := fun _ => ret [];
     Graph.research_llm := fun _ => raise LLMException "Failed after 3 attempts";
     Graph.curriculum_search := fun _ _ => ret [];
     Graph.curriculum_llm := fun _ _ => raise LLMException "Failed after 3 attempts";
     Graph.expert_llm := fun _ _ => raise LLMException "Failed after 3 attempts";
     Graph.quality_llm := fun _ _ => raise LLMException "Failed after 3 attempts";
     Graph.finalize_now := 1 |}.

(** A caller's two turns, the last one of the user. *)
Definition two_turns : gmap nat LLM.message :=
  {[ 0%nat := LLM.Message "system" "rules";
     1%nat := LLM.Message "user" "go" ]}.

(** An endpoint that refuses every connection. *)
Definition refusing (attempt : Z) (messages : list LLM.message)
  : LLM.http_result :=
  LLM.ConnectError "refused".

Definition fixed_delay (error_message : string) : Q := 15.

Definition no_parse (text : string) : string + json := inl "unused".

(** A configuration with a ceiling of five iterations. *)
Definition five_iterations : Config.Settings :=
  {| Config.MAX_ITERATIONS := 5;
     Config.QUALITY_THRESHOLD := nearest false 85 100 |}.

(** A configuration with a negative ceiling, which [config.py] does not
    rule out. *)
Definition negative_ceiling : Config.Settings :=
  {| Config.MAX_ITERATIONS := -1;
     Config.QUALITY_THRESHOLD := nearest false 85 100 |}.

(** What the stages of the examples meet outside the state. *)
Definition surroundings : Spec.surroundings :=
  {| Spec.sur_settings := Config.default_settings;
     Spec.sur_slugify := slug_kept;
     Spec.sur_py_str := shown;
     Spec.sur_search := one_hit |}.

(** The reviews of the examples, both reported as approved. *)
Definition rounding_review : json := review_doc true rounding_scores.
Definition low_review : json := review_doc true low_scores.

(** The Quality Gate on a document without any key. *)
Definition gated_empty : State.WorkflowState :=
  QualityAgent.run Config.default_settings (inr (JObj [])) (state_at 1).

(** Structuring on a document without any key. *)
Definition structured_empty : State.WorkflowState :=
  CurriculumAgent.run slug_kept shown one_hit (inr (JObj [])) (state_at 1).

(** Structuring on the document without any phase. *)
Definition structured_no_phase : State.WorkflowState :=
  CurriculumAgent.run slug_kept shown one_hit (inr no_phase_doc) (state_at 0).

(** A technical review that passes the draft. *)
Definition passing_feedback : json :=
  JObj [ ("validation", JStr "pass"); ("confidence", JNum (hundredths 90));
         ("scores", JObj []); ("issues", JList []) ].

(** An outside world in which Discovery gets no answer, Structuring
    always gets the two-phase document and the Quality Gate always turns
    the draft down. *)
Definition rejecting_world : Graph.world :=
  {| Graph.research_search := fun _ => ret [];
     Graph.research_llm := fun _ => raise LLMException "Failed after 3 attempts";
     Graph.curriculum_search := fun _ _ => ret [];
     Graph.curriculum_llm := fun _ _ => ret two_phase_doc;
     Graph.expert_llm := fun _ _ => ret passing_feedback;
     Graph.quality_llm := fun _ _ => ret low_review;
     Graph.finalize_now := 1 |}.

(** The run of the orchestrator in that world, on the configuration of
    [config.py]. *)
Definition rejected_run : option State.WorkflowState :=
  Graph.ainvoke Config.default_settings slug_kept shown rejecting_world 11
    (State.create_initial_state 0 "graph traversal" None "intermediate").

(** A resource as a generator may emit it, without a URL. *)
Definition resource_without_url : dict := [ ("title", JStr "Docs") ].

End Examples.

(* ===================================================================== *)
(** * Further vocabulary *)
(* ===================================================================== *)

Module Traces.
Import Py LLM.

(** The pauses of a trace, in the order they are made. *)
Definition pauses (events : list event) : list Q :=
  omap (fun ev =>
          match ev with
          | Sleep seconds => Some seconds
          | Post _ => None
          end) events.

(** The attempt numbers [range(n)] goes through. *)
Definition attempt_numbers (n : nat) : list Z := map Z.of_nat (seq 0 n).

(** The error text names neither a connection failure nor a rate
    limit. *)
Definition plain_error (error_str : string) : Prop :=
  contains error_str "CONNECTION_ERROR" = false
  /\ contains error_str "TIMEOUT_ERROR" = false
  /\ contains error_str "429" = false
  /\ contains error_str "RATE_LIMITED" = false.

End Traces.

Module Documents.
Import Py.

(** The URL of a resource, when the resource is a dict whose 'url' is a
    text. *)
Definition url_text (resource : json) : option string :=
  match resource with
  | JObj d =>
      match dict_get d "url" with
      | Some (JStr url) => Some url
      | _ => None
      end
  | _ => None
  end.

(** The URLs of a resource list, in order. *)
Definition urls (resources : list json) : list string :=
  omap url_text resources.

End Documents.

Module Texts.
Import Py.

(** No character of [s] is [c]. *)
Fixpoint lacks (c : ascii) (s : string) : bool :=
  match s with
  | EmptyString => true
  | String a s' => negb (Ascii.eqb a c) && lacks c s'
  end.

(** Reading [s] from nesting depth [depth], no closing brace comes
    without an opening brace before it, and the depth is back at zero at
    the end. *)
Fixpoint closes (s : string) (depth : nat) : bool :=
  match s with
  | EmptyString => Nat.eqb depth 0
  | String c s' =>
      if Ascii.eqb c "{" then closes s' (S depth)
      else if Ascii.eqb c "}" then
        match depth with
        | O => false
        | S depth' => closes s' depth'
        end
      else closes s' depth
  end.

(** The braces of [s] are balanced. *)
Definition balanced (s : string) : bool := closes s 0.

End Texts.

Module Runs.
Import Py State.

(** [s'] is a later state of the run that went through [s]: the request
    is the same, and the diagnostics of [s] are the first entries of those
    of [s']. *)
Definition continues (s s' : WorkflowState) : Prop :=
  topic s' = topic s
  /\ context s' = context s
  /\ experience_level s' = experience_level s
  /\ started_at s' = started_at s
  /\ errors s `prefix_of` errors s'
  /\ agent_logs s `prefix_of` agent_logs s'.

(** The super-steps that suffice for a run from a state with the given
    iteration counter. *)
Definition enough_fuel (settings : Config.Settings) (s : WorkflowState)
  : nat :=
  3 * S (Z.to_nat (Config.MAX_ITERATIONS settings - (iteration s + 1))) + 2.

(** What the stages of a pass meet outside the state. *)
Definition surroundings_of (settings : Config.Settings)
    (slugify : json -> result string) (py_str : json -> string)
    (search : nat -> result (list Tools.search_result))
  : Spec.surroundings :=
  {| Spec.sur_settings := settings; Spec.sur_slugify := slugify;
     Spec.sur_py_str := py_str; Spec.sur_search := search |}.

End Runs.
(* ===================================================================== *)
(** * Further inputs used in examples *)
(* ===================================================================== *)

Module Inputs.
Import Py.

(** An endpoint that refuses the first connection and answers the
    second request. *)
Definition recovering (attempt : Z) (messages : list LLM.message)
  : LLM.http_result :=
  if attempt =? 0 then LLM.ConnectError "refused"
  else
    LLM.Response
      {| LLM.status_code := 200; LLM.text := "ok";
         LLM.body := LLM.Data "{'choices': [...]}" (inr (JStr "{}")) |}.

(** An endpoint that answers every request with a server error. *)
Definition failing (attempt : Z) (messages : list LLM.message)
  : LLM.http_result :=
  LLM.Response
    {| LLM.status_code := 500; LLM.text := "oops";
       LLM.body := LLM.BadJson "Expecting value" |}.

(** An endpoint whose answers carry a list as the content of the
    message. *)
Definition answering_with_list (attempt : Z) (messages : list LLM.message)
  : LLM.http_result :=
  LLM.Response
    {| LLM.status_code := 200; LLM.text := "ok";
       LLM.body :=
         LLM.Data "{'choices': [...]}"
           (inr (JList [ JObj [ ("type", JStr "text");
                                ("text", JStr "{}") ] ])) |}.

(** An endpoint whose answers carry no content. *)
Definition answering_with_null (attempt : Z) (messages : list LLM.message)
  : LLM.http_result :=
  LLM.Response
    {| LLM.status_code := 200; LLM.text := "ok";
       LLM.body := LLM.Data "{'choices': [...]}" (inr JNull) |}.

(** A rate-limit answer. *)
Definition rate_limited : LLM.http_response :=
  {| LLM.status_code := 429; LLM.text := "slow down";
     LLM.body := LLM.Data "{'error': 'retry in 7s'}" (inl "'choices'") |}.

(** A reply with a balanced object between prose. *)
Definition nested_reply : string :=
  "Sure: {" ++ Examples.dq ++ "a" ++ Examples.dq ++ ": {}} Anything else?".

(** A reply cut off inside its object. *)
Definition truncated_reply : string :=
  "Sure: {" ++ Examples.dq ++ "a" ++ Examples.dq ++ ": [1, 2".

(** A search that finds nothing. *)
Definition no_hits (n : nat) : result (list Tools.search_result) := ret [].

Definition docs_hit : Tools.search_result :=
  {| Tools.sr_title := "Docs"; Tools.sr_url := "https://docs.example";
     Tools.sr_snippet := "Reference" |}.

(** Findings as the generator may return them, with a metadata entry of
    its own. *)
Definition findings_doc : dict :=
  [ ("topic_analysis", JStr "graphs"); ("prerequisites", JList []);
    ("core_concepts", JList [JStr "queue"]); ("ecosystem", JObj []);
    ("scope_assessment",
      JObj [ ("suggested_tasks", JNum (Int 15));
             ("suggested_phases", JNum (Int 4)) ]);
    ("search_metadata", JObj [ ("sources_found", JNum (Int 5)) ]) ].

(** A state whose stored technical review is a text. *)
Definition reviewed_as_text : State.WorkflowState :=
  State.set_expert_feedback (JStr "validation confidence scores issues")
    (Examples.state_at 1).


(** A review without any sub-score. *)
Definition review_without_scores : dict :=
  [ ("approved", JBool true); ("score", JNum (Examples.hundredths 87));
    ("scores", JObj []); ("violations", JList []) ].

(** The error text of a rate-limit answer that names no delay. *)
Definition unspecific_rate_limit : string :=
  "Failed to generate response: 429 RATE_LIMITED: {'error': 'slow down'}".

End Inputs.

(* ===================================================================== *)
(** * Tactics *)
(* ===================================================================== *)

(** Splits a successful sequence [x <- m ;; k] into its two steps. *)
Ltac bind_inv H :=
  match type of H with
  | Py.bind ?m _ = inr _ =>
      let x := fresh "x" in
      let Hx := fresh "Hx" in
      destruct m as [?|x] eqn:Hx; [discriminate H|]; cbn [Py.bind] in H
  end.

(** Closes a goal [l `prefix_of` (l ++ ...) ++ ...]. *)
Ltac prefix_appended :=
  repeat apply prefix_app_r; reflexivity.

(** Goes through the fields of a state built from another by the
    assignments of a stage. *)
Ltac frame_fields :=
  repeat split; try reflexivity; try (cbn; prefix_appended);
  try contradiction;
  try (intros [] Hne; try reflexivity; contradiction).

(* ===================================================================== *)
(** * Properties of the generation client *)
(* ===================================================================== *)

Section ExtractionFacts.
Import Py LLM Spec.

Lemma strip_fences_empty : strip_fences EmptyString = EmptyString.
Proof. reflexivity. Qed.

Lemma brace_span_empty : brace_span EmptyString = EmptyString.
Proof. reflexivity. Qed.

Lemma clean_response_blank raw : strip raw = EmptyString -> clean_response raw = EmptyString.
Proof.
  intros Hblank. unfold clean_response. rewrite Hblank.
  rewrite strip_fences_empty, brace_span_empty. reflexivity.
Qed.

Lemma startswith_fence_json s :
  startswith s fence_json = true -> startswith s fence = true.
Proof.
  unfold fence_json, fence.
  destruct s as [|c0 [|c1 [|c2 s]]]; cbn [startswith]; try discriminate;
    rewrite ?andb_false_r; try discriminate.
  destruct (Ascii.eqb "`" c0), (Ascii.eqb "`" c1), (Ascii.eqb "`" c2);
    cbn [andb]; try discriminate.
  destruct s; reflexivity.
Qed.

Lemma contains_fence_json s :
  contains s fence_json = true -> contains s fence = true.
Proof.
  unfold contains. induction s as [|c s IH]; cbn [find_offset].
  - cbn. intros H; discriminate H.
  - destruct (startswith (String c s) fence_json) eqn:Hj.
    + now rewrite (startswith_fence_json _ Hj).
    + destruct (startswith (String c s) fence); [reflexivity|].
      destruct (find_offset s fence_json); cbn [option_map];
        [|intros H; discriminate H].
      intros _. destruct (find_offset s fence); cbn [option_map];
        [reflexivity|]. now specialize (IH eq_refl).
Qed.

(** Without a fence the fence stage leaves the text alone. *)
Lemma strip_fences_no_fence response :
  contains response fence = false -> strip_fences response = response.
Proof.
  intros Hno. unfold strip_fences.
  destruct (contains response fence_json) eqn:Hjson; [|now rewrite Hno].
  apply contains_fence_json in Hjson. congruence.
Qed.

(** The client performs the extraction in the two stages of
    [staged_extract]. *)
Lemma clean_response_staged raw : clean_response raw = staged_extract raw.
Proof.
  unfold clean_response, staged_extract, strip_fences, brace_span,
    fenced_block, first_brace_span.
  set (text := strip raw).
  change (len fence_json) with 7. change (len fence) with 3.
  destruct (contains text fence_json).
  - destruct (find_from text fence (find text fence_json + 7) =? -1);
      cbn [negb or_text];
      match goal with
      | |- context [startswith ?t "{"] => destruct (startswith t "{")
      end; cbn [negb]; try reflexivity;
      match goal with
      | |- context [find ?t "{" =? -1] => destruct (find t "{" =? -1)
      end; reflexivity.
  - destruct (contains text fence).
    + destruct (find_from text fence (find text fence + 3) =? -1);
        cbn [negb or_text];
        match goal with
        | |- context [startswith ?t "{"] => destruct (startswith t "{")
        end; cbn [negb]; try reflexivity;
        match goal with
        | |- context [find ?t "{" =? -1] => destruct (find t "{" =? -1)
        end; reflexivity.
    + cbn [or_text].
      destruct (startswith text "{"); cbn [negb]; [reflexivity|].
      destruct (find text "{" =? -1); reflexivity.
Qed.

(** C4, as amended.  The extraction proceeds in two stages: the contents
    of a fenced json block, else of any fenced block; then, unless the text
    so obtained starts with a brace, the span from its first brace to the
    matching brace; trimming at each step.  A fenced json block after a
    line of prose yields its contents, a document between noise is found by
    brace matching, and a reply that is empty after trimming fails with
    "Empty response after cleaning" instead of being parsed. *)
Theorem tolerant_extraction (json_loads : string -> string + json) :
  (forall raw, clean_response raw = staged_extract raw)
  /\ (strip_fences (strip Examples.fenced_reply) = Examples.doc_a1
      /\ clean_response Examples.fenced_reply = Examples.doc_a1
      /\ parse_response json_loads Examples.fenced_reply
         = match json_loads Examples.doc_a1 with
           | inr document => ret document
           | inl e => raise LLMException ("Invalid JSON response: " ++ e)
           end)
  /\ (strip_fences (strip Examples.noisy_reply) = Examples.noisy_reply
      /\ brace_span Examples.noisy_reply = Examples.doc_a1
      /\ clean_response Examples.noisy_reply = Examples.doc_a1
      /\ parse_response json_loads Examples.noisy_reply
         = match json_loads Examples.doc_a1 with
           | inr document => ret document
           | inl e => raise LLMException ("Invalid JSON response: " ++ e)
           end)
  /\ (forall raw,
        strip raw = EmptyString ->
        parse_response json_loads raw
        = raise LLMException "Empty response after cleaning").
Proof.
  split; [exact clean_response_staged|]. split; [|split].
  - assert (clean_response Examples.fenced_reply = Examples.doc_a1) as Hc
      by reflexivity.
    split; [reflexivity|]. split; [exact Hc|].
    unfold parse_response. rewrite Hc. reflexivity.
  - assert (clean_response Examples.noisy_reply = Examples.doc_a1) as Hc
      by reflexivity.
    split; [reflexivity|]. split; [reflexivity|]. split; [exact Hc|].
    unfold parse_response. rewrite Hc. reflexivity.
  - intros raw Hblank. unfold parse_response.
    rewrite (clean_response_blank raw Hblank). reflexivity.
Qed.

Lemma tolerant_extraction_witness :
  strip Examples.blank_reply = EmptyString
  /\ parse_response Examples.no_parse Examples.blank_reply
     = raise LLMException "Empty response after cleaning".
Proof.
  split; [reflexivity|].
  apply (proj2 (proj2 (proj2 (tolerant_extraction Examples.no_parse)))).
  reflexivity.
Defined.

(** C4 as stated fails where the order matters.  The contents of a fenced
    json block that begin with prose are not taken as they are: the brace
    scan runs on them as well.  And a reply without fences that starts
    with a brace is not cut at the matching brace: it is kept whole. *)
Lemma extraction_is_not_an_else_chain :
  (clean_response Examples.fenced_prose_reply = Examples.doc_a1
   /\ Spec.spec_extract Examples.fenced_prose_reply
      = "Result: " ++ Examples.doc_a1
   /\ clean_response Examples.fenced_prose_reply
      <> Spec.spec_extract Examples.fenced_prose_reply)
  /\ (clean_response Examples.trailing_reply = Examples.trailing_reply
      /\ Spec.spec_extract Examples.trailing_reply = Examples.doc_a1
      /\ clean_response Examples.trailing_reply
         <> Spec.spec_extract Examples.trailing_reply).
Proof.
  split; (split; [vm_compute; reflexivity|]);
    (split; [vm_compute; reflexivity|]); vm_compute; discriminate.
Qed.

End ExtractionFacts.

Section RetryFacts.
Import Py LLM Spec.

Variable extract_retry_delay : string -> Q.
Variable http : Z -> list message -> http_result.

Lemma generate_connection_failed r e :
  connection_failed r e ->
  generate r = raise LLMException ("CONNECTION_ERROR: " ++ e).
Proof. intros [-> | ->]; reflexivity. Qed.

Lemma backoff_connection_error max_retries attempt e :
  backoff extract_retry_delay max_retries attempt ("CONNECTION_ERROR: " ++ e)
  = [Sleep (inject_Z (Z.min (2 ^ attempt) 10))].
Proof. reflexivity. Qed.

(** One failed attempt in the connection class: the request, the pause,
    then the rest of the loop. *)
Lemma retry_loop_connection_failed messages max_retries remaining attempt
    last_error e :
  connection_failed (http attempt messages) e ->
  retry_loop extract_retry_delay http messages max_retries (S remaining)
    attempt last_error
  = let rest :=
      retry_loop extract_retry_delay http messages max_retries remaining
        (attempt + 1)
        (Some (Raise LLMException ("CONNECTION_ERROR: " ++ e))) in
    (Post messages :: Sleep (inject_Z (Z.min (2 ^ attempt) 10)) :: fst rest,
     snd rest).
Proof.
  intros Hfail. cbn [retry_loop].
  rewrite (generate_connection_failed _ _ Hfail). unfold raise.
  cbn [exn_str]. rewrite backoff_connection_error.
  destruct (retry_loop _ _ _ _ _ _ _) as [events r]. reflexivity.
Qed.

(** C5. Three attempts that all fail in the connection class: the
    underlying call is made exactly three times, the pauses after the
    first and the second attempt are min(2^0,10) and min(2^1,10) seconds,
    and after the third attempt (and the pause of min(2^2,10) seconds the
    loop still makes) the wrapper raises an error that wraps the last
    one. *)
Theorem retry_three_connection_failures messages e0 e1 e2 :
  connection_failed (http 0 messages) e0 ->
  connection_failed (http 1 messages) e1 ->
  connection_failed (http 2 messages) e2 ->
  generate_with_retry extract_retry_delay http messages 3
  = ([ Post messages; Sleep (inject_Z (Z.min (2 ^ 0) 10));
       Post messages; Sleep (inject_Z (Z.min (2 ^ 1) 10));
       Post messages; Sleep (inject_Z (Z.min (2 ^ 2) 10)) ],
     raise LLMException
       ("Failed after 3 attempts: CONNECTION_ERROR: " ++ e2))
  /\ attempts (fst (generate_with_retry extract_retry_delay http messages 3))
     = 3%nat.
Proof.
  intros H0 H1 H2.
  assert (generate_with_retry extract_retry_delay http messages 3
          = ([ Post messages; Sleep (inject_Z (Z.min (2 ^ 0) 10));
               Post messages; Sleep (inject_Z (Z.min (2 ^ 1) 10));
               Post messages; Sleep (inject_Z (Z.min (2 ^ 2) 10)) ],
             raise LLMException
               ("Failed after 3 attempts: CONNECTION_ERROR: " ++ e2)))
    as Hrun.
  { unfold generate_with_retry.
    change (Z.to_nat 3) with 3%nat.
    rewrite (retry_loop_connection_failed _ _ _ 0 _ e0 H0).
    change (0 + 1) with 1.
    rewrite (retry_loop_connection_failed _ _ _ 1 _ e1 H1).
    change (1 + 1) with 2.
    rewrite (retry_loop_connection_failed _ _ _ 2 _ e2 H2).
    reflexivity. }
  split; [exact Hrun|]. rewrite Hrun. reflexivity.
Qed.

(** Every request of the retry loop carries the turns it was given. *)
Lemma retry_loop_posts messages max_retries remaining :
  forall attempt last_error,
    posts_carry messages
      (fst (retry_loop extract_retry_delay http messages max_retries
              remaining attempt last_error)).
Proof.
  unfold posts_carry.
  induction remaining as [|remaining IH]; intros attempt last_error.
  - cbn. constructor.
  - cbn [retry_loop].
    destruct (generate (http attempt messages)) as [e|reply].
    + specialize (IH (attempt + 1) (Some e)).
      destruct (retry_loop _ _ _ _ _ _ _) as [events r]. cbn [fst] in *.
      constructor; [reflexivity|].
      apply Forall_app. split; [|exact IH].
      unfold backoff.
      repeat match goal with
             | |- context [if ?b then _ else _] => destruct b
             end; repeat constructor.
    + cbn. repeat constructor.
Qed.

End RetryFacts.

Lemma retry_three_connection_failures_witness :
  LLM.generate_with_retry Examples.fixed_delay Examples.refusing [] 3
  = ([ LLM.Post []; LLM.Sleep 1; LLM.Post []; LLM.Sleep 2;
       LLM.Post []; LLM.Sleep 4 ],
     Py.raise Py.LLMException
       "Failed after 3 attempts: CONNECTION_ERROR: refused")
  /\ Spec.attempts
       (fst (LLM.generate_with_retry Examples.fixed_delay Examples.refusing
               [] 3)) = 3%nat.
Proof.
  apply (retry_three_connection_failures Examples.fixed_delay
           Examples.refusing [] "refused" "refused" "refused");
    left; reflexivity.
Defined.

Section AliasingFacts.
Import Py LLM Spec.

Variable extract_retry_delay : string -> Q.
Variable json_loads : string -> string + json.
Variable http : Z -> list message -> http_result.

Lemma last_deref (h : gmap nat message) (messages : list nat) l m :
  last messages = Some l -> h !! l = Some m ->
  last (deref h messages) = Some m.
Proof.
  intros Hlast Hl.
  destruct (last_Some messages l) as [[front ->] _]; [exact Hlast|].
  unfold deref. rewrite omap_app. cbn. rewrite Hl. apply last_snoc.
Qed.

Lemma generate_json_store h messages :
  fst (fst (generate_json extract_retry_delay json_loads http h messages))
  = add_json_instruction h messages.
Proof.
  unfold generate_json.
  destruct (generate_with_retry _ _ _ _) as [events r]. reflexivity.
Qed.

Lemma generate_json_events h messages :
  snd (fst (generate_json extract_retry_delay json_loads http h messages))
  = fst (generate_with_retry extract_retry_delay http
           (deref (add_json_instruction h messages) messages) 3).
Proof.
  unfold generate_json.
  destruct (generate_with_retry _ _ _ _) as [events r]. reflexivity.
Qed.

(** The loop with at least one iteration begins with a request, and
    makes one request per iteration at most. *)
Lemma retry_loop_requests messages max_retries remaining :
  forall attempt last_error,
    let events :=
      fst (retry_loop extract_retry_delay http messages max_retries
             remaining attempt last_error) in
    (attempts events <= remaining)%nat
    /\ (remaining <> O -> exists rest, events = Post messages :: rest).
Proof.
  unfold attempts.
  induction remaining as [|remaining IH]; intros attempt last_error;
    cbn [retry_loop].
  - cbn. split; [lia|]. intros H. now contradiction H.
  - destruct (generate (http attempt messages)) as [e|reply].
    + specialize (IH (attempt + 1) (Some e)). cbv zeta in IH.
      destruct (retry_loop _ _ _ _ _ _ _) as [events r]. cbn [fst] in *.
      split; [|intros _; eexists; reflexivity].
      cbn [List.filter List.length]. rewrite List.filter_app, length_app.
      assert (List.length
                (List.filter
                   (fun ev => match ev with Post _ => true | _ => false end)
                   (backoff extract_retry_delay max_retries attempt
                      (exn_str e))) = 0%nat) as ->.
      { unfold backoff.
        repeat match goal with
               | |- context [if ?b then _ else _] => destruct b
               end; reflexivity. }
      destruct IH as [IH _]. lia.
    + cbn. split; [lia|]. intros _. eexists. reflexivity.
Qed.

(** C10. The call works on a copy of the caller's list that holds the
    same message objects.  When the last turn has role "user" the
    instruction, two line feeds and the sentences "Respond ONLY with
    valid JSON. Do not include any thoughts, explanations, or markdown
    formatting.", is appended to that object itself: afterwards the
    caller's last message ends with the instruction, no other message
    object has changed, and the changed turns are sent: the call begins
    with a request, makes between one and three of them, and each of them
    carries the changed turns.  When the last turn has another role the
    store is left as it was and the caller's turns are sent unchanged. *)
Theorem generate_json_mutates_last_user_message
    (h : gmap nat message) (messages : list nat) (l : nat) (m : message) :
  last messages = Some l ->
  h !! l = Some m ->
  let out := generate_json extract_retry_delay json_loads http h messages in
  let h' := fst (fst out) in
  let events := snd (fst out) in
  let instruction :=
    Examples.nl ++ Examples.nl
    ++ "Respond ONLY with valid JSON. Do not include any thoughts, explanations, or markdown formatting." in
  (role m = "user" ->
     h' !! l = Some (Message "user" (content m ++ instruction))
     /\ last (deref h' messages)
        = Some (Message "user" (content m ++ instruction))
     /\ (forall l', l' <> l -> h' !! l' = h !! l')
     /\ (exists rest, events = Post (deref h' messages) :: rest)
     /\ (1 <= attempts events <= 3)%nat
     /\ posts_carry (deref h' messages) events)
  /\ (role m <> "user" ->
        h' = h
        /\ (exists rest, events = Post (deref h messages) :: rest)
        /\ (1 <= attempts events <= 3)%nat
        /\ posts_carry (deref h messages) events).
Proof.
  intros Hlast Hl out h' events instruction.
  assert (h' = add_json_instruction h messages) as Hh'
    by apply generate_json_store.
  assert (events
          = fst (generate_with_retry extract_retry_delay http
                   (deref h' messages) 3)) as Hev.
  { unfold events, out. rewrite generate_json_events. now rewrite <- Hh'. }
  assert ((exists rest, events = Post (deref h' messages) :: rest)
          /\ (1 <= attempts events <= 3)%nat
          /\ posts_carry (deref h' messages) events) as Hsent.
  { rewrite Hev. unfold generate_with_retry.
    change (Z.to_nat 3) with 3%nat.
    destruct (retry_loop_requests (deref h' messages) 3 3 0 None)
      as [Hmost Hfirst].
    destruct Hfirst as [rest Hrest]; [discriminate|].
    split; [exists rest; exact Hrest|]. split; [|apply retry_loop_posts].
    split; [|exact Hmost]. rewrite Hrest. unfold attempts. cbn. lia. }
  unfold add_json_instruction in Hh'. rewrite Hlast, Hl in Hh'.
  split.
  - intros Huser. rewrite Huser in Hh'. cbn in Hh'.
    change JSON_INSTRUCTION with instruction in Hh'.
    assert (h' !! l = Some (Message "user" (content m ++ instruction)))
      as Hnew by (rewrite Hh'; apply lookup_insert_eq).
    split; [exact Hnew|]. split; [now apply last_deref with (l := l)|].
    split; [|exact Hsent].
    intros l' Hne. rewrite Hh'. now apply lookup_insert_ne.
  - intros Hother.
    destruct (String.eqb (role m) "user") eqn:Heq.
    + apply String.eqb_eq in Heq. contradiction.
    + split; [exact Hh'|]. rewrite <- Hh'. exact Hsent.
Qed.

End AliasingFacts.

Lemma generate_json_mutates_last_user_message_witness :
  fst (fst (LLM.generate_json Examples.fixed_delay Examples.no_parse
              Examples.refusing Examples.two_turns [0%nat; 1%nat]))
    !! 1%nat
  = Some (LLM.Message "user"
            ("go" ++ Examples.nl ++ Examples.nl
             ++ "Respond ONLY with valid JSON. Do not include any thoughts, explanations, or markdown formatting.")).
Proof.
  apply (generate_json_mutates_last_user_message Examples.fixed_delay
           Examples.no_parse Examples.refusing Examples.two_turns
           [0%nat; 1%nat] 1%nat (LLM.Message "user" "go"));
    reflexivity.
Defined.

(* ===================================================================== *)
(** * Properties of the resource validator *)
(* ===================================================================== *)

Section ValidationFacts.
Import Py Validation Spec.

Variable net : nat -> probe.

Lemma has_url_get resource :
  has_url resource -> exists url, dict_get resource "url" = Some url.
Proof.
  unfold has_url, dict_has.
  destruct (dict_get resource "url") as [url|]; [eauto|discriminate].
Qed.

Lemma validate_url_raises p url e :
  probe_raises p = Some e -> validate_url p url = probe_failed url e.
Proof.
  unfold probe_raises, validate_url.
  destruct (head p) as [sc ct| |e0].
  - destruct (400 <=? sc); [|discriminate].
    destruct (get_ p); intros H; inversion H; reflexivity.
  - intros H; inversion H; reflexivity.
  - intros H; inversion H; reflexivity.
Qed.

(** A resource with a URL always yields a result, which names the URL. *)
Lemma validate_with_limit_url p resource url :
  dict_get resource "url" = Some url ->
  exists result,
    validate_with_limit p resource = inr result
    /\ dict_get result "url" = Some url.
Proof.
  intros Hget. unfold validate_with_limit, resource_url. rewrite Hget.
  cbn [bind ret]. eexists. split; [reflexivity|].
  unfold validate_url.
  destruct (head p) as [sc ct| |e]; try reflexivity.
  destruct (400 <=? sc); [|reflexivity].
  destruct (get_ p); reflexivity.
Qed.

(** A probe that raises is turned into an inaccessible result. *)
Lemma validate_with_limit_raises p resource result e :
  validate_with_limit p resource = inr result ->
  probe_raises p = Some e ->
  dict_get result "accessible" = Some (JBool false)
  /\ dict_get result "error" = Some (JStr e).
Proof.
  unfold validate_with_limit, resource_url.
  destruct (dict_get resource "url") as [url|]; [|discriminate].
  cbn [bind ret]. intros Hres Hraises. inversion Hres; subst result.
  rewrite (validate_url_raises _ _ _ Hraises). split; reflexivity.
Qed.

(** Gathering and processing, for tasks numbered from [k]. *)
Lemma process_gather resources :
  Forall has_url resources ->
  forall k,
  exists results,
    process_results resources (gather net k resources) = inr results
    /\ List.length results = List.length resources
    /\ forall i resource,
         resources !! i = Some resource ->
         exists result,
           results !! i = Some result
           /\ validate_with_limit (net (k + i)%nat) resource = inr result.
Proof.
  induction 1 as [|resource resources Hurl _ IH]; intros k.
  - exists []. split; [reflexivity|]. split; [reflexivity|].
    intros i resource Hi. discriminate Hi.
  - destruct (has_url_get _ Hurl) as [url Hget].
    destruct (validate_with_limit_url (net k) _ _ Hget)
      as (result & Hresult & _).
    destruct (IH (S k)) as (results & Hproc & Hlen & Hnth).
    exists (result :: results).
    split; [|split].
    + cbn [gather process_results]. rewrite Hresult, Hproc. reflexivity.
    + cbn [List.length]. now rewrite Hlen.
    + intros [|i] r Hi.
      * cbn in Hi. inversion Hi; subst r. exists result.
        rewrite Nat.add_0_r. split; [reflexivity|exact Hresult].
      * cbn in Hi. destruct (Hnth i r Hi) as (res & Hres & Hval).
        exists res. split; [exact Hres|].
        replace (k + S i)%nat with (S k + i)%nat by lia. exact Hval.
Qed.

(** For a positive concurrency bound and resources that all carry a
    'url' key, the batch returns one result per resource, in the order of
    the input; the result of each resource is what its own task computes
    from that resource and its own probe, and when that probe raises, the
    result has accessible = false and the error text attached.  These
    failures are all caught inside [validate_url]. *)
Lemma validate_batch_isolates_failures (resources : list dict)
    (max_concurrent : Z) :
  0 < max_concurrent ->
  Forall has_url resources ->
  exists results,
    validate_batch net resources max_concurrent = Returns results
    /\ List.length results = List.length resources
    /\ forall i resource,
         resources !! i = Some resource ->
         exists url result,
           dict_get resource "url" = Some url
           /\ results !! i = Some result
           /\ validate_with_limit (net i) resource = inr result
           /\ dict_get result "url" = Some url
           /\ forall e,
                probe_raises (net i) = Some e ->
                dict_get result "accessible" = Some (JBool false)
                /\ dict_get result "error" = Some (JStr e).
Proof.
  intros Hpos Hurls.
  destruct (process_gather resources Hurls 0)
    as (results & Hproc & Hlen & Hnth).
  exists results. split; [|split; [exact Hlen|]].
  - unfold validate_batch.
    destruct (max_concurrent <? 0) eqn:Hneg; [lia|].
    destruct (max_concurrent =? 0) eqn:Hzero; [lia|].
    cbn [andb]. now rewrite Hproc.
  - intros i resource Hi.
    destruct (Hnth i resource Hi) as (result & Hres & Hval).
    cbn [Nat.add] in Hval.
    assert (has_url resource) as Hurl.
    { rewrite Forall_forall in Hurls. apply Hurls.
      eapply list_elem_of_lookup_2. exact Hi. }
    destruct (has_url_get _ Hurl) as [url Hget].
    destruct (validate_with_limit_url (net i) _ _ Hget)
      as (result' & Hval' & Hurl').
    assert (result' = result) as -> by congruence.
    exists url, result.
    split; [exact Hget|]. split; [exact Hres|]. split; [exact Hval|].
    split; [exact Hurl'|].
    intros e He. now apply validate_with_limit_raises with (p := net i)
                              (resource := resource).
Qed.

(** The only error a task raises is the KeyError of [resource["url"]],
    and the result that is to replace it reads the same key. *)
Lemma validate_with_limit_error p resource e :
  validate_with_limit p resource = inl e ->
  e = Raise KeyError "'url'" /\ resource_url resource = inl e.
Proof.
  unfold validate_with_limit, resource_url.
  destruct (dict_get resource "url") as [url|]; [discriminate|].
  cbn. intros [= <-]. split; reflexivity.
Qed.

Lemma process_gather_missing resources :
  Exists (fun resource => dict_has resource "url" = false) resources ->
  forall k,
    process_results resources (gather net k resources)
    = inl (Raise KeyError "'url'").
Proof.
  induction resources as [|resource resources IH]; intros Hex k;
    [inversion Hex|].
  cbn [gather process_results].
  unfold validate_with_limit, resource_url, dict_has in *.
  destruct (dict_get resource "url") as [url|] eqn:Hget.
  - cbn [bind ret]. rewrite IH; [reflexivity|].
    inversion Hex as [? ? Hhead|? ? Htail]; subst; [|exact Htail].
    rewrite Hget in Hhead. discriminate Hhead.
  - reflexivity.
Qed.

(** C6. The batch does not isolate the one failure that reaches it.  A
    task raises only when its resource has no 'url' key, and the branch
    that is to turn a raised error into a result reads that very key
    again: whenever it is entered it raises.  So, for a positive
    concurrency bound, the batch call raises KeyError and returns no
    result at all exactly when one of the resources has no 'url' key,
    whatever the probes of the other resources answer. *)
Theorem validate_batch_fails_on_missing_url (resources : list dict)
    (max_concurrent : Z) :
  0 < max_concurrent ->
  (forall i resource e,
      validate_with_limit (net i) resource = inl e ->
      e = Raise KeyError "'url'"
      /\ resource_url resource = inl e
      /\ forall results,
           process_results [resource]
             [validate_with_limit (net i) resource] <> inr results)
  /\ (Exists (fun resource => dict_has resource "url" = false) resources ->
      validate_batch net resources max_concurrent
      = Raises (Raise KeyError "'url'"))
  /\ (Forall has_url resources ->
      exists results,
        validate_batch net resources max_concurrent = Returns results
        /\ List.length results = List.length resources).
Proof.
  intros Hpos. split; [|split].
  - intros i resource e Hfail.
    destruct (validate_with_limit_error _ _ _ Hfail) as [-> Hurl].
    split; [reflexivity|]. split; [exact Hurl|].
    intros results. rewrite Hfail. cbn [process_results].
    rewrite Hurl. discriminate.
  - intros Hex. unfold validate_batch.
    destruct (max_concurrent <? 0) eqn:Hneg; [lia|].
    destruct (max_concurrent =? 0) eqn:Hzero; [lia|].
    cbn [andb]. now rewrite (process_gather_missing resources Hex 0%nat).
  - intros Hurls.
    destruct (validate_batch_isolates_failures resources max_concurrent
                Hpos Hurls) as (results & Hret & Hlen & _).
    exists results. split; assumption.
Qed.

End ValidationFacts.

Lemma validate_batch_isolates_failures_witness :
  exists results,
    Validation.validate_batch Examples.third_probe_raises
      Examples.five_resources 2 = Validation.Returns results
    /\ List.length results = 5%nat.
Proof.
  destruct (validate_batch_isolates_failures Examples.third_probe_raises
              Examples.five_resources 2) as (results & Hret & Hlen & _).
  - lia.
  - repeat constructor.
  - exists results. split; [exact Hret|exact Hlen].
Defined.

(** Five resources with a URL and one without: the batch raises and the
    five results are lost. *)
Lemma validate_batch_fails_on_missing_url_witness :
  Validation.validate_batch Examples.third_probe_raises
    (Examples.five_resources ++ [Examples.resource_without_url]) 10
  = Validation.Raises (Py.Raise Py.KeyError "'url'").
Proof.
  refine (proj1 (proj2 (validate_batch_fails_on_missing_url
                          Examples.third_probe_raises
                          (Examples.five_resources
                             ++ [Examples.resource_without_url]) 10 _)) _).
  - lia.
  - apply Exists_app. right. constructor. reflexivity.
Defined.

(* ===================================================================== *)
(** * Properties of documents *)
(* ===================================================================== *)

Section DictFacts.
Import Py.

Lemma dict_get_set_eq d key v : dict_get (dict_set d key v) key = Some v.
Proof.
  induction d as [|[k w] d IH]; cbn [dict_set dict_get].
  - now rewrite String.eqb_refl.
  - destruct (String.eqb k key) eqn:Hk; cbn [dict_get]; now rewrite Hk.
Qed.

Lemma dict_get_set_ne d key key' v :
  key <> key' -> dict_get (dict_set d key v) key' = dict_get d key'.
Proof.
  intros Hne. induction d as [|[k w] d IH]; cbn [dict_set dict_get].
  - destruct (String.eqb key key') eqn:Hk; [|reflexivity].
    apply String.eqb_eq in Hk. contradiction.
  - destruct (String.eqb k key) eqn:Hk; cbn [dict_get].
    + apply String.eqb_eq in Hk. subst k.
      destruct (String.eqb key key') eqn:Hk'; [|reflexivity].
      apply String.eqb_eq in Hk'. contradiction.
    + destruct (String.eqb k key'); [reflexivity|exact IH].
Qed.

Lemma dict_has_get d key v : dict_get d key = Some v -> dict_has d key = true.
Proof. unfold dict_has. now intros ->. Qed.

Lemma dict_has_set_ne d key key' v :
  key <> key' -> dict_has (dict_set d key v) key' = dict_has d key'.
Proof. intros Hne. unfold dict_has. now rewrite dict_get_set_ne. Qed.

Lemma py_sum_nums xs : forall acc,
  py_sum (map JNum xs) acc = Spec.double_sum xs acc.
Proof.
  induction xs as [|x xs IH]; intros acc;
    cbn [map py_sum to_num Spec.double_sum]; [reflexivity|].
  destruct (py_add acc x) as [e|acc']; cbn [bind]; [reflexivity|apply IH].
Qed.

Lemma all_ge_nums bound xs :
  all_ge (map JNum xs) bound = ret (forallb (fun x => num_ge x bound) xs).
Proof.
  induction xs as [|x xs IH]; cbn [map all_ge forallb]; [reflexivity|].
  unfold py_ge. cbn [to_num bind ret].
  destruct (num_ge x bound); [exact IH|reflexivity].
Qed.

End DictFacts.

(* ===================================================================== *)
(** * Properties of the Quality Gate stage *)
(* ===================================================================== *)

Section QualityFacts.
Import Py State Spec.

Variable settings : Config.Settings.

Lemma check_required_present what keys d :
  Forall (fun key => dict_has d key = true) keys ->
  check_required what keys (JObj d) = ret tt.
Proof.
  induction 1 as [|key keys Hkey _ IH]; cbn [check_required]; [reflexivity|].
  cbn [py_in bind ret]. now rewrite Hkey.
Qed.

(** The mean the stage computes from a dict of numeric sub-scores. *)
Lemma quality_mean_nums scores xs :
  map snd scores = map JNum xs ->
  QualityAgent.mean scores = double_mean xs.
Proof.
  intros Hnums. unfold QualityAgent.mean, double_mean.
  rewrite Hnums, py_sum_nums.
  assert (List.length scores = List.length xs) as ->
    by (rewrite <- (length_map snd scores), Hnums; apply length_map).
  reflexivity.
Qed.

(** The verdict of a document that has the four keys, a boolean
    'approved' and a dict of numeric sub-scores whose mean can be
    computed. *)
Lemma review_verdict doc reported scores xs avg :
  dict_get doc "approved" = Some (JBool reported) ->
  dict_has doc "score" = true ->
  dict_has doc "violations" = true ->
  dict_get doc "scores" = Some (JObj scores) ->
  map snd scores = map JNum xs ->
  double_mean xs = ret avg ->
  let verdict :=
    JBool (gate_approved (Config.QUALITY_THRESHOLD settings) reported
             (round2 avg) xs) in
  QualityAgent.review (Config.QUALITY_THRESHOLD settings) (inr (JObj doc))
  = ret (JObj (dict_set
                 (dict_set doc "score" (JNum (Float (round2 avg))))
                 "approved" verdict),
         verdict).
Proof.
  intros Happroved Hscore Hviolations Hscores Hnums Hmean verdict.
  unfold QualityAgent.review. cbn [bind].
  rewrite check_required_present.
  2:{ unfold QualityAgent.required_keys. repeat constructor; auto.
      - exact (dict_has_get _ _ _ Happroved).
      - exact (dict_has_get _ _ _ Hscores). }
  cbn [bind ret getitem]. rewrite Hscores. cbn [bind ret].
  unfold QualityAgent.average_scores.
  rewrite (quality_mean_nums scores xs Hnums), Hmean.
  cbn [setitem bind ret].
  unfold QualityAgent.determine_approval. cbn [getitem].
  rewrite dict_get_set_ne, Happroved by discriminate. cbn [bind ret truthy].
  unfold verdict, gate_approved.
  destruct reported; cbn [negb andb]; [|reflexivity].
  rewrite dict_get_set_eq. cbn [bind ret]. unfold py_ge. cbn [to_num bind ret].
  destruct (num_ge (Float (round2 avg))
              (Float (Config.QUALITY_THRESHOLD settings)));
    cbn [negb andb]; [|reflexivity].
  cbn [values bind ret]. rewrite Hnums, all_ge_nums. reflexivity.
Qed.

(** What the part of the stage after the store leaves in 'approved'. *)
Lemma report_approved s response verdict :
  let out := QualityAgent.report s response verdict in
  approved (match out with
            | (s', Some e) => QualityAgent.failed s' e
            | (s', None) => s'
            end)
  = approved s
  \/ (truthy verdict = false /\ QualityAgent.ceiling_reached s = true
      /\ approved (match out with
                   | (s', Some e) => QualityAgent.failed s' e
                   | (s', None) => s'
                   end) = JBool true).
Proof.
  unfold QualityAgent.report.
  destruct (bind _ _) as [e|[violation_count score]]; [left; reflexivity|].
  destruct (format_2f score) as [e|u]; [left; reflexivity|].
  destruct (truthy verdict) eqn:Htruthy; cbn [negb andb];
    [left; reflexivity|].
  unfold QualityAgent.ceiling_reached.
  cbn [log_action set_agent_logs iteration].
  destruct (5 <=? iteration s) eqn:Hfive; [|left; reflexivity].
  right. split; [reflexivity|]. split; reflexivity.
Qed.

(** The part of the stage after the store leaves the stored review as it
    is. *)
Lemma report_keeps_review s response verdict :
  quality_review (match QualityAgent.report s response verdict with
                  | (s', Some e) => QualityAgent.failed s' e
                  | (s', None) => s'
                  end)
  = quality_review s.
Proof.
  unfold QualityAgent.report.
  destruct (bind _ _) as [e|[violation_count score]]; [reflexivity|].
  destruct (format_2f score) as [e|u]; [reflexivity|].
  destruct (negb (truthy verdict) && _); reflexivity.
Qed.

(** C1, as amended.  For a map of numeric sub-scores whose mean can be
    computed in double arithmetic, the approved value the stage computes
    and stores in the review is the conjunction of the stage's own bit,
    every sub-score being at least 0.8, and the stored score (that mean,
    rounded to two decimals) being at least the configured threshold.  The approved flag of the workflow state holds the same
    value unless the stage has reached its own iteration ceiling, where
    the flag may only be true instead.  A sub-score below 0.8 therefore
    makes the value false whatever the stage reports. *)
Theorem quality_gate_stored_approval doc reported scores xs avg s :
  dict_get doc "approved" = Some (JBool reported) ->
  dict_has doc "score" = true ->
  dict_has doc "violations" = true ->
  dict_get doc "scores" = Some (JObj scores) ->
  map snd scores = map JNum xs ->
  double_mean xs = ret avg ->
  let s' := QualityAgent.run settings (inr (JObj doc)) s in
  let verdict :=
    gate_approved (Config.QUALITY_THRESHOLD settings) reported
      (round2 avg) xs in
  getitem (quality_review s') "approved" = ret (JBool verdict)
  /\ (QualityAgent.ceiling_reached s = false -> approved s' = JBool verdict)
  /\ (approved s' = JBool verdict \/ approved s' = JBool true)
  /\ ((exists x, In x xs /\ num_ge x minimum = false) -> verdict = false).
Proof.
  intros Happroved Hscore Hviolations Hscores Hnums Hmean s' verdict.
  assert (approved s' = JBool verdict
          \/ (QualityAgent.ceiling_reached s = true
              /\ approved s' = JBool true)) as Hstored.
  { unfold s', QualityAgent.run.
    rewrite (review_verdict doc reported scores xs avg) by assumption.
    cbn [ret].
    match goal with
    | |- approved (match QualityAgent.report ?s0 ?r ?v with _ => _ end) = _
         \/ _ =>
        destruct (report_approved s0 r v) as [Hkeep | (_ & Hfive & Hforced)]
    end.
    - left. rewrite Hkeep. reflexivity.
    - right. split; [exact Hfive|exact Hforced]. }
  split; [|split; [|split]].
  - unfold s', QualityAgent.run.
    rewrite (review_verdict doc reported scores xs avg) by assumption.
    cbn [ret]. rewrite report_keeps_review.
    cbn [quality_review set_approved set_quality_review log_action
           set_agent_logs getitem].
    now rewrite dict_get_set_eq.
  - intros Hbelow. destruct Hstored as [Hkeep|[Hfive _]]; [exact Hkeep|].
    congruence.
  - destruct Hstored as [Hkeep|[_ Hforced]]; [left|right]; assumption.
  - intros (x & Hin & Hlow). unfold verdict, gate_approved.
    assert (forallb (fun x => num_ge x minimum) xs = false) as ->.
    { apply not_true_is_false. intros Hall.
      rewrite forallb_forall in Hall. specialize (Hall x Hin). congruence. }
    now rewrite andb_false_r.
Qed.

(** At the ceiling of the stage a verdict that turns the draft down is
    overridden: that ceiling is the literal 5, whatever MAX_ITERATIONS is
    configured. *)
Lemma quality_gate_forces_from_five doc reported scores xs avg violations s :
  dict_get doc "approved" = Some (JBool reported) ->
  dict_has doc "score" = true ->
  dict_get doc "violations" = Some (JList violations) ->
  dict_get doc "scores" = Some (JObj scores) ->
  map snd scores = map JNum xs ->
  double_mean xs = ret avg ->
  gate_approved (Config.QUALITY_THRESHOLD settings) reported (round2 avg) xs
  = false ->
  approved (QualityAgent.run settings (inr (JObj doc)) s)
  = JBool (5 <=? iteration s).
Proof.
  intros Happroved Hscore Hviolations Hscores Hnums Hmean Hverdict.
  unfold QualityAgent.run.
  rewrite (review_verdict doc reported scores xs avg); try assumption.
  2:{ exact (dict_has_get _ _ _ Hviolations). }
  cbn [ret]. rewrite Hverdict. unfold QualityAgent.report.
  cbn [get_default getitem].
  rewrite (dict_get_set_ne _ "approved" "violations") by discriminate.
  rewrite (dict_get_set_ne _ "score" "violations") by discriminate.
  rewrite Hviolations. cbn [bind ret py_len].
  rewrite (dict_get_set_ne _ "approved" "score") by discriminate.
  rewrite dict_get_set_eq.
  cbn [bind ret format_2f to_num truthy negb andb].
  unfold QualityAgent.ceiling_reached.
  cbn [log_action set_agent_logs iteration set_approved
         set_quality_review].
  destruct (5 <=? iteration s); reflexivity.
Qed.

End QualityFacts.

Lemma quality_gate_stored_approval_witness :
  State.approved
    (QualityAgent.run Config.default_settings (inr Examples.low_review)
       (Examples.state_at 1))
  = Py.JBool false.
Proof.
  destruct (quality_gate_stored_approval Config.default_settings
              (Examples.review_dict true Examples.low_scores) true
              (Examples.scores_doc Examples.low_scores)
              (map snd Examples.low_scores) Examples.low_mean
              (Examples.state_at 1)
              eq_refl eq_refl eq_refl eq_refl eq_refl eq_refl)
    as (_ & Hbelow & _ & Hlow).
  etransitivity; [exact (Hbelow eq_refl)|].
  apply (f_equal Py.JBool), Hlow.
  exists (Examples.hundredths 79).
  split; [right; left; reflexivity|reflexivity].
Defined.

(** C1 as stated fails where rounding decides: the sub-scores 0.85, 0.85
    and 0.84 are all at least 0.8 and their mean lies below the threshold
    0.85, as a real number and as the double the stage computes; yet the
    stage compares the score rounded to two decimals, 0.85, and stores
    approved = true.  It also fails at the fifth iteration, where a
    sub-score of 0.79 is turned down and the stored value is forced to
    true. *)
Lemma quality_gate_departs_from_stated_rule :
  (State.approved
     (QualityAgent.run Config.default_settings (inr Examples.rounding_review)
        (Examples.state_at 1))
   = Py.JBool true
   /\ Spec.spec_approved (Config.QUALITY_THRESHOLD Config.default_settings)
        true (map snd Examples.rounding_scores) = false
   /\ forallb (fun x => Py.num_ge x Spec.minimum)
        (map snd Examples.rounding_scores) = true
   /\ (exists m t,
         Spec.mean (map snd Examples.rounding_scores) = Some m
         /\ Spec.real_value
              (Py.Float (Config.QUALITY_THRESHOLD Config.default_settings))
            = Some t
         /\ (m < t)%Q)
   /\ (exists avg,
         Spec.double_mean (map snd Examples.rounding_scores) = Py.ret avg
         /\ Py.num_ge (Py.Float avg)
              (Py.Float (Config.QUALITY_THRESHOLD Config.default_settings))
            = false))
  /\ (State.approved
        (QualityAgent.run Examples.five_iterations (inr Examples.low_review)
           (Examples.state_at 5))
      = Py.JBool true
      /\ Spec.spec_approved
           (Config.QUALITY_THRESHOLD Examples.five_iterations)
           true (map snd Examples.low_scores) = false).
Proof.
  split; [split; [|split; [|split; [|split]]]|split].
  - vm_compute. reflexivity.
  - vm_compute. reflexivity.
  - vm_compute. reflexivity.
  - eexists. eexists. split; [vm_compute; reflexivity|].
    split; [vm_compute; reflexivity|]. reflexivity.
  - eexists. split; [vm_compute; reflexivity|]. vm_compute. reflexivity.
  - vm_compute. reflexivity.
  - vm_compute. reflexivity.
Qed.

(** C2 on the configuration of [config.py] (MAX_ITERATIONS = 2): at the
    configured ceiling a draft that is turned down keeps approved = false,
    and so does the state at the end of a whole run in which the Quality
    Gate never approves; the stage compares the iteration with 5. *)
Theorem quality_gate_ceiling_is_not_configured :
  Config.MAX_ITERATIONS Config.default_settings
  <= State.iteration (Examples.state_at 2)
  /\ State.errors
       (QualityAgent.run Config.default_settings (inr Examples.low_review)
          (Examples.state_at 2)) = []
  /\ State.approved
       (QualityAgent.run Config.default_settings (inr Examples.low_review)
          (Examples.state_at 2)) = Py.JBool false
  /\ Graph.should_continue Config.default_settings
       (QualityAgent.run Config.default_settings (inr Examples.low_review)
          (Examples.state_at 2)) = "finalize"
  /\ option_map (fun s => (State.iteration s, State.approved s))
       Examples.rejected_run
     = Some (Config.MAX_ITERATIONS Config.default_settings, Py.JBool false)
  /\ State.approved
       (QualityAgent.run Config.default_settings (inr Examples.low_review)
          (Examples.state_at 5)) = Py.JBool true.
Proof.
  split; [vm_compute; discriminate|].
  repeat split; vm_compute; reflexivity.
Qed.

(* ===================================================================== *)
(** * Properties of the Structuring stage *)
(* ===================================================================== *)

Section EnrichmentFacts.
Import Py State Tools Spec.

Variable search : nat -> result (list search_result).

Lemma enrich_tasks_length tasks : forall n searched,
  List.length (fst (fst (CurriculumAgent.enrich_tasks search tasks n searched)))
  = List.length tasks.
Proof.
  induction tasks as [|task tasks IH]; intros n searched;
    cbn [CurriculumAgent.enrich_tasks]; [reflexivity|].
  destruct (5 <=? searched); [reflexivity|].
  destruct (match search n with
            | inl _ => (task, searched)
            | inr [] => (task, searched)
            | inr (r :: results) =>
                match CurriculumAgent.enrich_task (r :: results) task with
                | inl _ => (task, searched)
                | inr task' => (task', searched + 1)
                end
            end) as [task' searched'].
  specialize (IH (S n) searched').
  destruct (CurriculumAgent.enrich_tasks search tasks (S n) searched')
    as [[rest n'] searched''].
  cbn [fst List.length] in *. now rewrite IH.
Qed.

Lemma task_count_list d tasks :
  dict_get d "tasks" = Some (JList tasks) ->
  task_count (JObj d) = Z.of_nat (List.length tasks).
Proof. intros H. unfold task_count. cbn [getitem]. now rewrite H. Qed.

Lemma has_tasks_list d tasks :
  dict_get d "tasks" = Some (JList tasks) ->
  has_tasks (JObj d) = match tasks with [] => false | _ => true end.
Proof. intros H. unfold has_tasks. now rewrite H. Qed.

(** The second pass changes neither the number of tasks of a phase nor
    whether it has any. *)
Lemma enrich_phases_tasks phases : forall n searched,
  map task_count (CurriculumAgent.enrich_phases search phases n searched)
  = map task_count phases
  /\ map has_tasks (CurriculumAgent.enrich_phases search phases n searched)
     = map has_tasks phases.
Proof.
  induction phases as [|phase phases IH]; intros n searched;
    cbn [CurriculumAgent.enrich_phases]; [split; reflexivity|].
  destruct phase as [| | | |l|d];
    try (cbn [map]; destruct (IH n searched) as [-> ->]; split; reflexivity).
  destruct (dict_get d "tasks") as [tasks|] eqn:Htasks;
    [|cbn [map]; destruct (IH n searched) as [-> ->]; split; reflexivity].
  destruct tasks as [| | | |tasks|];
    try (cbn [map]; destruct (IH n searched) as [-> ->]; split; reflexivity).
  pose proof (enrich_tasks_length tasks n searched) as Hlen.
  destruct (CurriculumAgent.enrich_tasks search tasks n searched)
    as [[tasks' n'] searched'].
  cbn [fst] in Hlen. cbn [map]. destruct (IH n' searched') as [-> ->].
  rewrite (task_count_list _ tasks' (dict_get_set_eq d "tasks" _)).
  rewrite (task_count_list _ tasks Htasks).
  rewrite (has_tasks_list _ tasks' (dict_get_set_eq d "tasks" _)).
  rewrite (has_tasks_list _ tasks Htasks).
  rewrite Hlen. split; [reflexivity|].
  destruct tasks, tasks'; try discriminate Hlen; reflexivity.
Qed.

Lemma second_pass_phases curriculum :
  match doc_phases curriculum with
  | inr phases =>
      exists phases',
        doc_phases (CurriculumAgent.second_pass search curriculum)
        = inr phases'
        /\ map task_count phases' = map task_count phases
        /\ map has_tasks phases' = map has_tasks phases
  | inl _ => CurriculumAgent.second_pass search curriculum = curriculum
  end.
Proof.
  unfold doc_phases, CurriculumAgent.second_pass.
  destruct curriculum as [| | | |l|d]; try reflexivity.
  cbn [getitem].
  destruct (dict_get d "phases") as [phases|] eqn:Hphases; [|reflexivity].
  cbn [bind ret].
  destruct phases as [| | |t|phases|kvs]; try reflexivity.
  - cbn [iter ret]. exists (chars t). cbn [getitem]. rewrite Hphases.
    cbn [bind ret iter]. auto.
  - cbn [iter ret getitem]. rewrite dict_get_set_eq. cbn [bind ret iter].
    eexists. split; [reflexivity|]. apply enrich_phases_tasks.
  - cbn [iter ret]. eexists. cbn [getitem]. rewrite Hphases.
    cbn [bind ret iter]. auto.
Qed.

Lemma second_pass_other_keys curriculum key :
  key <> "phases" ->
  getitem (CurriculumAgent.second_pass search curriculum) key
  = getitem curriculum key.
Proof.
  intros Hkey. unfold CurriculumAgent.second_pass.
  destruct curriculum as [| | | |l|d]; try reflexivity.
  destruct (dict_get d "phases") as [[| | | |phases|]|]; try reflexivity.
  cbn [getitem]. rewrite dict_get_set_ne by congruence. reflexivity.
Qed.

(** Enrichment leaves the task counts and every key but 'phases' as they
    were. *)
Lemma enrich_sum_task_counts curriculum :
  sum_task_counts
    (CurriculumAgent.enrich_resources_with_search search curriculum)
  = sum_task_counts curriculum.
Proof.
  unfold CurriculumAgent.enrich_resources_with_search.
  destruct (CurriculumAgent.first_pass curriculum); [reflexivity|].
  pose proof (second_pass_phases curriculum) as H.
  unfold sum_task_counts.
  destruct (doc_phases curriculum) as [e|phases] eqn:Hdoc.
  - now rewrite H, Hdoc.
  - destruct H as (phases' & -> & -> & _). reflexivity.
Qed.

Lemma enrich_doc_phases curriculum phases :
  doc_phases curriculum = inr phases ->
  exists phases',
    doc_phases
      (CurriculumAgent.enrich_resources_with_search search curriculum)
    = inr phases'.
Proof.
  intros Hdoc. unfold CurriculumAgent.enrich_resources_with_search.
  destruct (CurriculumAgent.first_pass curriculum); [eauto|].
  pose proof (second_pass_phases curriculum) as H. rewrite Hdoc in H.
  destruct H as (phases' & H & _). eauto.
Qed.

Lemma enrich_other_keys curriculum key :
  key <> "phases" ->
  getitem (CurriculumAgent.enrich_resources_with_search search curriculum)
    key
  = getitem curriculum key.
Proof.
  intros Hkey. unfold CurriculumAgent.enrich_resources_with_search.
  destruct (CurriculumAgent.first_pass curriculum); [reflexivity|].
  now apply second_pass_other_keys.
Qed.

End EnrichmentFacts.

Section StructuringFacts.
Import Py State Tools Spec.

Variable slugify : json -> result string.
Variable py_str : json -> string.
Variable search : nat -> result (list search_result).

Lemma no_tasks_raises {A} phase :
  exists e, @CurriculumAgent.no_tasks py_str A phase = inl e.
Proof.
  unfold CurriculumAgent.no_tasks. destruct (get phase "id"); cbn; eauto.
Qed.

Lemma truthy_len tasks n :
  truthy tasks = true -> py_len tasks = inr n -> 1 <= n.
Proof.
  destruct tasks as [| | |t|l|d]; cbn; try discriminate;
    intros Ht Hn; inversion Hn; subst n.
  - destruct t; [discriminate Ht|]. unfold len. cbn. lia.
  - destruct l; [discriminate Ht|]. cbn. lia.
  - destruct d; [discriminate Ht|]. cbn. lia.
Qed.

(** A successful count is the sum of the task counts, and it went over
    phases that all have tasks. *)
Lemma count_tasks_sum phases : forall total_tasks total,
  CurriculumAgent.count_tasks py_str phases total_tasks = inr total ->
  total = total_tasks + fold_right Z.add 0 (map task_count phases)
  /\ Forall (fun phase => has_tasks phase = true /\ 1 <= task_count phase)
       phases.
Proof.
  induction phases as [|phase phases IH]; intros total_tasks total;
    cbn [CurriculumAgent.count_tasks].
  - intros H. inversion H. cbn. split; [lia|constructor].
  - intros H. bind_inv H.
    destruct x; cbn [negb] in H.
    2:{ destruct (@no_tasks_raises Z phase) as [e He].
        rewrite He in H. discriminate H. }
    bind_inv H. rename x into tasks.
    destruct (truthy tasks) eqn:Htruthy; cbn [negb] in H.
    2:{ destruct (@no_tasks_raises Z phase) as [e He].
        rewrite He in H. discriminate H. }
    bind_inv H. rename x into n.
    destruct (IH _ _ H) as [Htotal Hall].
    assert (task_count phase = n) as Hcount.
    { unfold task_count. rewrite Hx0. cbn [bind]. now rewrite Hx1. }
    assert (has_tasks phase = true) as Hhas.
    { destruct phase as [| | | |l|d]; try discriminate Hx0.
      cbn [getitem] in Hx0. unfold has_tasks.
      destruct (dict_get d "tasks"); [|discriminate Hx0].
      inversion Hx0. now subst. }
    split.
    + cbn [map fold_right]. rewrite Hcount. lia.
    + constructor; [|exact Hall]. split; [exact Hhas|].
      rewrite Hcount. eapply truthy_len; eassumption.
Qed.

(** A phase without tasks stops the count. *)
Lemma count_tasks_missing phases : forall total_tasks,
  Exists (fun phase => has_tasks phase = false) phases ->
  exists e, CurriculumAgent.count_tasks py_str phases total_tasks = inl e.
Proof.
  intros total_tasks Hex.
  destruct (CurriculumAgent.count_tasks py_str phases total_tasks)
    as [e|total] eqn:Hcount; [eauto|].
  apply count_tasks_sum in Hcount. destruct Hcount as [_ Hall].
  exfalso. rewrite Exists_exists in Hex. destruct Hex as (phase & Hin & Hno).
  rewrite Forall_forall in Hall. destruct (Hall phase Hin) as [Hhas _].
  congruence.
Qed.

Lemma check_required_inv what keys response :
  check_required what keys response = inr tt ->
  Forall (fun key => py_in key response = inr true) keys.
Proof.
  induction keys as [|key keys IH]; cbn [check_required]; intros H;
    [constructor|].
  bind_inv H. destruct x; [|discriminate H].
  constructor; [exact Hx|]. now apply IH.
Qed.

Lemma check_required_missing what keys response key :
  In key keys -> py_in key response = inr false ->
  exists e, check_required what keys response = inl e.
Proof.
  intros Hin Hmissing.
  destruct (check_required what keys response) as [e|[]] eqn:Hcheck;
    [eauto|].
  apply check_required_inv in Hcheck. rewrite Forall_forall in Hcheck.
  apply list_elem_of_In in Hin. specialize (Hcheck key Hin). congruence.
Qed.

(** What a successful validation has established. *)
Lemma validate_inv response validated total_tasks :
  CurriculumAgent.validate slugify py_str response
  = inr (validated, total_tasks) ->
  Forall (fun key => py_in key response = inr true)
    CurriculumAgent.required_keys
  /\ exists phases,
       doc_phases response = inr phases
       /\ doc_phases validated = inr phases
       /\ total_tasks = fold_right Z.add 0 (map task_count phases)
       /\ Forall (fun phase => has_tasks phase = true
                               /\ 1 <= task_count phase) phases
       /\ getitem validated "total_tasks"
          = inr (JNum (Int total_tasks))
       /\ exists hours, getitem validated "estimated_hours" = inr hours.
Proof.
  unfold CurriculumAgent.validate. intros H.
  bind_inv H. destruct x. apply check_required_inv in Hx.
  split; [exact Hx|].
  assert (py_in "estimated_hours" response = inr true) as Hhours.
  { rewrite Forall_forall in Hx. apply Hx.
    unfold CurriculumAgent.required_keys. set_solver. }
  bind_inv H. rename x into id.
  bind_inv H. rename x into slug.
  destruct response as [| | | |l|d]; try discriminate Hx0.
  cbn [setitem bind ret] in H.
  cbn [getitem] in H.
  rewrite dict_get_set_ne in H by discriminate.
  destruct (dict_get d "phases") as [phases|] eqn:Hphases;
    [|discriminate H].
  cbn [bind ret] in H. bind_inv H. rename x into elements.
  bind_inv H. rename x into total.
  cbn [setitem bind ret] in H. inversion H; subst validated total_tasks.
  apply count_tasks_sum in Hx3. destruct Hx3 as [Htotal Hall].
  exists elements. unfold doc_phases. cbn [getitem].
  rewrite Hphases. cbn [bind ret].
  rewrite !dict_get_set_ne by discriminate.
  rewrite Hphases. cbn [bind ret].
  rewrite dict_get_set_eq.
  repeat split; try assumption; try lia.
  cbn [py_in ret] in Hhours. unfold dict_has in Hhours.
  destruct (dict_get d "estimated_hours") as [hours|] eqn:Hget;
    [|discriminate Hhours].
  exists hours. cbn [getitem].
  rewrite !dict_get_set_ne by discriminate. now rewrite Hget.
Qed.

Lemma report_keeps_draft s response total_tasks :
  let out := CurriculumAgent.report s response total_tasks in
  draft_curriculum (match out with
                    | (s', Some e) => CurriculumAgent.failed s' e
                    | (s', None) => s'
                    end) = draft_curriculum s.
Proof.
  unfold CurriculumAgent.report.
  destruct (bind _ _) as [e|[n hours]]; reflexivity.
Qed.

(** The state after a run that accepts: the draft is stored. *)
Lemma run_accepts llm s draft total_tasks :
  CurriculumAgent.design slugify py_str search llm
    (CurriculumAgent.enter s)
  = inr (draft, total_tasks) ->
  draft_curriculum (CurriculumAgent.run slugify py_str search llm s)
  = draft.
Proof.
  intros Hdesign. unfold CurriculumAgent.run. rewrite Hdesign.
  now rewrite report_keeps_draft.
Qed.

Lemma iter_len v elements :
  iter v = inr elements -> exists n, py_len v = inr n.
Proof. destruct v; cbn; intros H; try discriminate H; eauto. Qed.

(** A run that accepts records no error. *)
Lemma run_accepts_without_error response s draft total_tasks :
  CurriculumAgent.design slugify py_str search (inr response)
    (CurriculumAgent.enter s)
  = inr (draft, total_tasks) ->
  errors (CurriculumAgent.run slugify py_str search (inr response) s)
  = errors s.
Proof.
  intros Hdesign. unfold CurriculumAgent.run. cbv zeta. rewrite Hdesign.
  unfold CurriculumAgent.design in Hdesign.
  bind_inv Hdesign. cbn [bind] in Hdesign. bind_inv Hdesign.
  destruct x0 as [validated total]. inversion Hdesign; subst draft total.
  apply validate_inv in Hx0.
  destruct Hx0 as (_ & phases & _ & Hvalid & _ & _ & _ & hours & Hhours).
  destruct (enrich_doc_phases search _ _ Hvalid) as [phases' Hphases'].
  unfold doc_phases in Hphases'.
  destruct (getitem (CurriculumAgent.enrich_resources_with_search search
                       validated) "phases") as [e|p] eqn:Hp;
    [discriminate Hphases'|].
  cbn [bind] in Hphases'. destruct (iter_len _ _ Hphases') as [n Hn].
  unfold CurriculumAgent.report. rewrite Hp. cbn [bind]. rewrite Hn.
  cbn [bind]. rewrite enrich_other_keys by discriminate. rewrite Hhours.
  reflexivity.
Qed.

(** The state after a run that turns the document down. *)
Lemma run_rejects llm s e :
  CurriculumAgent.design slugify py_str search llm
    (CurriculumAgent.enter s)
  = inl e ->
  rejected s (CurriculumAgent.run slugify py_str search llm s).
Proof.
  intros Hdesign. unfold CurriculumAgent.run. rewrite Hdesign.
  split; [reflexivity|]. eexists. reflexivity.
Qed.

Lemma design_inv response s draft total_tasks :
  CurriculumAgent.design slugify py_str search (inr response) s
  = inr (draft, total_tasks) ->
  exists validated,
    CurriculumAgent.validate slugify py_str response
    = inr (validated, total_tasks)
    /\ draft
       = CurriculumAgent.enrich_resources_with_search search validated.
Proof.
  unfold CurriculumAgent.design. intros H.
  bind_inv H. cbn [bind] in H. bind_inv H.
  destruct x0 as [validated total]. inversion H; subst.
  exists validated. split; reflexivity.
Qed.

Lemma design_fails_with_validate response s e :
  CurriculumAgent.validate slugify py_str response = inl e ->
  exists e', CurriculumAgent.design slugify py_str search (inr response) s
             = inl e'.
Proof.
  intros Hval. unfold CurriculumAgent.design.
  destruct (CurriculumAgent.build_feedback _ _); cbn [bind]; [eauto|].
  rewrite Hval. cbn [bind]. eauto.
Qed.

(** C7. Whenever the stage accepts a generated document (it reaches the
    store, and records no error), the draft it stores carries as
    total_tasks the sum over its phases of the number of tasks of each
    phase, which is also that sum for the document as generated; the
    declared total_tasks plays no part. *)
Theorem structuring_recounts_tasks response s draft total_tasks :
  CurriculumAgent.design slugify py_str search (inr response)
    (CurriculumAgent.enter s)
  = inr (draft, total_tasks) ->
  let s' := CurriculumAgent.run slugify py_str search (inr response) s in
  draft_curriculum s' = draft
  /\ errors s' = errors s
  /\ getitem draft "total_tasks"
     = inr (JNum (Int (sum_task_counts draft)))
  /\ sum_task_counts draft = sum_task_counts response.
Proof.
  intros Hdesign s'. split; [now apply run_accepts with (1 := Hdesign)|].
  split; [now apply run_accepts_without_error with (1 := Hdesign)|].
  apply design_inv in Hdesign. destruct Hdesign as (validated & Hval & ->).
  apply validate_inv in Hval.
  destruct Hval as (_ & phases & Hresp & Hvalid & Htotal & _ & Hkey & _).
  assert (sum_task_counts validated = total_tasks) as Hsum
    by (unfold sum_task_counts; now rewrite Hvalid).
  rewrite enrich_sum_task_counts, Hsum.
  split.
  - rewrite enrich_other_keys by discriminate. exact Hkey.
  - unfold sum_task_counts. now rewrite Hresp.
Qed.

(** C8, as amended.  The stage turns down every generated document that
    lacks one of the keys id, title, phases, total_tasks and
    estimated_hours, and every document with a phase that has no tasks;
    a document it accepts has the five keys and only phases with at least
    one task.  (An empty phase list is no ground for turning a document
    down.) *)
Theorem structuring_validation response s :
  let s' := CurriculumAgent.run slugify py_str search (inr response) s in
  ((exists key,
       In key CurriculumAgent.required_keys
       /\ py_in key response = inr false) ->
   rejected s s')
  /\ (forall phases,
        doc_phases response = inr phases ->
        Exists (fun phase => has_tasks phase = false) phases ->
        rejected s s')
  /\ (forall draft total_tasks,
        CurriculumAgent.design slugify py_str search (inr response)
          (CurriculumAgent.enter s)
        = inr (draft, total_tasks) ->
        draft_curriculum s' = draft
        /\ errors s' = errors s
        /\ Forall (fun key => py_in key response = inr true)
             CurriculumAgent.required_keys
        /\ exists phases,
             doc_phases response = inr phases
             /\ Forall (fun phase => has_tasks phase = true
                                     /\ 1 <= task_count phase) phases).
Proof.
  intros s'. split; [|split].
  - intros (key & Hin & Hmissing).
    destruct (check_required_missing "Missing required key in curriculum: "
                _ _ _ Hin Hmissing) as [e He].
    assert (exists e', CurriculumAgent.validate slugify py_str response
                       = inl e') as [e' Hval].
    { unfold CurriculumAgent.validate. rewrite He. cbn [bind]. eauto. }
    destruct (design_fails_with_validate response
                (CurriculumAgent.enter s) e' Hval) as [e'' Hdesign].
    exact (run_rejects _ _ _ Hdesign).
  - intros phases Hphases Hex.
    destruct (CurriculumAgent.design slugify py_str search (inr response)
                (CurriculumAgent.enter s)) as [e|[draft total]] eqn:Hdesign;
      [exact (run_rejects _ _ _ Hdesign)|].
    exfalso. apply design_inv in Hdesign.
    destruct Hdesign as (validated & Hval & _).
    apply validate_inv in Hval.
    destruct Hval as (_ & phases' & Hresp & _ & _ & Hall & _ & _).
    assert (phases' = phases) as -> by congruence.
    rewrite Exists_exists in Hex. destruct Hex as (phase & Hin & Hno).
    rewrite Forall_forall in Hall. destruct (Hall phase Hin) as [Hhas _].
    congruence.
  - intros draft total_tasks Hdesign.
    split; [now apply run_accepts with (1 := Hdesign)|].
    split; [now apply run_accepts_without_error with (1 := Hdesign)|].
    apply design_inv in Hdesign.
    destruct Hdesign as (validated & Hval & _).
    apply validate_inv in Hval.
    destruct Hval as (Hkeys & phases & Hresp & _ & _ & Hall & _ & _).
    split; [exact Hkeys|]. exists phases. split; assumption.
Qed.

End StructuringFacts.

Lemma structuring_recounts_tasks_witness :
  Py.getitem
    (State.draft_curriculum
       (CurriculumAgent.run Examples.slug_kept Examples.shown
          Examples.one_hit (inr Examples.two_phase_doc)
          (Examples.state_at 0)))
    "total_tasks"
  = inr (Py.JNum (Py.Int 7)).
Proof.
  destruct (structuring_recounts_tasks Examples.slug_kept Examples.shown
              Examples.one_hit Examples.two_phase_doc (Examples.state_at 0)
              _ 7 eq_refl) as (Hdraft & _ & Htotal & _).
  rewrite Hdraft. exact Htotal.
Defined.

Lemma structuring_validation_witness :
  Spec.rejected (Examples.state_at 1) Examples.structured_empty.
Proof.
  apply (proj1 (structuring_validation Examples.slug_kept Examples.shown
                  Examples.one_hit (Py.JObj []) (Examples.state_at 1))).
  exists "title". split; [right; left; reflexivity|reflexivity].
Defined.

(** C8 as stated fails on a document whose phase list is empty: the loop
    over the phases has nothing to turn down, the document is accepted and
    stored with total_tasks = 0, and no error is recorded. *)
Lemma structuring_accepts_empty_phase_list :
  Spec.doc_phases Examples.no_phase_doc = inr []
  /\ Py.getitem (State.draft_curriculum Examples.structured_no_phase)
       "total_tasks" = inr (Py.JNum (Py.Int 0))
  /\ State.errors Examples.structured_no_phase
     = State.errors (Examples.state_at 0)
  /\ ~ Spec.rejected (Examples.state_at 0) Examples.structured_no_phase.
Proof.
  repeat split. intros [Hdraft _]. discriminate Hdraft.
Qed.

(* ===================================================================== *)
(** * Stage failures *)
(* ===================================================================== *)

Section StageFailureFacts.
Import Py State Tools Spec.

Variable env : surroundings.

Lemma filter_nonempty {A} (f : A -> bool) (l : list A) x :
  In x l -> f x = true -> List.filter f l <> [].
Proof.
  intros Hin Hfx Hnil.
  assert (In x (List.filter f l)) as Hx by (apply filter_In; auto).
  rewrite Hnil in Hx. destruct Hx.
Qed.

(** A document in which a required key is not found makes the analysis
    of Discovery raise. *)
Lemma analyse_missing topic results response key :
  In key ResearchAgent.required_keys ->
  py_in key response <> inr true ->
  exists e, ResearchAgent.analyse topic results (inr response) = inl e.
Proof.
  intros Hin Hmissing. unfold ResearchAgent.analyse. cbn [bind].
  destruct response as [| | |t|l|d]; try (cbn; eauto; fail).
  cbn [setitem bind ret].
  assert (dict_has d key = false) as Hhas.
  { cbn [py_in] in Hmissing. unfold ret in Hmissing.
    destruct (dict_has d key); [now contradiction Hmissing|reflexivity]. }
  clear Hmissing.
  assert (dict_has
            (dict_set (dict_set d "search_metadata"
                         (ResearchAgent.search_metadata topic results))
               "_raw_search_results"
               (JList (map json_of_result results))) key = false) as Hhas'.
  { unfold ResearchAgent.required_keys in Hin. cbn [In] in Hin.
    destruct Hin as [<-|[<-|[<-|[<-|[<-|[]]]]]];
      rewrite !dict_has_set_ne by discriminate; exact Hhas. }
  destruct (ResearchAgent.missing_keys _) as [|k ks] eqn:Hfilter.
  - exfalso. revert Hfilter. unfold ResearchAgent.missing_keys.
    apply (filter_nonempty _ _ key Hin). cbv beta. now rewrite Hhas'.
  - cbn. eauto.
Qed.

(** The check of the required keys raises as soon as one of them is not
    found. *)
Lemma check_required_fails what keys response key :
  In key keys -> py_in key response <> inr true ->
  exists e, check_required what keys response = inl e.
Proof.
  intros Hin Hmissing.
  destruct (check_required what keys response) as [e|[]] eqn:Hcheck;
    [eauto|].
  apply check_required_inv in Hcheck. rewrite Forall_forall in Hcheck.
  apply list_elem_of_In in Hin. specialize (Hcheck key Hin). contradiction.
Qed.

(** What fails the validation of a stage makes the part of the stage
    before the store raise. *)
Lemma structuring_design_fails llm s :
  fails_validation Structuring llm ->
  exists e,
    CurriculumAgent.design (sur_slugify env) (sur_py_str env)
      (sur_search env) llm s = inl e.
Proof.
  destruct llm as [e0|response]; cbn [fails_validation].
  - intros _. unfold CurriculumAgent.design.
    destruct (CurriculumAgent.build_feedback _ _); cbn [bind]; eauto.
  - intros [(key & Hin & Hmissing)|(_ & phases & Hphases & Hex)].
    + destruct (check_required_fails
                  "Missing required key in curriculum: "
                  _ _ _ Hin Hmissing) as [e He].
      apply (design_fails_with_validate (sur_slugify env)
               (sur_py_str env) (sur_search env) response s
               e).
      unfold CurriculumAgent.validate.
      cbn [stage_required] in He. rewrite He. reflexivity.
    + destruct (CurriculumAgent.design (sur_slugify env) (sur_py_str env)
                  (sur_search env) (inr response) s)
        as [e|[draft total]] eqn:Hdesign; [eauto|].
      exfalso. apply design_inv in Hdesign.
      destruct Hdesign as (validated & Hval & _).
      apply validate_inv in Hval.
      destruct Hval as (_ & phases' & Hresp & _ & _ & Hall & _ & _).
      assert (phases' = phases) as -> by congruence.
      rewrite Exists_exists in Hex. destruct Hex as (phase & Hin & Hno).
      rewrite Forall_forall in Hall. destruct (Hall phase Hin) as [Hhas _].
      congruence.
Qed.

(** Whether the analysis of Discovery raises depends neither on the
    topic nor on the search results. *)
Lemma analyse_fails_whatever topic results topic' results' llm e :
  ResearchAgent.analyse topic results llm = inl e ->
  exists e', ResearchAgent.analyse topic' results' llm = inl e'.
Proof.
  unfold ResearchAgent.analyse.
  destruct llm as [e0|response]; cbn [bind]; [eauto|].
  destruct response as [| | |t|l|d]; try (cbn; eauto; fail).
  cbn [setitem bind ret].
  assert (forall t r,
             ResearchAgent.missing_keys
               (dict_set (dict_set d "search_metadata"
                            (ResearchAgent.search_metadata t r))
                  "_raw_search_results" (JList (map json_of_result r)))
             = ResearchAgent.missing_keys d) as Hsame.
  { intros t r. unfold ResearchAgent.missing_keys.
    apply List.filter_ext_in. unfold ResearchAgent.required_keys.
    cbn [In]. intros key [<-|[<-|[<-|[<-|[<-|[]]]]]];
      now rewrite !dict_has_set_ne by discriminate. }
  rewrite !Hsame.
  destruct (ResearchAgent.missing_keys d); [discriminate|cbn; eauto].
Qed.

(** What fails the validation of a stage makes the stage raise before
    the store. *)
Lemma fails_validation_raises st llm s :
  fails_validation st llm -> raises_before_store env st llm s.
Proof.
  intros Hfails. destruct st; cbn [raises_before_store].
  - exists EmptyString, [].
    destruct llm as [e0|response]; [cbn; eauto|].
    destruct Hfails as [(key & Hin & Hmissing)|[Hst _]];
      [|discriminate Hst].
    exact (analyse_missing _ _ _ _ Hin Hmissing).
  - exact (structuring_design_fails llm (CurriculumAgent.enter s) Hfails).
  - destruct llm as [e0|response]; [cbn; eauto|].
    destruct Hfails as [(key & Hin & Hmissing)|[Hst _]];
      [|discriminate Hst].
    destruct (check_required_fails
                "Missing required key in expert review: "
                _ _ _ Hin Hmissing) as [e He].
    unfold ExpertAgent.validate. cbn [bind stage_required] in *.
    rewrite He. cbn [bind]. eauto.
  - destruct llm as [e0|response]; [cbn; eauto|].
    destruct Hfails as [(key & Hin & Hmissing)|[Hst _]];
      [|discriminate Hst].
    destruct (check_required_fails
                "Missing required key in quality review: "
                _ _ _ Hin Hmissing) as [e He].
    unfold QualityAgent.review. cbn [bind stage_required] in *.
    rewrite He. cbn [bind]. eauto.
Qed.

(** C9, as amended.  When what the generator hands to the stage fails
    the validation of the stage (the generator has raised; the document
    is no container of the required top-level keys or lacks one of them;
    in Structuring, a phase has no tasks), and on whatever other ground
    the stage raises before it stores its output, the stage appends one
    entry to the error list and does not write its output key; it has,
    before that, appended its start entry to the action log, and
    Structuring has counted the iteration.  Every other field of the state
    is as it was. *)
Theorem stage_failure_is_recorded (st : stage) (llm : result json)
    (s : WorkflowState) :
  fails_validation st llm \/ raises_before_store env st llm s ->
  let s' := stage_run env st llm s in
  (exists error, s' = add_error (stage_name st) (stage_entered st s) error)
  /\ (exists entry, errors s' = (errors s ++ [entry])%list)
  /\ stage_output st s' = stage_output st s
  /\ same_payload s s'
  /\ agent_logs s' = agent_logs (stage_entered st s)
  /\ List.length (agent_logs s') = S (List.length (agent_logs s))
  /\ iteration s'
     = match st with
       | Structuring => iteration s + 1
       | _ => iteration s
       end.
Proof.
  intros Hfails s'.
  assert (raises_before_store env st llm s) as Hraises
    by (destruct Hfails as [Hfails|Hraises];
        [exact (fails_validation_raises st llm s Hfails)|exact Hraises]).
  clear Hfails.
  assert (exists error,
             s' = add_error (stage_name st) (stage_entered st s) error)
    as [error Hs'].
  { unfold s'.
    destruct st; cbn [stage_run stage_name stage_entered];
      cbn [raises_before_store] in Hraises.
    - destruct Hraises as (topic0 & results0 & e0 & He0).
      unfold ResearchAgent.run. cbv zeta.
      match goal with
      | |- context [ResearchAgent.analyse ?t ?r llm] =>
          destruct (analyse_fails_whatever topic0 results0 t r llm e0 He0)
            as [e He]
      end.
      rewrite He. eexists. reflexivity.
    - destruct Hraises as [e Hdesign].
      unfold CurriculumAgent.run. cbv zeta. rewrite Hdesign.
      eexists. reflexivity.
    - destruct Hraises as [e He].
      unfold ExpertAgent.run. cbv zeta. rewrite He. eexists. reflexivity.
    - destruct Hraises as [e He].
      unfold QualityAgent.run. cbv zeta. rewrite He. eexists. reflexivity. }
  split; [eauto|]. rewrite Hs'.
  split; [destruct st; eexists; reflexivity|].
  split; [destruct st; reflexivity|].
  split; [destruct st; repeat split|].
  split; [destruct st; reflexivity|].
  split; [destruct st; cbn; rewrite length_app; cbn; lia|].
  destruct st; reflexivity.
Qed.

End StageFailureFacts.

Lemma stage_failure_is_recorded_witness :
  Spec.stage_output Spec.Structuring
    (Spec.stage_run Examples.surroundings Spec.Structuring
       (inr Examples.two_phase_doc_without_tasks) (Examples.state_at 1))
  = Spec.stage_output Spec.Structuring (Examples.state_at 1)
  /\ Spec.stage_output Spec.QualityGate
       (Spec.stage_run Examples.surroundings Spec.QualityGate
          (inr Py.JNull) (Examples.state_at 1))
     = Spec.stage_output Spec.QualityGate (Examples.state_at 1)
  /\ Spec.stage_output Spec.QualityGate
       (Spec.stage_run Examples.surroundings Spec.QualityGate
          (inr (Examples.review_doc true Examples.huge_scores))
          (Examples.state_at 1))
     = Spec.stage_output Spec.QualityGate (Examples.state_at 1).
Proof.
  split; [|split].
  - refine (proj1 (proj2 (proj2
              (stage_failure_is_recorded Examples.surroundings
                 Spec.Structuring
                 (inr Examples.two_phase_doc_without_tasks)
                 (Examples.state_at 1) _)))).
    left. right. split; [reflexivity|]. eexists. split; [reflexivity|].
    right. left. reflexivity.
  - refine (proj1 (proj2 (proj2
              (stage_failure_is_recorded Examples.surroundings
                 Spec.QualityGate (inr Py.JNull)
                 (Examples.state_at 1) _)))).
    left. left. exists "approved". split; [left; reflexivity|discriminate].
  - refine (proj1 (proj2 (proj2
              (stage_failure_is_recorded Examples.surroundings
                 Spec.QualityGate
                 (inr (Examples.review_doc true Examples.huge_scores))
                 (Examples.state_at 1) _)))).
    right. eexists. vm_compute. reflexivity.
Defined.

(** C9 as stated fails: a stage whose document lacks a key returns a state
    that differs from the one it received in more than the error list.
    The Quality Gate has appended its start entry to the action log, and
    Structuring has moreover counted the iteration. *)
Lemma stage_failure_touches_log_and_counter :
  State.errors Examples.gated_empty
  = [ "[QualityAgent] Quality review failed: Missing required key in quality review: approved" ]
  /\ State.agent_logs Examples.gated_empty
     <> State.agent_logs (Examples.state_at 1)
  /\ Examples.gated_empty
     <> Examples.with_errors_of Examples.gated_empty (Examples.state_at 1)
  /\ State.errors Examples.structured_empty
     = [ "[CurriculumAgent] Curriculum design failed: Missing required key in curriculum: id" ]
  /\ State.iteration Examples.structured_empty
     = State.iteration (Examples.state_at 1) + 1
  /\ Examples.structured_empty
     <> Examples.with_errors_of Examples.structured_empty
          (Examples.state_at 1).
Proof.
  repeat split; try discriminate.
Qed.

(* ===================================================================== *)
(** * Properties of the orchestrator *)
(* ===================================================================== *)

Section GraphFacts.
Import Py State Tools Graph.

Variable settings : Config.Settings.
Variable slugify : json -> result string.
Variable py_str : json -> string.
Variable w : world.

Abbreviation step := (Graph.step settings slugify py_str w).
Abbreviation exec := (Graph.exec settings slugify py_str w).
Abbreviation reaches := (Graph.reaches settings slugify py_str w).

(** ** What each node does to the iteration counter *)

Lemma research_iteration search llm s :
  iteration (ResearchAgent.run search llm s) = iteration s.
Proof.
  unfold ResearchAgent.run. cbv zeta.
  destruct (ResearchAgent.analyse _ _ _) as [e|response]; [reflexivity|].
  unfold ResearchAgent.report.
  destruct (bind _ _) as [e|[[[? ?] ?] ?]]; reflexivity.
Qed.

Lemma curriculum_iteration search llm s :
  iteration (CurriculumAgent.run slugify py_str search llm s)
  = iteration s + 1.
Proof.
  unfold CurriculumAgent.run. cbv zeta.
  destruct (CurriculumAgent.design _ _ _ _ _) as [e|[response total]];
    [reflexivity|].
  unfold CurriculumAgent.report.
  destruct (bind _ _) as [e|[? ?]]; reflexivity.
Qed.

Lemma expert_iteration llm s :
  iteration (ExpertAgent.run llm s) = iteration s.
Proof.
  unfold ExpertAgent.run. cbv zeta.
  destruct (ExpertAgent.validate llm) as [e|response]; [reflexivity|].
  unfold ExpertAgent.report.
  destruct (bind _ _) as [e|[[[? ?] ?] confidence]]; [reflexivity|].
  destruct (format_2f confidence); reflexivity.
Qed.

Lemma quality_iteration llm s :
  iteration (QualityAgent.run settings llm s) = iteration s.
Proof.
  unfold QualityAgent.run. cbv zeta.
  destruct (QualityAgent.review _ llm) as [e|[response verdict]];
    [reflexivity|].
  unfold QualityAgent.report.
  destruct (bind _ _) as [e|[? score]]; [reflexivity|].
  destruct (format_2f score); [reflexivity|].
  destruct (negb (truthy verdict) && _); reflexivity.
Qed.

Lemma finalize_iteration now s :
  iteration (finalize_node now s) = iteration s.
Proof.
  unfold finalize_node. cbv zeta.
  destruct (truthy _ && truthy _); reflexivity.
Qed.

(** ** The edge out of the quality node *)

Lemma should_continue_cases s :
  (should_continue settings s = "finalize"
   /\ (truthy (approved s) = true
       \/ Config.MAX_ITERATIONS settings <= iteration s))
  \/ (should_continue settings s = "continue"
      /\ truthy (approved s) = false
      /\ iteration s < Config.MAX_ITERATIONS settings).
Proof.
  unfold should_continue.
  destruct (truthy (approved s)); [left; auto|].
  destruct (Config.MAX_ITERATIONS settings <=? iteration s) eqn:Hmax.
  - left. split; [reflexivity|right; lia].
  - right. repeat split. lia.
Qed.

Lemma approved_routes_to_finalize s :
  truthy (approved s) = true ->
  conditional_edge (should_continue settings s) = finalize.
Proof. intros H. unfold should_continue. now rewrite H. Qed.

(** ** Monotonicity *)

Lemma step_iteration c c' :
  step c = Some c' -> iteration (snd c) <= iteration (snd c').
Proof.
  destruct c as [[n k] s]. destruct n; cbn [Graph.step snd]; intros H.
  - inversion H; subst. cbn [snd]. rewrite research_iteration. lia.
  - inversion H; subst. cbn [snd]. rewrite curriculum_iteration. lia.
  - inversion H; subst. cbn [snd]. rewrite expert_iteration. lia.
  - destruct (conditional_edge _); inversion H; subst; cbn [snd];
      rewrite quality_iteration; lia.
  - inversion H; subst. cbn [snd]. rewrite finalize_iteration. lia.
  - discriminate H.
Qed.

Lemma reaches_iteration c c' :
  reaches c c' -> iteration (snd c) <= iteration (snd c').
Proof.
  induction 1 as [c|c c' c'' Hstep _ IH]; [lia|].
  apply step_iteration in Hstep. lia.
Qed.

(** ** Termination *)

Lemma exec_more_fuel fuel : forall c s fuel',
  exec fuel c = Some s -> (fuel <= fuel')%nat -> exec fuel' c = Some s.
Proof.
  induction fuel as [|fuel IH]; intros [[n k] s0] s fuel' Hexec Hle.
  - destruct n; try discriminate Hexec.
    destruct fuel'; exact Hexec.
  - destruct fuel' as [|fuel']; [lia|].
    destruct n; try (cbn [Graph.exec] in *;
      destruct (step _) as [c'|]; [|discriminate Hexec];
      apply (IH c' s fuel' Hexec); lia).
    exact Hexec.
Qed.

(** One pass through Structuring, Technical Review and the Quality Gate
    from a state with [remaining] passes to the ceiling at most: the run
    ends, and the counter ends between one more than it was and the
    ceiling. *)
Lemma loop_terminates remaining : forall k s,
  (Z.to_nat (Config.MAX_ITERATIONS settings - (iteration s + 1))
   <= remaining)%nat ->
  exists s',
    exec (3 * S remaining + 1) (curriculum, k, s) = Some s'
    /\ iteration s + 1 <= iteration s'
    /\ iteration s' <= Z.max (iteration s + 1)
                         (Config.MAX_ITERATIONS settings).
Proof.
  induction remaining as [|remaining IH]; intros k s Hmeasure.
  - set (s1 := CurriculumAgent.run slugify py_str (curriculum_search w k)
                 (curriculum_llm w k s) s).
    set (s2 := ExpertAgent.run (expert_llm w k s1) s1).
    set (s3 := QualityAgent.run settings (quality_llm w k s2) s2).
    assert (iteration s3 = iteration s + 1) as Hiter.
    { unfold s3, s2, s1.
      now rewrite quality_iteration, expert_iteration,
        curriculum_iteration. }
    exists (finalize_node (finalize_now w) s3).
    rewrite finalize_iteration, Hiter. split; [|lia].
    change (3 * 1 + 1)%nat with 4%nat. cbn [Graph.exec Graph.step].
    fold s1. fold s2. fold s3.
    destruct (should_continue_cases s3) as [[-> _]|(_ & _ & Hlt)].
    + reflexivity.
    + lia.
  - set (s1 := CurriculumAgent.run slugify py_str (curriculum_search w k)
                 (curriculum_llm w k s) s).
    set (s2 := ExpertAgent.run (expert_llm w k s1) s1).
    set (s3 := QualityAgent.run settings (quality_llm w k s2) s2).
    assert (iteration s3 = iteration s + 1) as Hiter.
    { unfold s3, s2, s1.
      now rewrite quality_iteration, expert_iteration,
        curriculum_iteration. }
    replace (3 * S (S remaining) + 1)%nat
      with (S (S (S (3 * S remaining + 1)))) by lia.
    cbn [Graph.exec Graph.step]. fold s1. fold s2. fold s3.
    destruct (should_continue_cases s3) as [[-> _]|(-> & _ & Hlt)].
    + exists (finalize_node (finalize_now w) s3).
      rewrite finalize_iteration, Hiter. split; [|lia].
      cbn [conditional_edge String.eqb Ascii.eqb Bool.eqb].
      replace (3 * S remaining + 1)%nat with (S (3 * S remaining)) by lia.
      reflexivity.
    + cbn [conditional_edge String.eqb Ascii.eqb Bool.eqb].
      destruct (IH (S k) s3) as (s' & Hexec & Hlow & Hhigh); [lia|].
      exists s'. split; [exact Hexec|]. lia.
Qed.

(** C3, as amended.  Along every run the iteration counter never
    decreases; when max_iterations is not negative, a run from the initial
    state ends, whatever the outside world answers, with a counter of at
    most max_iterations + 1; and when approved is true after the Quality
    Gate, the edge out of it leads to finalization, never back to
    Structuring. *)
Theorem orchestrator_iteration_bound (now : Z) (topic : string)
    (context : option string) (experience_level : string) :
  0 <= Config.MAX_ITERATIONS settings ->
  (forall c c', reaches c c' -> iteration (snd c) <= iteration (snd c'))
  /\ (exists s',
        (forall fuel,
            (3 * S (Z.to_nat (Config.MAX_ITERATIONS settings)) + 2
             <= fuel)%nat ->
            ainvoke settings slugify py_str w fuel
              (create_initial_state now topic context experience_level)
            = Some s')
        /\ 1 <= iteration s'
        /\ iteration s' <= Config.MAX_ITERATIONS settings + 1)
  /\ (forall k s c',
        step (quality, k, s) = Some c' ->
        truthy (approved (snd c')) = true ->
        fst (fst c') = finalize).
Proof.
  intros Hmax. split; [exact reaches_iteration|]. split.
  - set (s0 := create_initial_state now topic context experience_level).
    set (s1 := ResearchAgent.run (research_search w) (research_llm w s0)
                 s0).
    assert (iteration s1 = 0) as Hzero
      by (unfold s1; now rewrite research_iteration).
    destruct (loop_terminates
                (Z.to_nat (Config.MAX_ITERATIONS settings)) O s1)
      as (s' & Hexec & Hlow & Hhigh); [lia|].
    exists s'. split; [|lia].
    intros fuel Hfuel.
    apply exec_more_fuel
      with (fuel := S (3 * S (Z.to_nat (Config.MAX_ITERATIONS settings))
                      + 1)); [|lia].
    exact Hexec.
  - intros k s [[n' k'] s'] Hstep Happroved. cbn [fst snd] in *.
    cbn [Graph.step] in Hstep.
    set (s3 := QualityAgent.run settings (quality_llm w k s) s) in *.
    destruct (conditional_edge (should_continue settings s3)) eqn:Hedge;
      inversion Hstep; subst; try reflexivity;
      rewrite (approved_routes_to_finalize _ Happroved) in Hedge;
      discriminate Hedge.
Qed.

End GraphFacts.

Lemma orchestrator_iteration_bound_witness :
  exists s',
    Graph.ainvoke Config.default_settings Examples.slug_kept Examples.shown
      Examples.silent_world 11
      (State.create_initial_state 0 "graph traversal" None "intermediate")
    = Some s'
    /\ State.iteration s' <= 3.
Proof.
  destruct (orchestrator_iteration_bound Config.default_settings
              Examples.slug_kept Examples.shown Examples.silent_world
              0 "graph traversal" None "intermediate")
    as (_ & (s' & Hrun & _ & Hbound) & _).
  - cbn. lia.
  - exists s'. split; [apply Hrun; cbn; lia|exact Hbound].
Defined.

(** C3 as stated fails for a negative max_iterations: Structuring counts
    its first pass before the ceiling is looked at, so the run ends with
    the counter at 1, above max_iterations + 1 = 0. *)
Lemma orchestrator_exceeds_negative_ceiling :
  exists s',
    Graph.ainvoke Examples.negative_ceiling Examples.slug_kept
      Examples.shown Examples.silent_world 11
      (State.create_initial_state 0 "graph traversal" None "intermediate")
    = Some s'
    /\ State.iteration s' = 1
    /\ Config.MAX_ITERATIONS Examples.negative_ceiling + 1
       < State.iteration s'.
Proof.
  eexists. split; [vm_compute; reflexivity|].
  split; [reflexivity|]. cbn. lia.
Qed.

(* ===================================================================== *)
(** * Further properties of the generation client *)
(* ===================================================================== *)

Section RetryLoopFacts.
Import Py LLM Spec Traces.

Variable extract_retry_delay : string -> Q.
Variable http : Z -> list message -> http_result.

Lemma attempts_app events events' :
  attempts (events ++ events') = (attempts events + attempts events')%nat.
Proof. unfold attempts. now rewrite List.filter_app, length_app. Qed.

Lemma attempts_backoff max_retries attempt error_str :
  attempts (backoff extract_retry_delay max_retries attempt error_str) = 0%nat.
Proof.
  unfold backoff.
  repeat match goal with
         | |- context [if ?b then _ else _] => destruct b
         end; reflexivity.
Qed.

Lemma attempts_failed messages max_retries attempt error_str events :
  attempts
    (Post messages
       :: backoff extract_retry_delay max_retries attempt error_str ++ events)
  = S (attempts events).
Proof.
  change (attempts (Post messages :: ?l)) with (S (attempts l)).
  now rewrite attempts_app, attempts_backoff.
Qed.

Lemma generate_raises_llm r e : generate r = inl e -> exn_cls e = LLMException.
Proof.
  unfold generate, failed_to_generate, raise.
  destruct r as [?|?|?|?|resp]; try (intros [= <-]; reflexivity).
  destruct (status_code resp =? 429).
  - destruct (body resp); intros [= <-]; reflexivity.
  - destruct (negb (is_success (status_code resp)));
      [intros [= <-]; reflexivity|].
    destruct (body resp) as [?|? [?|content]];
      try (intros [= <-]; reflexivity).
    destruct (py_len content); [intros [= <-]; reflexivity|discriminate].
Qed.

(** The loop returns at the first attempt that succeeds. *)
Lemma retry_loop_first_success messages max_retries reply (k : nat) :
  forall remaining attempt last_error,
    (k < remaining)%nat ->
    (forall j, (j < k)%nat ->
       exists e, generate (http (attempt + Z.of_nat j) messages) = inl e) ->
    generate (http (attempt + Z.of_nat k) messages) = inr reply ->
    let out :=
      retry_loop extract_retry_delay http messages max_retries remaining
        attempt last_error in
    snd out = ret reply
    /\ attempts (fst out) = S k
    /\ last (fst out) = Some (Post messages).
Proof.
  induction k as [|k IH]; intros remaining attempt last_error Hlt Hfail Hok;
    (destruct remaining as [|remaining]; [lia|]); cbn [retry_loop].
  - rewrite Z.add_0_r in Hok. rewrite Hok. cbn. auto.
  - destruct (Hfail 0%nat) as [e He]; [lia|].
    rewrite Z.add_0_r in He. rewrite He.
    destruct (IH remaining (attempt + 1) (Some e)) as (Hres & Hatt & Hlast).
    + lia.
    + intros j Hj. destruct (Hfail (S j)) as [e' He']; [lia|].
      exists e'. rewrite <- He'. do 2 f_equal. lia.
    + rewrite <- Hok. do 2 f_equal. lia.
    + destruct (retry_loop _ _ _ _ _ _ _) as [events r]. cbn [fst snd] in *.
      split; [exact Hres|]. split; [now rewrite attempts_failed, Hatt|].
      destruct events as [|ev events]; [discriminate Hlast|].
      rewrite app_comm_cons, last_app, Hlast. reflexivity.
Qed.

(** X1. The retry wrapper stops at the first attempt that succeeds: when
    the attempts before attempt [k] fail and attempt [k] (below the
    maximum) returns a text, the wrapper returns that text after exactly
    [k + 1] calls, and the last thing it does is that call: no pause
    follows a success. *)
Theorem retry_returns_first_success messages max_retries (k : nat) reply :
  Z.of_nat k < max_retries ->
  (forall j, (j < k)%nat ->
     exists e, generate (http (Z.of_nat j) messages) = inl e) ->
  generate (http (Z.of_nat k) messages) = inr reply ->
  let out := generate_with_retry extract_retry_delay http messages max_retries in
  snd out = ret reply
  /\ attempts (fst out) = S k
  /\ last (fst out) = Some (Post messages).
Proof.
  intros Hk Hfail Hok. unfold generate_with_retry.
  apply retry_loop_first_success; [lia| |exact Hok].
  intros j Hj. exact (Hfail j Hj).
Qed.

(** What the loop has done when it gives up. *)
Lemma retry_loop_exhausted messages max_retries remaining :
  forall attempt last_error,
    let out :=
      retry_loop extract_retry_delay http messages max_retries remaining
        attempt last_error in
    (attempts (fst out) <= remaining)%nat
    /\ forall e, snd out = inl e ->
         attempts (fst out) = remaining
         /\ (forall j, (j < remaining)%nat ->
               exists ej,
                 generate (http (attempt + Z.of_nat j) messages) = inl ej)
         /\ exists final,
              e = Raise LLMException
                    ("Failed after " ++ str_of_int max_retries
                       ++ " attempts: " ++ str_of_last_error final)
              /\ match remaining with
                 | O => final = last_error
                 | S n =>
                     exists e',
                       final = Some e'
                       /\ generate (http (attempt + Z.of_nat n) messages)
                          = inl e'
                 end.
Proof.
  induction remaining as [|remaining IH]; intros attempt last_error;
    cbn [retry_loop].
  - cbn. split; [lia|]. intros e [= <-]. split; [reflexivity|].
    split; [intros j Hj; lia|]. exists last_error. auto.
  - destruct (generate (http attempt messages)) as [e0|reply] eqn:Hgen.
    + specialize (IH (attempt + 1) (Some e0)).
      destruct (retry_loop _ _ _ _ _ _ _) as [events r]. cbn [fst snd] in *.
      destruct IH as [Hle Hex]. rewrite attempts_failed.
      split; [lia|]. intros e He.
      destruct (Hex e He) as (Hatt & Hall & final & -> & Hfinal).
      split; [now rewrite Hatt|]. split.
      * intros [|j] Hj.
        -- exists e0. now rewrite Z.add_0_r.
        -- destruct (Hall j) as [ej Hej]; [lia|]. exists ej.
           rewrite <- Hej. do 2 f_equal. lia.
      * exists final. split; [reflexivity|].
        destruct remaining as [|n].
        -- subst final. exists e0. split; [reflexivity|].
           now rewrite Z.add_0_r.
        -- destruct Hfinal as (e' & -> & He'). exists e'.
           split; [reflexivity|]. rewrite <- He'. do 2 f_equal. lia.
    + cbn. split; [lia|]. intros e He. discriminate He.
Qed.

(** X2. The retry wrapper never makes more calls than [max_retries], and
    it raises only when it has made all of them and every one failed; the
    error it raises is "Failed after N attempts: " followed by the text of
    the error of the last attempt.  With a maximum of zero or less no call
    is made at all and the text reads "None". *)
Theorem retry_gives_up_after_max_retries messages max_retries :
  let out := generate_with_retry extract_retry_delay http messages max_retries in
  (attempts (fst out) <= Z.to_nat max_retries)%nat
  /\ (forall e, snd out = inl e ->
       attempts (fst out) = Z.to_nat max_retries
       /\ (forall j, 0 <= j < max_retries ->
             exists ej, generate (http j messages) = inl ej)
       /\ exists final,
            e = Raise LLMException
                  ("Failed after " ++ str_of_int max_retries
                     ++ " attempts: " ++ str_of_last_error final)
            /\ match final with
               | None => max_retries <= 0
               | Some e' =>
                   0 < max_retries
                   /\ generate (http (max_retries - 1) messages) = inl e'
               end)
  /\ (max_retries <= 0 ->
      out = ([], raise LLMException
                   ("Failed after " ++ str_of_int max_retries
                      ++ " attempts: None"))).
Proof.
  unfold generate_with_retry.
  pose proof (retry_loop_exhausted messages max_retries
                (Z.to_nat max_retries) 0 None) as [Hle Hex].
  split; [exact Hle|]. split.
  2:{ intros Hmax. replace (Z.to_nat max_retries) with O by lia.
      reflexivity. }
  intros e He.
  destruct (Hex e He) as (Hatt & Hall & final & -> & Hfinal).
  split; [exact Hatt|]. split.
  - intros j Hj. destruct (Hall (Z.to_nat j)) as [ej Hej]; [lia|].
    exists ej. rewrite <- Hej. do 2 f_equal. lia.
  - exists final. split; [reflexivity|].
    destruct (Z.to_nat max_retries) as [|n] eqn:Hn.
    + subst final. lia.
    + destruct Hfinal as (e' & -> & He'). split; [lia|].
      rewrite <- He'. do 2 f_equal. lia.
Qed.

Lemma pauses_app events events' :
  pauses (events ++ events') = (pauses events ++ pauses events')%list.
Proof. unfold pauses. apply omap_app. Qed.

Lemma pow2_pos attempt : 0 <= attempt -> 1 <= 2 ^ attempt.
Proof. intros H. pose proof (Z.pow_pos_nonneg 2 attempt). lia. Qed.

(** The pauses of the loop from a non-negative attempt number on. *)
Lemma retry_loop_pauses messages max_retries remaining :
  forall attempt last_error,
    0 <= attempt ->
    Forall
      (fun seconds =>
         (exists j e,
            generate (http j messages) = inl e
            /\ seconds = extract_retry_delay (exn_str e))
         \/ (exists whole : Z, seconds = inject_Z whole /\ 1 <= whole <= 30))
      (pauses
         (fst (retry_loop extract_retry_delay http messages max_retries
                 remaining attempt last_error))).
Proof.
  induction remaining as [|remaining IH]; intros attempt last_error Hpos;
    cbn [retry_loop].
  - constructor.
  - destruct (generate (http attempt messages)) as [e|reply] eqn:Hgen.
    + specialize (IH (attempt + 1) (Some e) ltac:(lia)).
      destruct (retry_loop _ _ _ _ _ _ _) as [events r]. cbn [fst] in *.
      change (pauses (Post messages :: ?l)) with (pauses l).
      rewrite pauses_app. apply Forall_app. split; [|exact IH].
      pose proof (pow2_pos attempt Hpos) as Hpow.
      unfold backoff.
      repeat match goal with
             | |- context [if ?b then _ else _] => destruct b
             end; cbn;
        first [solve [constructor] | (constructor; [|solve [constructor]])].
      * right. eexists. split; [reflexivity|lia].
      * left. exists attempt, e. auto.
      * right. eexists. split; [reflexivity|lia].
    + cbn. constructor.
Qed.

(** X3. Every pause of the retry wrapper is either the delay extracted
    from the error text of a failed attempt (the rate-limit case) or a
    whole number of seconds between 1 and 30 that the wrapper computes
    itself. *)
Theorem retry_pauses_are_bounded messages max_retries :
  Forall
    (fun seconds =>
       (exists j e,
          generate (http j messages) = inl e
          /\ seconds = extract_retry_delay (exn_str e))
       \/ (exists whole : Z, seconds = inject_Z whole /\ 1 <= whole <= 30))
    (pauses
       (fst (generate_with_retry extract_retry_delay http messages
               max_retries))).
Proof. apply retry_loop_pauses. lia. Qed.

Lemma attempt_numbers_S (f : Z -> Q) attempt n :
  map f (map (fun j => attempt + Z.of_nat j) (seq 0 (S n)))
  = f attempt :: map f (map (fun j => attempt + 1 + Z.of_nat j) (seq 0 n)).
Proof.
  cbn [seq map]. rewrite Z.add_0_r. f_equal.
  rewrite <- seq_shift, !map_map. apply map_ext. intros j. f_equal. lia.
Qed.

(** When every remaining attempt fails in the connection class, every
    attempt is followed by its pause. *)
Lemma retry_loop_connection_failures messages max_retries remaining :
  forall attempt last_error,
    (forall j, (j < remaining)%nat ->
       exists e, connection_failed (http (attempt + Z.of_nat j) messages) e) ->
    let out :=
      retry_loop extract_retry_delay http messages max_retries remaining
        attempt last_error in
    attempts (fst out) = remaining
    /\ pauses (fst out)
       = map (fun i => inject_Z (Z.min (2 ^ i) 10))
           (map (fun j => attempt + Z.of_nat j) (seq 0 remaining))
    /\ exists e, snd out = inl e.
Proof.
  induction remaining as [|remaining IH]; intros attempt last_error Hfail.
  - cbn. eauto.
  - destruct (Hfail 0%nat) as [e He]; [lia|]. rewrite Z.add_0_r in He.
    cbv zeta. rewrite (retry_loop_connection_failed _ _ _ _ _ _ _ e He).
    cbv zeta. cbn [fst snd].
    destruct (IH (attempt + 1)
                (Some (Raise LLMException ("CONNECTION_ERROR: " ++ e))))
      as (Hatt & Hpauses & Herr).
    + intros j Hj. destruct (Hfail (S j)) as [e' He']; [lia|]. exists e'.
      replace (attempt + 1 + Z.of_nat j) with (attempt + Z.of_nat (S j))
        by lia. exact He'.
    + cbv zeta in Hatt, Hpauses, Herr.
      split; [|split; [|exact Herr]].
      * change (attempts (Post messages :: Sleep ?d :: ?l))
          with (S (attempts l)). now rewrite Hatt.
      * rewrite attempt_numbers_S.
        change (pauses (Post messages :: Sleep ?d :: ?l))
          with (d :: pauses l). now rewrite Hpauses.
Qed.

(** X4. When every attempt fails in the connection class, whatever the
    maximum, the wrapper makes all its attempts and pauses after every
    one of them, the last included: attempt number [i] is followed by a
    pause of min(2^i, 10) seconds, and the call ends with an error. *)
Theorem retry_connection_failures_pause_after_every_attempt messages
    max_retries :
  (forall j, 0 <= j < max_retries ->
     exists e, connection_failed (http j messages) e) ->
  let out := generate_with_retry extract_retry_delay http messages max_retries in
  attempts (fst out) = Z.to_nat max_retries
  /\ pauses (fst out)
     = map (fun i => inject_Z (Z.min (2 ^ i) 10))
         (attempt_numbers (Z.to_nat max_retries))
  /\ exists e, snd out = inl e.
Proof.
  intros Hfail. unfold generate_with_retry, attempt_numbers.
  destruct (retry_loop_connection_failures messages max_retries
              (Z.to_nat max_retries) 0 None) as (Hatt & Hpauses & Herr).
  - intros j Hj. apply Hfail. lia.
  - cbv zeta in Hatt, Hpauses, Herr. split; [exact Hatt|].
    split; [|exact Herr]. rewrite Hpauses. f_equal.
Qed.

Lemma backoff_plain max_retries attempt error_str :
  plain_error error_str ->
  backoff extract_retry_delay max_retries attempt error_str
  = if attempt <? max_retries - 1 then
      [Sleep (inject_Z (Z.min (2 ^ attempt) 30))]
    else [].
Proof.
  intros (H1 & H2 & H3 & H4). unfold backoff.
  now rewrite H1, H2, H3, H4.
Qed.

(** When every remaining attempt fails with a plain error, the attempts
    are separated by pauses and nothing follows the last one. *)
Lemma retry_loop_plain_failures messages max_retries remaining :
  forall attempt last_error,
    attempt + Z.of_nat remaining = max_retries ->
    (forall j, (j < remaining)%nat ->
       exists e,
         generate (http (attempt + Z.of_nat j) messages) = inl e
         /\ plain_error (exn_str e)) ->
    let out :=
      retry_loop extract_retry_delay http messages max_retries remaining
        attempt last_error in
    attempts (fst out) = remaining
    /\ pauses (fst out)
       = map (fun i => inject_Z (Z.min (2 ^ i) 30))
           (map (fun j => attempt + Z.of_nat j) (seq 0 (remaining - 1)))
    /\ exists e, snd out = inl e.
Proof.
  induction remaining as [|remaining IH]; intros attempt last_error Hmax Hfail.
  - cbn. eauto.
  - destruct (Hfail 0%nat) as (e & He & Hplain); [lia|].
    rewrite Z.add_0_r in He. cbv zeta. cbn [retry_loop]. rewrite He.
    destruct (IH (attempt + 1) (Some e)) as (Hatt & Hpauses & Herr).
    + lia.
    + intros j Hj. destruct (Hfail (S j)) as (e' & He' & Hplain'); [lia|].
      exists e'. split; [|exact Hplain'].
      replace (attempt + 1 + Z.of_nat j) with (attempt + Z.of_nat (S j))
        by lia. exact He'.
    + cbv zeta in Hatt, Hpauses, Herr.
      destruct (retry_loop _ _ _ _ _ _ _) as [events r]. cbn [fst snd] in *.
      split; [now rewrite attempts_failed, Hatt|]. split; [|exact Herr].
      change (pauses (Post messages :: ?l)) with (pauses l).
      rewrite pauses_app, Hpauses, (backoff_plain _ _ _ Hplain).
      destruct remaining as [|remaining].
      * replace (attempt <? max_retries - 1) with false
          by (symmetry; apply Z.ltb_ge; lia). reflexivity.
      * replace (attempt <? max_retries - 1) with true
          by (symmetry; apply Z.ltb_lt; lia).
        replace (S (S remaining) - 1)%nat with (S remaining) by lia.
        replace (S remaining - 1)%nat with remaining by lia.
        rewrite attempt_numbers_S. reflexivity.
Qed.

(** X5. When every attempt fails with an error that names neither a
    connection failure nor a rate limit, the wrapper makes all its
    attempts and pauses only between them: attempt number [i] is followed
    by min(2^i, 30) seconds except the last attempt, after which the
    error is raised at once. *)
Theorem retry_plain_failures_pause_between_attempts messages max_retries :
  (forall j, 0 <= j < max_retries ->
     exists e,
       generate (http j messages) = inl e /\ plain_error (exn_str e)) ->
  let out := generate_with_retry extract_retry_delay http messages max_retries in
  attempts (fst out) = Z.to_nat max_retries
  /\ pauses (fst out)
     = map (fun i => inject_Z (Z.min (2 ^ i) 30))
         (attempt_numbers (Z.to_nat max_retries - 1))
  /\ exists e, snd out = inl e.
Proof.
  intros Hfail. unfold generate_with_retry, attempt_numbers.
  destruct (Z_le_gt_dec max_retries 0) as [Hle|Hgt].
  - replace (Z.to_nat max_retries) with 0%nat by lia. cbn. eauto.
  - destruct (retry_loop_plain_failures messages max_retries
                (Z.to_nat max_retries) 0 None) as (Hatt & Hpauses & Herr).
    + lia.
    + intros j Hj. apply Hfail. lia.
    + cbv zeta in Hatt, Hpauses, Herr. split; [exact Hatt|].
      split; [|exact Herr]. rewrite Hpauses. f_equal.
Qed.

End RetryLoopFacts.

Lemma retry_returns_first_success_witness :
  snd (LLM.generate_with_retry Examples.fixed_delay Inputs.recovering [] 3)
  = Py.ret (Py.JStr "{}")
  /\ Spec.attempts
       (fst (LLM.generate_with_retry Examples.fixed_delay Inputs.recovering
               [] 3)) = 2%nat
  /\ last (fst (LLM.generate_with_retry Examples.fixed_delay
                  Inputs.recovering [] 3)) = Some (LLM.Post []).
Proof.
  apply (retry_returns_first_success Examples.fixed_delay Inputs.recovering
           [] 3 1 (Py.JStr "{}")).
  - lia.
  - intros [|j] Hj; [|lia]. eexists. reflexivity.
  - reflexivity.
Defined.

Lemma retry_connection_failures_pause_after_every_attempt_witness :
  Traces.pauses
    (fst (LLM.generate_with_retry Examples.fixed_delay Examples.refusing
            [] 5))
  = map (fun i => inject_Z (Z.min (2 ^ i) 10)) [0; 1; 2; 3; 4].
Proof.
  apply (retry_connection_failures_pause_after_every_attempt
           Examples.fixed_delay Examples.refusing [] 5).
  intros j Hj. exists "refused". left. reflexivity.
Defined.

Lemma retry_plain_failures_pause_between_attempts_witness :
  Traces.pauses
    (fst (LLM.generate_with_retry Examples.fixed_delay Inputs.failing [] 3))
  = map (fun i => inject_Z (Z.min (2 ^ i) 30)) [0; 1].
Proof.
  apply (retry_plain_failures_pause_between_attempts Examples.fixed_delay
           Inputs.failing [] 3).
  intros j Hj. eexists. split; [reflexivity|].
  repeat split; vm_compute; reflexivity.
Defined.

Section ClientOutcomeFacts.
Import Py LLM Spec Traces.

Variable extract_retry_delay : string -> Q.
Variable json_loads : string -> string + json.
Variable http : Z -> list message -> http_result.

(** X6. A 429 answer whose payload reads as data is reported as "Failed
    to generate response: 429 RATE_LIMITED: ..." (the error raised inside
    the [try] is caught by the last handler and wrapped again), and,
    unless the payload itself names a connection or timeout error, the
    retry loop answers it on every attempt, the last included, with a
    pause of the delay extracted from that text. *)
Theorem rate_limited_answer_pauses_as_extracted resp error_data choice :
  status_code resp = 429 ->
  body resp = Data error_data choice ->
  contains error_data "CONNECTION_ERROR" = false ->
  contains error_data "TIMEOUT_ERROR" = false ->
  let error_str :=
    "Failed to generate response: 429 RATE_LIMITED: " ++ error_data in
  generate (Response resp) = raise LLMException error_str
  /\ forall max_retries attempt,
       backoff extract_retry_delay max_retries attempt error_str
       = [Sleep (extract_retry_delay error_str)].
Proof.
  intros Hstatus Hbody Hconn Htime error_str. split.
  - unfold generate. rewrite Hstatus, Hbody. reflexivity.
  - intros max_retries attempt. unfold backoff, error_str.
    unfold contains in *.
    cbv beta iota fix delta [String.append]. cbn.
    destruct (find_offset error_data "CONNECTION_ERROR");
      [discriminate Hconn|].
    destruct (find_offset error_data "TIMEOUT_ERROR");
      [discriminate Htime|].
    reflexivity.
Qed.

(** What the loop returns is the text of one of its attempts. *)
Lemma retry_loop_returns messages max_retries remaining :
  forall attempt last_error reply,
    snd (retry_loop extract_retry_delay http messages max_retries remaining
           attempt last_error) = inr reply ->
    exists j,
      (j < remaining)%nat
      /\ generate (http (attempt + Z.of_nat j) messages) = inr reply.
Proof.
  induction remaining as [|remaining IH]; intros attempt last_error reply;
    cbn [retry_loop].
  - intros H; discriminate H.
  - destruct (generate (http attempt messages)) as [e|text] eqn:Hgen.
    + specialize (IH (attempt + 1) (Some e) reply).
      destruct (retry_loop _ _ _ _ _ _ _) as [events r]. cbn [snd] in *.
      intros Hr. destruct (IH Hr) as (j & Hj & Hok). exists (S j).
      split; [lia|]. rewrite <- Hok. do 2 f_equal. lia.
    + cbn. intros [= <-]. exists 0%nat. split; [lia|].
      now rewrite Z.add_0_r.
Qed.

Lemma retry_loop_raises_llm messages max_retries remaining :
  forall attempt last_error e,
    snd (retry_loop extract_retry_delay http messages max_retries remaining
           attempt last_error) = inl e ->
    exn_cls e = LLMException.
Proof.
  intros attempt last_error e He.
  destruct (retry_loop_exhausted extract_retry_delay http messages
              max_retries remaining attempt last_error) as [_ Hex].
  destruct (Hex e He) as (_ & _ & final & -> & _). reflexivity.
Qed.

(** [generate] returns nothing but a text, a list or a dict. *)
Lemma generate_returns_sized r reply :
  generate r = inr reply ->
  match reply with
  | JStr _ | JList _ | JObj _ => True
  | _ => False
  end.
Proof.
  unfold generate, failed_to_generate, raise.
  destruct r as [?|?|?|?|resp]; try discriminate.
  destruct (status_code resp =? 429).
  - destruct (body resp); discriminate.
  - destruct (negb (is_success (status_code resp))); [discriminate|].
    destruct (body resp) as [?|? [?|content]]; try discriminate.
    destruct content; cbn; intros [= <-]; exact I.
Qed.

(** X7. With [json.loads] either returning a document or raising
    [JSONDecodeError], what [generate_json] raises is an [LLMException]
    whatever goes wrong (no answer, an empty text after cleaning, a text
    that is not JSON), except when the content of the answer is not a
    text: [generate] returns a list or a dict as it is, and the
    AttributeError of [strip] on the list, or the TypeError of the slice
    of the dict, is raised again unchanged.  A document the call returns
    is what [json.loads] made of the cleaned, non-empty text of one of the
    at most three attempts, sent with the turns as they are after the
    instruction was appended. *)
Theorem generate_json_outcomes h messages :
  let out := generate_json extract_retry_delay json_loads http h messages in
  let sent := deref (fst (fst out)) messages in
  (forall e,
      snd out = inl e ->
      exn_cls e = LLMException
      \/ exists attempt reply,
           0 <= attempt < 3
           /\ generate (http attempt sent) = inr reply
           /\ match reply with
              | JList _ => exn_cls e = AttributeError
              | JObj _ => exn_cls e = TypeError
              | _ => False
              end)
  /\ (forall document,
        snd out = inr document ->
        exists attempt reply,
          0 <= attempt < 3
          /\ generate (http attempt sent) = inr (JStr reply)
          /\ clean_response reply <> EmptyString
          /\ json_loads (clean_response reply) = inr document)
  /\ (forall reply,
        generate (http 0 sent) = inr reply ->
        match reply with
        | JList _ => exists e, snd out = inl e /\ exn_cls e = AttributeError
        | JObj _ => exists e, snd out = inl e /\ exn_cls e = TypeError
        | _ => True
        end).
Proof.
  intros out sent.
  assert (sent = deref (add_json_instruction h messages) messages) as Hsent.
  { unfold sent, out. now rewrite generate_json_store. }
  assert (snd out
          = (response <-
               snd (generate_with_retry extract_retry_delay http sent 3) ;;
             parse_reply json_loads response)) as Hout.
  { unfold out, generate_json. rewrite Hsent.
    destruct (generate_with_retry _ _ _ _) as [events r]. reflexivity. }
  rewrite Hout. split; [|split].
  - unfold generate_with_retry.
    destruct (snd (retry_loop _ _ _ _ _ _ _)) as [e0|reply] eqn:Hloop;
      cbn [bind].
    { intros e [= <-]. left.
      exact (retry_loop_raises_llm _ _ _ _ _ _ Hloop). }
    destruct (retry_loop_returns _ _ _ _ _ _ Hloop) as (j & Hj & Hok).
    change (Z.to_nat 3) with 3%nat in Hj.
    pose proof (generate_returns_sized _ _ Hok) as Hsized.
    destruct reply as [| | |text|l|d]; try contradiction; cbn [parse_reply].
    + unfold parse_response.
      destruct (String.eqb (clean_response text) EmptyString);
        [intros e [= <-]; left; reflexivity|].
      destruct (json_loads (clean_response text));
        [intros e [= <-]; left; reflexivity|intros e H; discriminate H].
    + intros e [= <-]. right. exists (0 + Z.of_nat j), (JList l).
      split; [lia|]. split; [exact Hok|reflexivity].
    + intros e [= <-]. right. exists (0 + Z.of_nat j), (JObj d).
      split; [lia|]. split; [exact Hok|reflexivity].
  - unfold generate_with_retry.
    destruct (snd (retry_loop _ _ _ _ _ _ _)) as [e0|reply] eqn:Hloop;
      cbn [bind]; [intros document H; discriminate H|].
    destruct (retry_loop_returns _ _ _ _ _ _ Hloop) as (j & Hj & Hok).
    change (Z.to_nat 3) with 3%nat in Hj.
    destruct reply as [| | |text|l|d]; cbn [parse_reply];
      try (intros document H; discriminate H).
    unfold parse_response.
    destruct (String.eqb (clean_response text) EmptyString) eqn:Hempty;
      [intros document H; discriminate H|].
    destruct (json_loads (clean_response text)) as [err|doc] eqn:Hparse;
      [intros document H; discriminate H|].
    intros document [= <-]. exists (0 + Z.of_nat j), text.
    split; [lia|]. split; [exact Hok|]. split; [|exact Hparse].
    now apply String.eqb_neq.
  - intros reply Hfirst. unfold generate_with_retry.
    change (Z.to_nat 3) with 3%nat. cbn [retry_loop]. rewrite Hfirst.
    cbn [snd ret bind].
    destruct reply; try exact I; cbn [parse_reply];
      eexists; split; reflexivity.
Qed.

End ClientOutcomeFacts.

Lemma rate_limited_answer_pauses_as_extracted_witness :
  LLM.backoff Examples.fixed_delay 3 2
    "Failed to generate response: 429 RATE_LIMITED: {'error': 'retry in 7s'}"
  = [LLM.Sleep 15].
Proof.
  apply (rate_limited_answer_pauses_as_extracted Examples.fixed_delay
           Inputs.rate_limited "{'error': 'retry in 7s'}" (inl "'choices'"));
    reflexivity.
Defined.

(* ===================================================================== *)
(** * Further properties of the resource validator *)
(* ===================================================================== *)

Section ProbeFacts.
Import Py Validation Spec.

(** X8. What [validate_url] reports.  The result always has the same
    five keys and carries the URL it was given.  The resource is reported
    accessible exactly when the request that decides (the HEAD request,
    or the GET request when HEAD answers with a status from 400 on)
    answers with a status below 400; an error text is reported exactly
    when that request raises, and then the resource is inaccessible.
    The GET request is of no consequence when HEAD answers below 400 or
    raises. *)
Theorem validate_url_report (p : probe) (url : json) :
  let report := validate_url p url in
  map fst report = ["url"; "accessible"; "status_code"; "content_type"; "error"]
  /\ dict_get report "url" = Some url
  /\ (dict_get report "accessible" = Some (JBool true)
      <-> exists status_code content_type,
            status_code < 400
            /\ (head p = ProbeResponse status_code content_type
                \/ (exists s c, head p = ProbeResponse s c /\ 400 <= s)
                   /\ get_ p = ProbeResponse status_code content_type))
  /\ (forall e, probe_raises p = Some e ->
        dict_get report "error" = Some (JStr e)
        /\ dict_get report "accessible" = Some (JBool false))
  /\ (probe_raises p = None -> dict_get report "error" = Some JNull)
  /\ ((forall s c, head p = ProbeResponse s c -> s < 400) ->
      forall other, validate_url (Probe (head p) other) url = report).
Proof.
  destruct p as [h g]. unfold validate_url, probe_raises. cbn [head get_].
  destruct h as [s c| |e];
    [destruct (400 <=? s) eqn:Hs; [destruct g as [s' c'| |e]|]| |];
    cbn - [Z.ltb Z.leb];
    (split; [reflexivity|]); (split; [reflexivity|]);
    (split; [|split; [|split]]).
  - apply Z.leb_le in Hs. split.
    + intros [= Hlt]. apply Z.ltb_lt in Hlt. exists s', c'.
      split; [exact Hlt|]. right. split; [|reflexivity]. eauto.
    + intros (s0 & c0 & Hlt & [Hh|[_ Hg]]).
      * injection Hh as -> ->. lia.
      * injection Hg as -> ->. apply Z.ltb_lt in Hlt. now rewrite Hlt.
  - intros e0 H. discriminate H.
  - reflexivity.
  - apply Z.leb_le in Hs. intros H. specialize (H s c eq_refl). lia.
  - apply Z.leb_le in Hs. split; [intros H; discriminate H|].
    intros (s0 & c0 & Hlt & [Hh|[_ Hg]]); [|discriminate Hg].
    injection Hh as -> ->. lia.
  - intros e0 [= <-]. split; reflexivity.
  - intros H. discriminate H.
  - apply Z.leb_le in Hs. intros H. specialize (H s c eq_refl). lia.
  - apply Z.leb_le in Hs. split; [intros H; discriminate H|].
    intros (s0 & c0 & Hlt & [Hh|[_ Hg]]); [|discriminate Hg].
    injection Hh as -> ->. lia.
  - intros e0 [= <-]. split; reflexivity.
  - intros H. discriminate H.
  - apply Z.leb_le in Hs. intros H. specialize (H s c eq_refl). lia.
  - pose proof (proj1 (Z.leb_gt _ _) Hs) as Hlt. split.
    + intros _. exists s, c. split; [exact Hlt|]. now left.
    + intros _. apply Z.ltb_lt in Hlt. now rewrite Hlt.
  - intros e0 H. discriminate H.
  - reflexivity.
  - intros _ other. reflexivity.
  - split; [intros H; discriminate H|].
    intros (s0 & c0 & Hlt & [Hh|[(s & c & Hh & _) _]]); discriminate Hh.
  - intros e0 [= <-]. split; reflexivity.
  - intros H. discriminate H.
  - intros _ other. reflexivity.
  - split; [intros H; discriminate H|].
    intros (s0 & c0 & Hlt & [Hh|[(s & c & Hh & _) _]]); discriminate Hh.
  - intros e0 [= <-]. split; reflexivity.
  - intros H. discriminate H.
  - intros _ other. reflexivity.
Qed.

End ProbeFacts.

(* ===================================================================== *)
(** * Further properties of the Discovery stage *)
(* ===================================================================== *)

Section DiscoveryFacts.
Import Py State Tools Spec.

(** What the removal of duplicates by URL keeps. *)
Lemma unique_by_url_spec results :
  forall seen_urls : gset string,
    let kept := ResearchAgent.unique_by_url results seen_urls in
    NoDup (map sr_url kept)
    /\ (forall r, r ∈ kept ->
          r ∈ results /\ sr_url r <> EmptyString /\ sr_url r ∉ seen_urls)
    /\ (forall r, r ∈ results -> sr_url r <> EmptyString ->
          sr_url r ∉ seen_urls -> sr_url r ∈ map sr_url kept)
    /\ kept `sublist_of` results.
Proof.
  induction results as [|r rest IH]; intros seen_urls;
    cbn [ResearchAgent.unique_by_url]; cbv zeta.
  - split; [constructor|]. split; [intros r Hr; inversion Hr|].
    split; [intros r Hr; inversion Hr|constructor].
  - destruct (negb (String.eqb (sr_url r) EmptyString)
              && bool_decide (sr_url r ∉ seen_urls)) eqn:Hc.
    + apply andb_true_iff in Hc as [Hne Hnot].
      apply negb_true_iff, String.eqb_neq in Hne.
      apply bool_decide_eq_true in Hnot.
      destruct (IH ({[ sr_url r ]} ∪ seen_urls))
        as (Hnd & Hin & Hcomplete & Hsub).
      cbn [map]. split; [|split; [|split]].
      * apply NoDup_cons. split; [|exact Hnd].
        intros Hmem. apply list_elem_of_fmap in Hmem as (r' & Heq & Hr').
        destruct (Hin r' Hr') as (_ & _ & Hns). apply Hns.
        apply elem_of_union. left. now apply elem_of_singleton.
      * intros r0 Hr0. apply elem_of_cons in Hr0 as [->|Hr0].
        -- split; [left|auto].
        -- destruct (Hin r0 Hr0) as (H1 & H2 & H3).
           split; [now right|]. split; [exact H2|].
           intros Hseen. apply H3. apply elem_of_union. now right.
      * intros r0 Hr0 Hne0 Hns0.
        destruct (decide (sr_url r0 = sr_url r)) as [->|Hd]; [left|].
        right. apply Hcomplete; [|exact Hne0|].
        -- apply elem_of_cons in Hr0 as [->|Hr0]; [contradiction|exact Hr0].
        -- intros Hseen. apply elem_of_union in Hseen as [Hseen|Hseen];
             [|contradiction].
           apply elem_of_singleton in Hseen. contradiction.
      * now constructor.
    + destruct (IH seen_urls) as (Hnd & Hin & Hcomplete & Hsub).
      split; [exact Hnd|]. split; [|split].
      * intros r0 Hr0. destruct (Hin r0 Hr0) as (H1 & H2 & H3).
        split; [now right|auto].
      * intros r0 Hr0 Hne0 Hns0.
        apply elem_of_cons in Hr0 as [->|Hr0]; [|now apply Hcomplete].
        exfalso. apply andb_false_iff in Hc as [Hc|Hc].
        -- apply negb_false_iff, String.eqb_eq in Hc. contradiction.
        -- apply bool_decide_eq_false in Hc. contradiction.
      * now constructor.
Qed.

(** X9. Removal of duplicates by URL, as Discovery performs it.  The
    results kept have pairwise distinct URLs, none of them empty; they
    are results of the input, in the order of the input; and every
    non-empty URL of the input is the URL of a result kept. *)
Theorem unique_by_url_keeps_one_result_per_url results :
  let kept := ResearchAgent.unique_by_url results ∅ in
  NoDup (map sr_url kept)
  /\ (forall r, r ∈ kept -> r ∈ results /\ sr_url r <> EmptyString)
  /\ (forall r, r ∈ results -> sr_url r <> EmptyString ->
        sr_url r ∈ map sr_url kept)
  /\ kept `sublist_of` results.
Proof.
  destruct (unique_by_url_spec results ∅) as (Hnd & Hin & Hcomplete & Hsub).
  split; [exact Hnd|]. split; [|split; [|exact Hsub]].
  - intros r Hr. destruct (Hin r Hr) as (H1 & H2 & _). auto.
  - intros r Hr Hne. apply Hcomplete; auto. apply not_elem_of_empty.
Qed.

Lemma required_keys_present d key v key' :
  key' ∈ ResearchAgent.required_keys ->
  key ∉ ResearchAgent.required_keys ->
  dict_has (dict_set d key v) key' = dict_has d key'.
Proof.
  intros Hin Hnot. apply dict_has_set_ne. intros ->. contradiction.
Qed.

Lemma missing_keys_none d :
  (forall key, key ∈ ResearchAgent.required_keys -> dict_has d key = true) ->
  ResearchAgent.missing_keys d = [].
Proof.
  intros Hall. unfold ResearchAgent.missing_keys.
  induction ResearchAgent.required_keys as [|key keys IH]; [reflexivity|].
  cbn [List.filter]. rewrite (Hall key) by left. cbn [negb].
  apply IH. intros key' Hin. apply Hall. now right.
Qed.

(** X10. What Discovery stores.  When the generated document is a dict
    with the five required keys, the stage stores it with two entries of
    its own: 'search_metadata', computed from the search results it kept
    (their number, the confidence that goes with that number, the three
    queries) and replacing whatever the generator declared under that
    key, and '_raw_search_results', those results.  At most ten results
    are kept and their URLs are pairwise distinct.  Every other key is
    stored as generated. *)
Theorem discovery_stores_computed_metadata search d s :
  (forall key, key ∈ ResearchAgent.required_keys -> dict_has d key = true) ->
  let s' := ResearchAgent.run search (inr (JObj d)) s in
  exists kept,
    getitem (research_findings s') "_raw_search_results"
    = ret (JList (map json_of_result kept))
    /\ getitem (research_findings s') "search_metadata"
       = ret (JObj
                [ ("sources_found",
                    JNum (Int (Z.of_nat (List.length kept))));
                  ("confidence",
                    JStr (ResearchAgent.confidence
                            (Z.of_nat (List.length kept))));
                  ("search_queries",
                    JList (map JStr
                             (ResearchAgent.search_queries (topic s)))) ])
    /\ (List.length kept <= 10)%nat
    /\ NoDup (map sr_url kept)
    /\ (forall key, key <> "search_metadata" ->
          key <> "_raw_search_results" ->
          getitem (research_findings s') key = getitem (JObj d) key).
Proof.
  intros Hkeys s'.
  set (kept :=
         firstn 10
           (ResearchAgent.unique_by_url
              (ResearchAgent.run_searches search 0
                 (ResearchAgent.search_queries (topic s))) ∅)).
  set (findings :=
         JObj (dict_set
                 (dict_set d "search_metadata"
                    (ResearchAgent.search_metadata (topic s) kept))
                 "_raw_search_results" (JList (map json_of_result kept)))).
  assert (research_findings s' = findings) as Hstored.
  { unfold s', ResearchAgent.run. cbv zeta.
    change (topic (log_action _ s _ _)) with (topic s). fold kept.
    unfold ResearchAgent.analyse. cbn [bind setitem ret].
    rewrite missing_keys_none.
    - fold findings. unfold ret. cbv beta iota.
      unfold ResearchAgent.report.
      destruct (bind _ _) as [e|[[[? ?] ?] ?]]; reflexivity.
    - intros key Hin.
      rewrite !required_keys_present; auto; unfold ResearchAgent.required_keys;
        intros Hmem; repeat (apply elem_of_cons in Hmem as [Hmem|Hmem];
                             [discriminate Hmem|]); inversion Hmem. }
  exists kept. rewrite Hstored. unfold findings. cbn [getitem].
  split; [now rewrite dict_get_set_eq|].
  split; [rewrite dict_get_set_ne by discriminate;
          now rewrite dict_get_set_eq|].
  split; [unfold kept; rewrite length_firstn; lia|].
  split.
  - unfold kept.
    destruct (unique_by_url_spec
                (ResearchAgent.run_searches search 0
                   (ResearchAgent.search_queries (topic s))) ∅)
      as (Hnd & _).
    eapply sublist_NoDup; [exact Hnd|].
    apply (fmap_sublist sr_url), sublist_take.
  - intros key H1 H2. rewrite !dict_get_set_ne by congruence. reflexivity.
Qed.

End DiscoveryFacts.

(* ===================================================================== *)
(** * Further properties of the Structuring stage *)
(* ===================================================================== *)

Section ResourceFacts.
Import Py State Tools Spec Documents.

Lemma urls_app l l' : urls (l ++ l') = (urls l ++ urls l')%list.
Proof. unfold urls. apply omap_app. Qed.

Lemma urls_firstn n : forall l, urls (firstn n l) `sublist_of` urls l.
Proof.
  induction n as [|n IH]; intros [|r l]; cbn [firstn];
    try apply sublist_nil_l.
  unfold urls. cbn [omap list_omap]. destruct (url_text r).
  - constructor. apply IH.
  - apply IH.
Qed.

(** No resource of the list has the URL when the membership test says
    so. *)
Lemma any_url_false current_resources url :
  CurriculumAgent.any_url current_resources url = inr false ->
  url ∉ urls current_resources.
Proof.
  induction current_resources as [|r rest IH];
    cbn [CurriculumAgent.any_url]; intros H.
  - intros Hin. inversion Hin.
  - bind_inv H. rename x into u.
    destruct (is_str u url) eqn:Hu; [discriminate H|].
    specialize (IH H). unfold urls. cbn [omap list_omap].
    destruct r as [| | | | |d]; try discriminate Hx.
    unfold get, get_default in Hx. unfold url_text.
    destruct (dict_get d "url") as [v|]; [|exact IH].
    injection Hx as <-.
    destruct v as [| | |t| |]; try exact IH.
    intros Hin. apply elem_of_cons in Hin as [->|Hin]; [|now apply IH].
    cbn [is_str] in Hu. now rewrite String.eqb_refl in Hu.
Qed.

(** What the loop over the results adds to the resources. *)
Lemma add_results_spec results : forall current_resources extended,
  CurriculumAgent.add_results results current_resources = inr extended ->
  exists added,
    extended = (current_resources ++ added)%list
    /\ added `sublist_of` map CurriculumAgent.resource_of_result results
    /\ (NoDup (urls current_resources) -> NoDup (urls extended)).
Proof.
  induction results as [|r rest IH]; intros current extended;
    cbn [CurriculumAgent.add_results].
  - intros [= <-]. exists []. rewrite app_nil_r.
    repeat split; auto; constructor.
  - intros H. bind_inv H. destruct x.
    + destruct (IH _ _ H) as (added & -> & Hsub & Hnd).
      exists added. repeat split; auto. cbn [map]. now constructor.
    + apply any_url_false in Hx.
      destruct (IH _ _ H) as (added & -> & Hsub & Hnd).
      exists (CurriculumAgent.resource_of_result r :: added).
      split; [now rewrite <- app_assoc|]. split; [cbn [map]; now constructor|].
      intros Hcur. apply Hnd. rewrite urls_app. cbn.
      apply NoDup_app. split; [exact Hcur|]. split; [|repeat constructor].
      * intros u Hu Hin. apply list_elem_of_singleton in Hin. now subst u.
      * intros Hin. inversion Hin.
Qed.

(** X11. Enrichment of one task.  When it goes through, the task's
    'resources' entry becomes the first five of: the resources the task
    had, in their order, followed by resources made from (some of) the
    first two search results, in their order.  So a task never ends with
    more than five resources, resources it had come before those that
    are added, and URLs that were pairwise distinct stay so.  No other
    entry of the task changes. *)
Theorem enriched_task_resources results task task' :
  CurriculumAgent.enrich_task results task = inr task' ->
  exists current added,
    get_default task "resources" (JList []) = ret (JList current)
    /\ added `sublist_of`
         map CurriculumAgent.resource_of_result (firstn 2 results)
    /\ getitem task' "resources"
       = ret (JList (firstn 5 (current ++ added)))
    /\ (List.length (firstn 5 (current ++ added)) <= 5)%nat
    /\ (NoDup (urls current) -> NoDup (urls (firstn 5 (current ++ added))))
    /\ (forall key, key <> "resources" ->
          getitem task' key = getitem task key).
Proof.
  unfold CurriculumAgent.enrich_task. intros H. bind_inv H.
  destruct x as [| | | |current|]; try discriminate H.
  bind_inv H. rename x into extended.
  destruct (add_results_spec _ _ _ Hx0) as (added & -> & Hsub & Hnd).
  exists current, added. split; [reflexivity|]. split; [exact Hsub|].
  destruct task as [| | | | |d]; try discriminate H.
  cbn [setitem ret] in H. injection H as <-. cbn [getitem].
  split; [now rewrite dict_get_set_eq|].
  split; [rewrite length_firstn; lia|]. split.
  - intros Hcur. eapply sublist_NoDup; [exact (Hnd Hcur)|apply urls_firstn].
  - intros key Hkey. rewrite dict_get_set_ne by congruence. reflexivity.
Qed.

Variable search : nat -> result (list search_result).

Lemma dict_set_same d key v :
  dict_get d key = Some v -> dict_set d key v = d.
Proof.
  induction d as [|[k w] d IH]; cbn [dict_get dict_set]; [discriminate|].
  destruct (String.eqb k key) eqn:Hk.
  - now intros [= ->].
  - intros H. now rewrite IH.
Qed.

Hypothesis nothing_found :
  forall n, search n = inr [] \/ exists e, search n = inl e.

Lemma enrich_tasks_nothing tasks : forall n searched_concepts,
  exists n',
    CurriculumAgent.enrich_tasks search tasks n searched_concepts
    = (tasks, n', searched_concepts).
Proof.
  induction tasks as [|task tasks IH]; intros n searched_concepts;
    cbn [CurriculumAgent.enrich_tasks]; [eauto|].
  destruct (5 <=? searched_concepts); [eauto|].
  destruct (nothing_found n) as [->|[e ->]];
    destruct (IH (S n) searched_concepts) as [n' ->]; eauto.
Qed.

Lemma enrich_phases_nothing phases : forall n searched_concepts,
  CurriculumAgent.enrich_phases search phases n searched_concepts = phases.
Proof.
  induction phases as [|phase phases IH]; intros n searched_concepts;
    cbn [CurriculumAgent.enrich_phases]; [reflexivity|].
  destruct phase as [| | | | |d]; try (now rewrite IH).
  destruct (dict_get d "tasks") as [[| | | |tasks|]|] eqn:Htasks;
    try (now rewrite IH).
  destruct (enrich_tasks_nothing tasks n searched_concepts) as [n' ->].
  now rewrite IH, (dict_set_same _ _ _ Htasks).
Qed.

(** X12. When every documentation search of a stage run fails or comes
    back empty, enrichment returns the curriculum exactly as it was
    given, whatever its shape. *)
Theorem enrichment_without_results_changes_nothing curriculum :
  CurriculumAgent.enrich_resources_with_search search curriculum
  = curriculum.
Proof.
  unfold CurriculumAgent.enrich_resources_with_search.
  destruct (CurriculumAgent.first_pass curriculum); [reflexivity|].
  unfold CurriculumAgent.second_pass.
  destruct curriculum as [| | | | |d]; try reflexivity.
  destruct (dict_get d "phases") as [[| | | |phases|]|] eqn:Hphases;
    try reflexivity.
  now rewrite enrich_phases_nothing, (dict_set_same _ _ _ Hphases).
Qed.

End ResourceFacts.

Section DraftFacts.
Import Py State Tools Spec.

Variable slugify : json -> result string.
Variable py_str : json -> string.
Variable search : nat -> result (list search_result).

(** The validated document differs from the generated one in 'id' and
    'total_tasks' only. *)
Lemma validate_frame response validated total_tasks :
  CurriculumAgent.validate slugify py_str response
  = inr (validated, total_tasks) ->
  (exists id slug,
      getitem response "id" = inr id
      /\ slugify id = inr slug
      /\ getitem validated "id" = inr (JStr slug))
  /\ forall key, key <> "id" -> key <> "total_tasks" ->
       getitem validated key = getitem response key.
Proof.
  unfold CurriculumAgent.validate. intros H.
  bind_inv H. bind_inv H. rename x0 into id.
  bind_inv H. rename x0 into slug.
  destruct response as [| | | | |d]; try discriminate Hx0.
  cbn [setitem bind ret] in H.
  bind_inv H. bind_inv H. bind_inv H.
  cbn [setitem bind ret] in H. injection H as <- <-.
  split.
  - exists id, slug. split; [reflexivity|]. split; [exact Hx1|].
    cbn [getitem]. rewrite dict_get_set_ne by discriminate.
    now rewrite dict_get_set_eq.
  - intros key H1 H2. cbn [getitem].
    rewrite !dict_get_set_ne by congruence. reflexivity.
Qed.

(** X13. The draft Structuring stores when it accepts a generated
    document: its 'id' is the slug of the generated identifier, and every
    entry other than 'id', 'total_tasks' and 'phases' (title, description,
    estimated_hours, ...) is stored as generated. *)
Theorem accepted_draft_keeps_generated_entries response s draft total_tasks :
  CurriculumAgent.design slugify py_str search (inr response)
    (CurriculumAgent.enter s)
  = inr (draft, total_tasks) ->
  draft_curriculum (CurriculumAgent.run slugify py_str search (inr response) s)
  = draft
  /\ (exists id slug,
        getitem response "id" = inr id
        /\ slugify id = inr slug
        /\ getitem draft "id" = inr (JStr slug))
  /\ forall key,
       key <> "id" -> key <> "total_tasks" -> key <> "phases" ->
       getitem draft key = getitem response key.
Proof.
  intros Hdesign. split; [now apply run_accepts with (1 := Hdesign)|].
  apply design_inv in Hdesign. destruct Hdesign as (validated & Hval & ->).
  apply validate_frame in Hval. destruct Hval as [(id & slug & H1 & H2 & H3) Hframe].
  split.
  - exists id, slug. split; [exact H1|]. split; [exact H2|].
    rewrite enrich_other_keys by discriminate. exact H3.
  - intros key Hid Htotal Hphases. rewrite enrich_other_keys by exact Hphases.
    now apply Hframe.
Qed.

(** An issue that cannot be rendered stops the rendering of the
    feedback. *)
Lemma feedback_issues_fail issues :
  Exists (fun issue => exists e, CurriculumAgent.feedback_issue issue = inl e)
    issues ->
  exists e, CurriculumAgent.feedback_issues issues = inl e.
Proof.
  induction 1 as [issue rest [e He]|issue rest _ [e IH]];
    cbn [CurriculumAgent.feedback_issues].
  - rewrite He. cbn [bind]. eauto.
  - destruct (CurriculumAgent.feedback_issue issue); cbn [bind]; eauto.
Qed.

(** X14. From the second pass on, Structuring renders the stored
    technical review into its prompt before it consults the generator,
    and a review it cannot render makes the pass fail whatever the
    generator would answer: the draft stays as it was and one error is
    recorded.  This is so when the stored review is not a dict (and not
    empty), and when one of its issues has no 'severity' text. *)
Theorem structuring_fails_on_unreadable_review llm s :
  1 <= iteration s ->
  truthy (expert_feedback s) = true ->
  ((forall d, expert_feedback s <> JObj d)
   \/ exists issues,
        getitem (expert_feedback s) "issues" = inr (JList issues)
        /\ Exists (fun issue =>
                     forall severity,
                       getitem issue "severity" <> inr (JStr severity))
             issues) ->
  rejected s (CurriculumAgent.run slugify py_str search llm s).
Proof.
  intros Hiter Htruthy Hbad.
  assert (exists e,
             CurriculumAgent.build_feedback (iteration s + 1)
               (expert_feedback s) = inl e) as [e He].
  { unfold CurriculumAgent.build_feedback.
    replace (1 <? iteration s + 1) with true by (symmetry; apply Z.ltb_lt; lia).
    rewrite Htruthy. cbn [andb].
    destruct Hbad as [Hshape|(issues & Hissues & Hex)].
    - destruct (expert_feedback s) as [| | | | |d]; cbn; eauto.
      now destruct (Hshape d).
    - destruct (expert_feedback s) as [| | | | |d]; try discriminate Hissues.
      unfold get, get_default. cbn [getitem] in *.
      destruct (dict_get d "issues") as [v|]; [|discriminate Hissues].
      injection Hissues as ->. cbn [bind ret].
      destruct issues as [|issue issues]; [inversion Hex|].
      cbn [truthy iter bind ret].
      apply feedback_issues_fail.
      eapply Exists_impl; [exact Hex|]. cbv beta. intros i Hi.
      unfold CurriculumAgent.feedback_issue.
      destruct (getitem i "severity") as [e|[| | |t| |]] eqn:Hsev;
        cbn [bind]; eauto.
      now destruct (Hi t). }
  apply run_rejects with (e := e).
  unfold CurriculumAgent.design.
  change (iteration (CurriculumAgent.enter s)) with (iteration s + 1).
  change (expert_feedback (CurriculumAgent.enter s)) with (expert_feedback s).
  now rewrite He.
Qed.

End DraftFacts.

(* ===================================================================== *)
(** * Further properties of the stages and of the orchestrator *)
(* ===================================================================== *)

Section FrameFacts.
Import Py State Tools Spec Runs.

Variable env : surroundings.

Lemma continues_refl s : continues s s.
Proof. repeat split; reflexivity. Qed.

Lemma continues_trans s s' s'' :
  continues s s' -> continues s' s'' -> continues s s''.
Proof.
  intros (H1 & H2 & H3 & H4 & H5 & H6) (G1 & G2 & G3 & G4 & G5 & G6).
  repeat split; try congruence; etransitivity; eassumption.
Qed.

(** What a stage leaves as it was, and what it may write. *)
Lemma stage_frame (st : stage) (llm : result json)
    (s : WorkflowState) :
  let s' := stage_run env st llm s in
  continues s s'
  /\ final_output s' = final_output s
  /\ completed_at s' = completed_at s
  /\ (forall st', st' <> st -> stage_output st' s' = stage_output st' s)
  /\ (st <> QualityGate -> approved s' = approved s)
  /\ iteration s'
     = match st with
       | Structuring => iteration s + 1
       | _ => iteration s
       end.
Proof.
  destruct st; cbn [stage_run]; cbv zeta.
  - unfold ResearchAgent.run. cbv zeta.
    destruct (ResearchAgent.analyse _ _ _) as [e|response];
      [|unfold ResearchAgent.report;
        destruct (bind _ _) as [e|[[[? ?] ?] ?]]];
      frame_fields.
  - unfold CurriculumAgent.run. cbv zeta.
    destruct (CurriculumAgent.design _ _ _ _ _) as [e|[response total]];
      [|unfold CurriculumAgent.report;
        destruct (bind _ _) as [e|[? ?]]];
      frame_fields.
  - unfold ExpertAgent.run. cbv zeta.
    destruct (ExpertAgent.validate llm) as [e|response];
      [|unfold ExpertAgent.report;
        destruct (bind _ _) as [e|[[[? ?] ?] confidence]];
        [|destruct (format_2f confidence)]];
      frame_fields.
  - unfold QualityAgent.run. cbv zeta.
    destruct (QualityAgent.review _ llm) as [e|[response verdict]];
      [|unfold QualityAgent.report;
        destruct (bind _ _) as [e|[? score]];
        [|destruct (format_2f score);
          [|destruct (negb (truthy verdict) && _)]]];
      frame_fields.
Qed.

(** X15. What a stage may write.  Whatever the generator answers, a
    stage leaves the request (topic, context, experience level), the
    start time, the completion time and the final output as they were;
    it only appends to the error list and to the action log; of the four
    stage outputs it touches at most its own; only the Quality Gate
    touches the approval, and only Structuring the iteration counter,
    which it increases by one. *)
Theorem stage_writes_its_own_fields (st : stage) (llm : result json)
    (s : WorkflowState) :
  let s' := stage_run env st llm s in
  continues s s'
  /\ final_output s' = final_output s
  /\ completed_at s' = completed_at s
  /\ (forall st', st' <> st -> stage_output st' s' = stage_output st' s)
  /\ (st <> QualityGate -> approved s' = approved s)
  /\ iteration s'
     = match st with
       | Structuring => iteration s + 1
       | _ => iteration s
       end.
Proof. apply stage_frame. Qed.

End FrameFacts.

Section RunFacts.
Import Py State Tools Graph Spec Runs.

Variable settings : Config.Settings.
Variable slugify : json -> result string.
Variable py_str : json -> string.
Variable w : world.

Abbreviation step := (Graph.step settings slugify py_str w).
Abbreviation exec := (Graph.exec settings slugify py_str w).
Abbreviation ainvoke := (Graph.ainvoke settings slugify py_str w).

Abbreviation env := (surroundings_of settings slugify py_str).

(** A relation between states that every super-step respects holds
    between the state of a configuration and the state its run ends
    with. *)
Lemma exec_invariant (R : WorkflowState -> WorkflowState -> Prop) :
  (forall s, R s s) ->
  (forall a b c, R a b -> R b c -> R a c) ->
  (forall c c', step c = Some c' -> R (snd c) (snd c')) ->
  forall fuel c s', exec fuel c = Some s' -> R (snd c) s'.
Proof.
  intros Hrefl Htrans Hstep.
  induction fuel as [|fuel IH]; intros [[n k] s] s' Hexec.
  - destruct n; try discriminate Hexec. injection Hexec as <-. apply Hrefl.
  - destruct n;
      try (cbn [Graph.exec] in Hexec;
           destruct (step _) as [c'|] eqn:Hc; [|discriminate Hexec];
           apply Htrans with (b := snd c');
           [exact (Hstep _ _ Hc)|exact (IH _ _ Hexec)]).
    injection Hexec as <-. apply Hrefl.
Qed.

Lemma finalize_continues now s : continues s (finalize_node now s).
Proof.
  unfold finalize_node. cbv zeta.
  destruct (truthy _ && truthy _); repeat split; reflexivity.
Qed.

Lemma step_continues c c' :
  step c = Some c' -> continues (snd c) (snd c').
Proof.
  destruct c as [[n k] s]. destruct n; cbn [Graph.step snd]; intros H.
  - injection H as <-.
    exact (proj1 (stage_frame (env (research_search w)) Discovery _ s)).
  - injection H as <-.
    exact (proj1 (stage_frame (env (curriculum_search w k)) Structuring _ s)).
  - injection H as <-.
    exact (proj1 (stage_frame (env (research_search w)) TechnicalReview _ s)).
  - pose proof (proj1 (stage_frame (env (research_search w)) QualityGate
                         (quality_llm w k s) s)) as Hq.
    cbn [stage_run surroundings_of sur_settings] in Hq.
    destruct (conditional_edge _); injection H as <-; exact Hq.
  - injection H as <-. apply finalize_continues.
  - discriminate H.
Qed.

(** A run that starts before finalization ends in a finalized state. *)
Lemma exec_finalized fuel : forall n k s s',
  exec fuel (n, k, s) = Some s' ->
  n <> finalize -> n <> END ->
  final_output s' = draft_curriculum s'
  /\ completed_at s' = Some (finalize_now w)
  /\ (truthy (approved s') = true
      \/ Config.MAX_ITERATIONS settings <= iteration s').
Proof.
  induction fuel as [|fuel IH]; intros n k s s' Hexec Hfin Hend.
  - destruct n; try discriminate Hexec. contradiction.
  - destruct n; try contradiction; cbn [Graph.exec Graph.step] in Hexec;
      try (apply IH in Hexec; [exact Hexec|discriminate|discriminate]).
    set (s3 := QualityAgent.run settings (quality_llm w k s) s) in *.
    destruct (should_continue_cases settings s3)
      as [[Heq Hexit]|(Heq & _ & _)]; rewrite Heq in Hexec;
      cbn [conditional_edge String.eqb Ascii.eqb Bool.eqb] in Hexec.
    + destruct fuel as [|fuel]; [discriminate Hexec|].
      cbn [Graph.exec Graph.step] in Hexec.
      assert (s' = finalize_node (finalize_now w) s3) as ->
        by (destruct fuel; now injection Hexec).
      unfold finalize_node. cbv zeta.
      destruct (truthy _ && truthy _); repeat split; exact Hexit.
    + apply IH in Hexec; [exact Hexec|discriminate|discriminate].
Qed.

(** The run from any state ends, given enough super-steps. *)
Lemma run_ends s0 :
  exists s',
    (forall fuel, (enough_fuel settings s0 <= fuel)%nat ->
                  ainvoke fuel s0 = Some s')
    /\ iteration s0 + 1 <= iteration s'
    /\ iteration s' <= Z.max (iteration s0 + 1)
                         (Config.MAX_ITERATIONS settings).
Proof.
  set (s1 := ResearchAgent.run (research_search w) (research_llm w s0) s0).
  assert (iteration s1 = iteration s0) as Hsame
    by (unfold s1; apply research_iteration).
  destruct (loop_terminates settings slugify py_str w
              (Z.to_nat (Config.MAX_ITERATIONS settings - (iteration s0 + 1)))
              O s1) as (s' & Hexec & Hlow & Hhigh); [rewrite Hsame; lia|].
  exists s'. rewrite Hsame in Hlow, Hhigh. split; [|lia].
  intros fuel Hfuel. unfold Graph.ainvoke.
  apply exec_more_fuel
    with (fuel := S (3 * S (Z.to_nat (Config.MAX_ITERATIONS settings
                                      - (iteration s0 + 1))) + 1));
    [|unfold enough_fuel in Hfuel; lia].
  exact Hexec.
Qed.

(** X16. Every run ends finalized.  From any initial state, whatever
    the outside world answers, the run ends given enough super-steps; the
    final output is the draft of the final state and the completion time
    is set; the request and the start time are those of the initial state,
    whose errors and log entries are the first ones of the final state;
    the iteration counter has grown by at least one and by no more than it
    takes to reach the configured ceiling; and the run has ended either
    approved or with the ceiling reached, which is then what
    [generate_path] reports as 'max_iterations_reached'. *)
Theorem run_ends_finalized s0 :
  exists s',
    (forall fuel, (enough_fuel settings s0 <= fuel)%nat ->
                  ainvoke fuel s0 = Some s')
    /\ final_output s' = draft_curriculum s'
    /\ completed_at s' = Some (finalize_now w)
    /\ continues s0 s'
    /\ iteration s0 + 1 <= iteration s'
    /\ iteration s' <= Z.max (iteration s0 + 1)
                         (Config.MAX_ITERATIONS settings)
    /\ (truthy (approved s') = true
        \/ PathService.max_iterations_reached settings s' = true).
Proof.
  destruct (run_ends s0) as (s' & Hrun & Hlow & Hhigh).
  exists s'. split; [exact Hrun|].
  specialize (Hrun _ (Nat.le_refl _)). unfold Graph.ainvoke in Hrun.
  destruct (exec_finalized _ _ _ _ _ Hrun) as (Hout & Hdone & Hexit);
    try discriminate.
  split; [exact Hout|]. split; [exact Hdone|].
  split; [exact (exec_invariant continues continues_refl continues_trans
                   step_continues _ _ _ Hrun)|].
  split; [exact Hlow|]. split; [exact Hhigh|].
  destruct Hexit as [Hexit|Hexit]; [now left|right].
  unfold PathService.max_iterations_reached. now apply Z.leb_le.
Qed.

(** ** Runs in which a generator never answers *)

Lemma quality_without_answer s e :
  let s' := QualityAgent.run settings (inl e) s in
  approved s' = approved s /\ quality_review s' = quality_review s.
Proof. split; reflexivity. Qed.

Lemma step_keeps_verdict c c' :
  (forall k s, exists e, quality_llm w k s = inl e) ->
  step c = Some c' ->
  approved (snd c') = approved (snd c)
  /\ quality_review (snd c') = quality_review (snd c).
Proof.
  intros Hsilent. destruct c as [[n k] s].
  destruct n; cbn [Graph.step snd]; intros H.
  - injection H as <-.
    destruct (stage_frame (env (research_search w)) Discovery
                (research_llm w s) s) as (_ & _ & _ & Hout & Happ & _).
    split; [apply Happ; discriminate|apply (Hout QualityGate); discriminate].
  - injection H as <-.
    destruct (stage_frame (env (curriculum_search w k)) Structuring
                (curriculum_llm w k s) s) as (_ & _ & _ & Hout & Happ & _).
    split; [apply Happ; discriminate|apply (Hout QualityGate); discriminate].
  - injection H as <-.
    destruct (stage_frame (env (research_search w)) TechnicalReview
                (expert_llm w k s) s) as (_ & _ & _ & Hout & Happ & _).
    split; [apply Happ; discriminate|apply (Hout QualityGate); discriminate].
  - destruct (Hsilent k s) as [e He]. rewrite He in H.
    destruct (conditional_edge _); injection H as <-; split; reflexivity.
  - injection H as <-. unfold finalize_node. cbv zeta.
    destruct (truthy _ && truthy _); split; reflexivity.
  - discriminate H.
Qed.

(** X17. When the generator never answers the Quality Gate, a run that
    starts unapproved goes all the way to the ceiling: it ends with the
    iteration counter at the configured maximum (at one more than it
    started with, if that is larger), still unapproved and with the
    quality review it started with. *)
Theorem run_without_verdict_reaches_the_ceiling s0 :
  (forall k s, exists e, quality_llm w k s = inl e) ->
  truthy (approved s0) = false ->
  exists s',
    (forall fuel, (enough_fuel settings s0 <= fuel)%nat ->
                  ainvoke fuel s0 = Some s')
    /\ iteration s'
       = Z.max (iteration s0 + 1) (Config.MAX_ITERATIONS settings)
    /\ approved s' = approved s0
    /\ quality_review s' = quality_review s0.
Proof.
  intros Hsilent Hno.
  destruct (run_ends s0) as (s' & Hrun & Hlow & Hhigh).
  exists s'. split; [exact Hrun|].
  specialize (Hrun _ (Nat.le_refl _)). unfold Graph.ainvoke in Hrun.
  destruct (exec_finalized _ _ _ _ _ Hrun) as (_ & _ & Hexit);
    try discriminate.
  destruct (exec_invariant
              (fun a b => approved b = approved a
                          /\ quality_review b = quality_review a))
    with (fuel := enough_fuel settings s0) (c := (research, O, s0))
         (s' := s') as [Happ Hrev]; auto.
  - intros a b c [H1 H2] [H3 H4]. split; congruence.
  - intros c c' Hc. exact (step_keeps_verdict c c' Hsilent Hc).
  - cbn [snd] in Happ, Hrev. split; [|split; assumption].
    destruct Hexit as [Hyes|Hmax]; [congruence|lia].
Qed.

Lemma step_keeps_draft c c' :
  (forall k s, exists e, curriculum_llm w k s = inl e) ->
  step c = Some c' ->
  draft_curriculum (snd c') = draft_curriculum (snd c).
Proof.
  intros Hsilent. destruct c as [[n k] s].
  destruct n; cbn [Graph.step snd]; intros H.
  - injection H as <-.
    destruct (stage_frame (env (research_search w)) Discovery
                (research_llm w s) s) as (_ & _ & _ & Hout & _).
    apply (Hout Structuring). discriminate.
  - injection H as <-. destruct (Hsilent k s) as [e He]. rewrite He.
    unfold CurriculumAgent.run, CurriculumAgent.design. cbv zeta.
    destruct (CurriculumAgent.build_feedback _ _); reflexivity.
  - injection H as <-.
    destruct (stage_frame (env (research_search w)) TechnicalReview
                (expert_llm w k s) s) as (_ & _ & _ & Hout & _).
    apply (Hout Structuring). discriminate.
  - destruct (stage_frame (env (research_search w)) QualityGate
                (quality_llm w k s) s) as (_ & _ & _ & Hout & _).
    specialize (Hout Structuring ltac:(discriminate)).
    cbn [stage_run surroundings_of sur_settings stage_output] in Hout.
    destruct (conditional_edge _); injection H as <-; exact Hout.
  - injection H as <-. unfold finalize_node. cbv zeta.
    destruct (truthy _ && truthy _); reflexivity.
  - discriminate H.
Qed.

(** X18. When the generator never answers Structuring, the run from a
    fresh initial state still ends, with the empty draft as its final
    output, and [generate_path] then raises ValueError "Workflow
    completed but no path data generated" before anything is validated
    or saved. *)
Theorem run_without_draft_yields_no_path (now : Z) (topic : string)
    (context : option string) (experience_level : string) :
  (forall k s, exists e, curriculum_llm w k s = inl e) ->
  let s0 := create_initial_state now topic context experience_level in
  exists s',
    (forall fuel, (enough_fuel settings s0 <= fuel)%nat ->
                  ainvoke fuel s0 = Some s')
    /\ final_output s' = JObj []
    /\ PathService.path_data s'
       = raise ValueError "Workflow completed but no path data generated".
Proof.
  intros Hsilent s0.
  destruct (run_ends s0) as (s' & Hrun & _).
  exists s'. split; [exact Hrun|].
  specialize (Hrun _ (Nat.le_refl _)). unfold Graph.ainvoke in Hrun.
  destruct (exec_finalized _ _ _ _ _ Hrun) as (Hout & _); try discriminate.
  assert (draft_curriculum s' = draft_curriculum s0) as Hdraft.
  { apply (exec_invariant
             (fun a b => draft_curriculum b = draft_curriculum a))
      with (fuel := enough_fuel settings s0) (c := (research, O, s0));
      auto.
    - intros a b c H1 H2. congruence.
    - intros c c' Hc. exact (step_keeps_draft c c' Hsilent Hc). }
  assert (final_output s' = JObj []) as Hempty
    by (rewrite Hout, Hdraft; reflexivity).
  split; [exact Hempty|]. unfold PathService.path_data. now rewrite Hempty.
Qed.

End RunFacts.

(* ===================================================================== *)
(** * Properties of the search client *)
(* ===================================================================== *)

Section SearchFacts.
Import Py PyText Tools WebSearchClient.

Variable provider : string -> Z -> result (list hit).

(** While fewer than [max_results] results are collected, the loop
    collects the results that look like documentation until it has
    [max_results] of them. *)
Lemma filter_docs_firstn max_results results : forall filtered,
  (List.length filtered < Z.to_nat max_results)%nat ->
  filter_docs results filtered max_results
  = firstn (Z.to_nat max_results)
      (filtered ++ List.filter is_doc results).
Proof.
  induction results as [|r rest IH]; intros filtered Hlt;
    cbn [filter_docs List.filter].
  - rewrite app_nil_r, firstn_all2 by lia. reflexivity.
  - destruct (is_doc r); [|now apply IH]. cbv zeta.
    destruct (max_results <=? Z.of_nat (List.length (filtered ++ [r])))
      eqn:Hfull.
    + apply Z.leb_le in Hfull. rewrite length_app in Hfull. cbn in Hfull.
      replace (filtered ++ r :: List.filter is_doc rest)%list
        with ((filtered ++ [r]) ++ List.filter is_doc rest)%list
        by now rewrite <- app_assoc.
      rewrite firstn_app.
      replace (Z.to_nat max_results - List.length (filtered ++ [r]))%nat
        with 0%nat by (rewrite length_app; cbn; lia).
      cbn [firstn]. rewrite app_nil_r, firstn_all2; [reflexivity|].
      rewrite length_app. cbn. lia.
    + apply Z.leb_gt in Hfull. rewrite length_app in Hfull. cbn in Hfull.
      rewrite IH by (rewrite length_app; cbn; lia).
      now rewrite <- app_assoc.
Qed.

(** With a maximum of zero or less the loop stops at the first result it
    collects. *)
Lemma filter_docs_nonpositive max_results results :
  max_results <= 0 ->
  (List.length (filter_docs results [] max_results) <= 1)%nat.
Proof.
  intros Hmax. induction results as [|r rest IH]; cbn [filter_docs].
  - cbn. lia.
  - destruct (is_doc r); [|exact IH]. cbv zeta.
    replace (max_results <=? Z.of_nat (List.length ([] ++ [r]))) with true
      by (symmetry; apply Z.leb_le; cbn; lia).
    cbn. lia.
Qed.

Lemma filter_sublist {A} (f : A -> bool) (l : list A) :
  List.filter f l `sublist_of` l.
Proof.
  induction l as [|x l IH]; cbn [List.filter]; [constructor|].
  destruct (f x); now constructor.
Qed.

(** X19. [search_documentation] returns the first [max_results] results
    of its search that look like documentation (one of the five keywords
    occurs in the lower-cased URL or title), in the order of the search:
    the loop that stops early and the final slice together amount to
    that.  Hence it returns at most [max_results] results, nothing for a
    maximum of zero or less, and only results that look like
    documentation. *)
Theorem search_documentation_takes_first_documents topic max_results :
  let results :=
    search (provider (documentation_query topic) (max_results * 2)) in
  let found := search_documentation provider topic max_results in
  found = firstn (Z.to_nat max_results) (List.filter is_doc results)
  /\ (List.length found <= Z.to_nat max_results)%nat
  /\ Forall (fun r => is_doc r = true) found
  /\ found `sublist_of` results.
Proof.
  intros results found.
  assert (found
          = firstn (Z.to_nat max_results) (List.filter is_doc results))
    as Hfound.
  { unfold found, search_documentation. cbv zeta. fold results.
    unfold list_slice_to.
    destruct (Z_le_gt_dec max_results 0) as [Hle|Hgt].
    - pose proof (filter_docs_nonpositive max_results results Hle) as Hlen.
      replace (Z.to_nat max_results) with 0%nat by lia.
      replace (Z.to_nat (slice_bound _ max_results)) with 0%nat;
        [reflexivity|].
      unfold slice_bound. destruct (max_results <? 0) eqn:Hneg.
      + apply Z.ltb_lt in Hneg. lia.
      + apply Z.ltb_ge in Hneg. lia.
    - rewrite (filter_docs_firstn max_results results []) by (cbn; lia).
      cbn [app].
      set (l := firstn (Z.to_nat max_results) (List.filter is_doc results)).
      assert (List.length l <= Z.to_nat max_results)%nat
        by (unfold l; rewrite length_firstn; lia).
      apply firstn_all2. unfold slice_bound.
      replace (max_results <? 0) with false
        by (symmetry; apply Z.ltb_ge; lia).
      lia. }
  split; [exact Hfound|]. rewrite Hfound.
  split; [rewrite length_firstn; lia|]. split.
  - apply Forall_take. apply Forall_forall. intros r Hr.
    apply list_elem_of_In, filter_In in Hr. tauto.
  - etransitivity; [apply sublist_take|]. apply filter_sublist.
Qed.

(** The inner loop collects what the removal of duplicates by URL
    keeps, and remembers the URLs it has seen. *)
Lemma add_unique_spec results : forall seen_urls all_results more,
  snd (add_unique results seen_urls all_results)
  = (all_results ++ ResearchAgent.unique_by_url results seen_urls)%list
  /\ ResearchAgent.unique_by_url (results ++ more) seen_urls
     = (ResearchAgent.unique_by_url results seen_urls
          ++ ResearchAgent.unique_by_url more
               (fst (add_unique results seen_urls all_results)))%list.
Proof.
  induction results as [|r rest IH]; intros seen_urls all_results more;
    cbn [add_unique ResearchAgent.unique_by_url app]; cbv zeta.
  - now rewrite app_nil_r.
  - destruct (negb (String.eqb (sr_url r) EmptyString)
              && bool_decide (sr_url r ∉ seen_urls)).
    + destruct (IH ({[ sr_url r ]} ∪ seen_urls) (all_results ++ [r])%list
                  more) as [-> ->].
      split; [now rewrite <- app_assoc|reflexivity].
    + apply IH.
Qed.

Lemma fallback_loop_spec max_results_per_query delay queries :
  forall i seen_urls all_results,
    let out :=
      fallback_loop provider queries i max_results_per_query delay
        seen_urls all_results in
    snd out
    = (all_results
         ++ ResearchAgent.unique_by_url
              (concat (map (fun query =>
                              search (provider query max_results_per_query))
                         queries))
              seen_urls)%list
    /\ fst out
       = if Qle_bool delay 0 then []
         else replicate
                (match i with
                 | O => List.length queries - 1
                 | S _ => List.length queries
                 end) delay.
Proof.
  induction queries as [|query rest IH]; intros i seen_urls all_results;
    cbn [fallback_loop map concat]; cbv zeta.
  - cbn. rewrite app_nil_r. split; [reflexivity|].
    destruct (Qle_bool delay 0), i; reflexivity.
  - destruct (add_unique_spec (search (provider query max_results_per_query))
                seen_urls all_results
                (concat (map (fun query =>
                                search (provider query max_results_per_query))
                           rest))) as [Hall Hrest].
    destruct (add_unique _ seen_urls all_results) as [seen' all'].
    cbn [fst snd] in Hall, Hrest.
    destruct (IH (S i) seen' all') as [Hres Hpauses].
    destruct (fallback_loop provider rest (S i) _ _ seen' all')
      as [pauses results].
    cbn [fst snd] in *. split.
    + rewrite Hres, Hall, Hrest. now rewrite <- app_assoc.
    + rewrite Hpauses.
      destruct (Qle_bool delay 0); [now rewrite andb_false_r|].
      destruct i; cbn [Nat.eqb negb andb app].
      * f_equal. cbn [List.length]. lia.
      * reflexivity.
Qed.

(** X20. [search_with_fallback] returns what the removal of duplicates
    by URL keeps of the results of all queries taken together, in the
    order of the queries: a URL found by several queries is returned
    once, with the result of the first query that found it, and results
    without a URL are dropped.  When the delay is positive the call
    pauses for it once between any two queries, and not at all
    otherwise. *)
Theorem search_with_fallback_merges_queries queries max_results_per_query
    delay :
  let out :=
    search_with_fallback provider queries max_results_per_query delay in
  let found :=
    concat (map (fun query => search (provider query max_results_per_query))
              queries) in
  snd out = ResearchAgent.unique_by_url found ∅
  /\ NoDup (map sr_url (snd out))
  /\ Forall (fun r => sr_url r <> EmptyString) (snd out)
  /\ fst out
     = if Qle_bool delay 0 then []
       else replicate (List.length queries - 1) delay.
Proof.
  intros out found.
  destruct (fallback_loop_spec max_results_per_query delay queries O ∅ [])
    as [Hres Hpauses].
  cbn [app] in Hres. fold found in Hres.
  change (fallback_loop provider queries 0 max_results_per_query delay ∅ [])
    with out in Hres, Hpauses.
  split; [exact Hres|]. rewrite Hres.
  destruct (unique_by_url_spec found ∅) as (Hnd & Hin & _).
  split; [exact Hnd|]. split; [|exact Hpauses].
  apply Forall_forall. intros r Hr. now destruct (Hin r Hr) as (_ & ? & _).
Qed.

End SearchFacts.

(* ===================================================================== *)
(** * Further properties of the extraction *)
(* ===================================================================== *)

Section TextFacts.
Import Py LLM Texts.

Lemma append_cons c s t : String c s ++ t = String c (s ++ t).
Proof. reflexivity. Qed.

Lemma append_empty_l t : EmptyString ++ t = t.
Proof. reflexivity. Qed.

Lemma len_app s t : len (s ++ t) = len s + len t.
Proof.
  unfold len. induction s as [|c s IH]; [reflexivity|].
  rewrite append_cons. cbn [String.length]. lia.
Qed.

Lemma len_nonneg s : 0 <= len s.
Proof. unfold len. lia. Qed.

Lemma to_nat_len s : Z.to_nat (len s) = String.length s.
Proof. unfold len. apply Nat2Z.id. Qed.

Lemma drop_app s t : drop (String.length s) (s ++ t) = t.
Proof. induction s as [|c s IH]; [now destruct t|exact IH]. Qed.

Lemma take_app s t : take (String.length s) (s ++ t) = s.
Proof.
  induction s as [|c s IH]; [now destruct t|].
  rewrite append_cons. cbn [String.length take]. now rewrite IH.
Qed.

Lemma startswith_app p r : startswith (p ++ r) p = true.
Proof.
  induction p as [|c p IH]; [now destruct r|].
  rewrite append_cons. cbn [startswith]. now rewrite Ascii.eqb_refl.
Qed.

Lemma find_offset_here s sub :
  startswith s sub = true -> find_offset s sub = Some O.
Proof. intros H. destruct s; cbn [find_offset]; now rewrite H. Qed.

(** The first occurrence of a text lies behind a prefix that lacks its
    first character. *)
Lemma find_offset_skip c sub pre s :
  lacks c pre = true ->
  startswith s (String c sub) = true ->
  find_offset (pre ++ s) (String c sub) = Some (String.length pre).
Proof.
  intros Hlacks Hs. induction pre as [|a pre IH].
  - rewrite append_empty_l. now apply find_offset_here.
  - cbn [lacks] in Hlacks. apply andb_true_iff in Hlacks as [Ha Hpre].
    apply negb_true_iff in Ha.
    rewrite append_cons. cbn [find_offset startswith].
    rewrite Ascii.eqb_sym, Ha. cbn [andb]. now rewrite (IH Hpre).
Qed.

Lemma slice_bound_inside n i : 0 <= i <= n -> slice_bound n i = i.
Proof.
  intros H. unfold slice_bound.
  replace (i <? 0) with false by (symmetry; apply Z.ltb_ge; lia). lia.
Qed.

Lemma find_from_inside s sub start :
  0 <= start <= len s ->
  find_from s sub start
  = match find_offset (drop (Z.to_nat start) s) sub with
    | Some k => start + Z.of_nat k
    | None => -1
    end.
Proof.
  intros H. unfold find_from.
  replace (len s <? start) with false by (symmetry; apply Z.ltb_ge; lia).
  cbv zeta. now rewrite slice_bound_inside.
Qed.

Lemma slice_inside s a b :
  0 <= a <= b -> b <= len s ->
  slice s a b = take (Z.to_nat (b - a)) (drop (Z.to_nat a) s).
Proof.
  intros Ha Hb. unfold slice. cbv zeta.
  now rewrite !slice_bound_inside by lia.
Qed.

Lemma slice_from_inside s a :
  0 <= a <= len s -> slice_from s a = drop (Z.to_nat a) s.
Proof. intros H. unfold slice_from. now rewrite slice_bound_inside. Qed.

(** Where the first occurrence of [String c sub] is when the text begins
    with a prefix that lacks [c]. *)
Lemma find_skip c sub pre s :
  lacks c pre = true ->
  startswith s (String c sub) = true ->
  find (pre ++ s) (String c sub) = len pre.
Proof.
  intros Hlacks Hs. unfold find.
  rewrite find_from_inside by (pose proof (len_nonneg (pre ++ s)); lia).
  change (Z.to_nat 0) with O. cbn [drop].
  rewrite (find_offset_skip _ _ _ _ Hlacks Hs). reflexivity.
Qed.

(** The scan goes through a text whose braces close among themselves
    without stopping. *)
Lemma brace_scan_closes s : forall depth rest i brace_count,
  1 <= brace_count ->
  closes s depth = true ->
  brace_scan (s ++ rest) i (brace_count + Z.of_nat depth)
  = brace_scan rest (i + len s) brace_count.
Proof.
  induction s as [|c s IH]; intros depth rest i brace_count Hpos Hcloses.
  - cbn [closes] in Hcloses. apply Nat.eqb_eq in Hcloses. subst depth.
    rewrite append_empty_l. change (len EmptyString) with 0.
    now rewrite !Z.add_0_r.
  - rewrite append_cons. cbn [brace_scan closes] in *.
    replace (i + len (String c s)) with (i + 1 + len s)
      by (unfold len; cbn [String.length]; lia).
    destruct (Ascii.eqb c "{").
    + rewrite <- (IH (S depth) rest (i + 1) brace_count Hpos Hcloses).
      f_equal. lia.
    + destruct (Ascii.eqb c "}").
      * destruct depth as [|depth]; [discriminate Hcloses|]. cbv zeta.
        replace (brace_count + Z.of_nat (S depth) - 1 =? 0) with false
          by (symmetry; apply Z.eqb_neq; lia).
        rewrite <- (IH depth rest (i + 1) brace_count Hpos Hcloses).
        f_equal. lia.
      * now apply IH.
Qed.

(** Without a closing brace the scan runs to the end of the text. *)
Lemma brace_scan_unclosed rest : forall i brace_count,
  lacks "}" rest = true -> brace_scan rest i brace_count = None.
Proof.
  induction rest as [|c rest IH]; intros i brace_count Hlacks;
    [reflexivity|].
  cbn [lacks] in Hlacks. apply andb_true_iff in Hlacks as [Hc Hrest].
  apply negb_true_iff in Hc. cbn [brace_scan]. rewrite Hc.
  destruct (Ascii.eqb c "{"); now apply IH.
Qed.

(** The scan stops inside the text. *)
Lemma brace_scan_bound rest : forall i brace_count k,
  brace_scan rest i brace_count = Some k -> i + 1 <= k <= i + len rest.
Proof.
  induction rest as [|c rest IH]; intros i brace_count k;
    cbn [brace_scan]; [discriminate|].
  assert (len (String c rest) = 1 + len rest) as ->
    by (unfold len; cbn [String.length]; lia).
  pose proof (len_nonneg rest) as Hlen.
  destruct (Ascii.eqb c "{").
  - intros H. apply IH in H. lia.
  - destruct (Ascii.eqb c "}"); cbv zeta.
    + destruct (brace_count - 1 =? 0).
      * intros [= <-]. lia.
      * intros H. apply IH in H. lia.
    + intros H. apply IH in H. lia.
Qed.

Lemma not_startswith_brace pre s :
  pre <> EmptyString -> lacks "{" pre = true ->
  startswith (pre ++ s) "{" = false.
Proof.
  intros Hne Hlacks. destruct pre as [|a pre]; [contradiction|].
  cbn [lacks] in Hlacks. apply andb_true_iff in Hlacks as [Ha _].
  apply negb_true_iff in Ha. rewrite append_cons. cbn [startswith].
  now rewrite Ascii.eqb_sym, Ha.
Qed.

Lemma rstrip_nonempty s c :
  isspace c = false -> rstrip (s ++ String c EmptyString) = s ++ String c EmptyString.
Proof.
  intros Hc. induction s as [|a s IH].
  - rewrite append_empty_l. cbn [rstrip]. now rewrite Hc.
  - rewrite append_cons. cbn [rstrip]. rewrite IH.
    destruct s; reflexivity.
Qed.

(** A text between braces is already trimmed. *)
Lemma strip_braces body :
  strip ("{" ++ body ++ "}") = "{" ++ body ++ "}".
Proof.
  unfold strip. change ("{" ++ body ++ "}") with (String "{" (body ++ "}")).
  cbn [lstrip]. change (isspace "{") with false. cbv iota.
  change (String "{" (body ++ "}")) with (String "{" body ++ "}").
  now apply rstrip_nonempty.
Qed.

(** The span the brace stage cuts out of a text that does not start with
    a brace. *)
Lemma brace_span_cut pre tail :
  pre <> EmptyString -> lacks "{" pre = true ->
  brace_span (pre ++ String "{" tail)
  = match brace_scan (String "{" tail) 0 0 with
    | Some k => take (Z.to_nat k) (String "{" tail)
    | None => EmptyString
    end.
Proof.
  intros Hne Hlacks. unfold brace_span.
  rewrite (not_startswith_brace _ _ Hne Hlacks). cbn [negb].
  rewrite (find_skip "{" EmptyString pre (String "{" tail) Hlacks)
    by (cbn [startswith]; rewrite Ascii.eqb_refl; now destruct tail).
  cbv zeta.
  replace (len pre =? -1) with false
    by (symmetry; apply Z.eqb_neq; pose proof (len_nonneg pre); lia).
  cbn [negb].
  assert (len (pre ++ String "{" tail) = len pre + len (String "{" tail))
    as Hlen by apply len_app.
  pose proof (len_nonneg pre) as Hpre.
  pose proof (len_nonneg (String "{" tail)) as Htail.
  rewrite slice_from_inside by lia.
  rewrite to_nat_len, drop_app.
  destruct (brace_scan (String "{" tail) 0 0) as [k|] eqn:Hscan.
  - assert (0 <= k <= len (String "{" tail)) as Hk
      by (apply brace_scan_bound in Hscan; lia).
    rewrite slice_inside by lia.
    replace (len pre + k - len pre) with k by lia.
    now rewrite to_nat_len, drop_app.
  - rewrite slice_inside by lia.
    replace (len pre - len pre) with 0 by lia.
    change (Z.to_nat 0) with O. reflexivity.
Qed.

Lemma append_assoc_str s t u : (s ++ t) ++ u = s ++ t ++ u.
Proof.
  induction s as [|c s IH]; [reflexivity|].
  rewrite !append_cons. now rewrite IH.
Qed.

(** X21. An object between prose is found by brace matching: when the
    text does not start with a brace, its first brace opens a part whose
    braces are balanced, and a closing brace follows that part, the brace
    stage cuts out exactly the span from the first brace to that closing
    brace, whatever comes after it.  For a reply without code fences this
    span is what [generate_json] hands to [json.loads]. *)
Theorem balanced_object_is_extracted pre body post :
  pre <> EmptyString ->
  lacks "{" pre = true ->
  balanced body = true ->
  brace_span (pre ++ "{" ++ body ++ "}" ++ post) = "{" ++ body ++ "}"
  /\ forall raw,
       strip raw = pre ++ "{" ++ body ++ "}" ++ post ->
       contains (strip raw) fence = false ->
       clean_response raw = "{" ++ body ++ "}".
Proof.
  intros Hne Hlacks Hbalanced.
  assert (brace_span (pre ++ "{" ++ body ++ "}" ++ post)
          = "{" ++ body ++ "}") as Hspan.
  { change ("{" ++ body ++ "}" ++ post)
      with (String "{" (body ++ "}" ++ post)).
    rewrite (brace_span_cut _ _ Hne Hlacks). cbn [brace_scan].
    rewrite Ascii.eqb_refl. change (0 + 1) with (1 + Z.of_nat 0) at 2.
    rewrite (brace_scan_closes body O ("}" ++ post) (0 + 1) 1)
      by (try lia; exact Hbalanced).
    change ("}" ++ post) with (String "}" post). cbn [brace_scan].
    change (Ascii.eqb "}" "{") with false. rewrite Ascii.eqb_refl.
    cbv iota zeta. change (1 - 1 =? 0) with true. cbv iota.
    assert (String "{" (body ++ String "}" post)
            = ("{" ++ body ++ "}") ++ post) as ->
      by (change (("{" ++ body ++ "}") ++ post)
            with (String "{" ((body ++ "}") ++ post));
          now rewrite append_assoc_str).
    replace (Z.to_nat (0 + 1 + len body + 1))
      with (String.length ("{" ++ body ++ "}")).
    - apply take_app.
    - rewrite <- to_nat_len. f_equal.
      change ("{" ++ body ++ "}") with (String "{" (body ++ "}")).
      rewrite <- append_cons, len_app. unfold len. cbn [String.length].
      lia. }
  split; [exact Hspan|]. intros raw Hraw Hfence.
  unfold clean_response. cbv zeta.
  rewrite (strip_fences_no_fence _ Hfence), Hraw, Hspan.
  apply strip_braces.
Qed.

(** X22. An object that is cut off is reported as an empty reply: when
    the text does not start with a brace and no closing brace follows its
    first brace, the brace stage leaves the empty text, and for a reply
    without code fences [generate_json] fails with "Empty response after
    cleaning" without calling [json.loads]. *)
Theorem unclosed_object_is_reported_empty
    (json_loads : string -> string + json) pre rest :
  pre <> EmptyString ->
  lacks "{" pre = true ->
  lacks "}" rest = true ->
  brace_span (pre ++ "{" ++ rest) = EmptyString
  /\ forall raw,
       strip raw = pre ++ "{" ++ rest ->
       contains (strip raw) fence = false ->
       parse_response json_loads raw
       = raise LLMException "Empty response after cleaning".
Proof.
  intros Hne Hlacks Hrest.
  assert (brace_span (pre ++ "{" ++ rest) = EmptyString) as Hspan.
  { change ("{" ++ rest) with (String "{" rest).
    rewrite (brace_span_cut _ _ Hne Hlacks). cbn [brace_scan].
    rewrite Ascii.eqb_refl. now rewrite brace_scan_unclosed. }
  split; [exact Hspan|]. intros raw Hraw Hfence.
  unfold parse_response, clean_response. cbv zeta.
  rewrite (strip_fences_no_fence _ Hfence), Hraw, Hspan. reflexivity.
Qed.

(** X23. The contents of a json block are found whatever surrounds the
    block: when neither the text before the json fence nor the text
    between that fence and the next one contains a backquote, the fence
    stage yields the trimmed text between the two fences. *)
Theorem fenced_json_block_is_extracted pre body post :
  lacks "`" pre = true ->
  lacks "`" body = true ->
  strip_fences (pre ++ fence_json ++ body ++ fence ++ post) = strip body.
Proof.
  intros Hpre Hbody.
  set (response := pre ++ fence_json ++ body ++ fence ++ post).
  assert (startswith (fence_json ++ body ++ fence ++ post) fence_json = true)
    as Hopen by apply startswith_app.
  assert (startswith (fence ++ post) fence = true) as Hclose
    by apply startswith_app.
  assert (len response = len pre + 7 + len body + 3 + len post) as Hlen.
  { unfold response. rewrite !len_app.
    change (len fence_json) with 7. change (len fence) with 3. lia. }
  pose proof (len_nonneg pre). pose proof (len_nonneg body).
  pose proof (len_nonneg post).
  assert (drop (Z.to_nat (len pre + 7)) response = body ++ fence ++ post)
    as Hdrop.
  { unfold response. rewrite <- append_assoc_str.
    replace (Z.to_nat (len pre + 7))
      with (String.length (pre ++ fence_json)); [apply drop_app|].
    rewrite <- to_nat_len, len_app. reflexivity. }
  assert (contains response fence_json = true) as Hcontains.
  { unfold contains.
    replace (find_offset response fence_json)
      with (Some (String.length pre)); [reflexivity|].
    symmetry. exact (find_offset_skip "`" "``json" pre _ Hpre Hopen). }
  assert (find response fence_json = len pre) as Hfind
    by exact (find_skip "`" "``json" pre _ Hpre Hopen).
  assert (find_from response fence (len pre + 7) = len pre + 7 + len body)
    as Hend.
  { rewrite find_from_inside by lia. rewrite Hdrop.
    replace (find_offset (body ++ fence ++ post) fence)
      with (Some (String.length body)); [reflexivity|].
    symmetry. exact (find_offset_skip "`" "``" body _ Hbody Hclose). }
  assert (slice response (len pre + 7) (len pre + 7 + len body) = body)
    as Hslice.
  { rewrite slice_inside by lia. rewrite Hdrop.
    replace (Z.to_nat (len pre + 7 + len body - (len pre + 7)))
      with (String.length body) by (rewrite <- to_nat_len; f_equal; lia).
    apply take_app. }
  unfold strip_fences. fold response. rewrite Hcontains, Hfind.
  cbv zeta. rewrite Hend.
  replace (len pre + 7 + len body =? -1) with false
    by (symmetry; apply Z.eqb_neq; lia).
  cbn [negb]. now rewrite Hslice.
Qed.

End TextFacts.

Lemma balanced_object_is_extracted_witness :
  LLM.clean_response Inputs.nested_reply
  = "{" ++ Examples.dq ++ "a" ++ Examples.dq ++ ": {}}".
Proof.
  apply (proj2 (balanced_object_is_extracted "Sure: "
                  (Examples.dq ++ "a" ++ Examples.dq ++ ": {}")
                  " Anything else?" ltac:(discriminate) eq_refl eq_refl));
    reflexivity.
Defined.

Lemma unclosed_object_is_reported_empty_witness :
  LLM.parse_response Examples.no_parse Inputs.truncated_reply
  = Py.raise Py.LLMException "Empty response after cleaning".
Proof.
  apply (proj2 (unclosed_object_is_reported_empty Examples.no_parse "Sure: "
                  (Examples.dq ++ "a" ++ Examples.dq ++ ": [1, 2")
                  ltac:(discriminate) eq_refl eq_refl));
    reflexivity.
Defined.

Lemma fenced_json_block_is_extracted_witness :
  LLM.strip_fences Examples.fenced_reply = Examples.doc_a1.
Proof.
  apply (fenced_json_block_is_extracted ("Here you go:" ++ Examples.nl)
           (Examples.nl ++ Examples.doc_a1 ++ Examples.nl) EmptyString);
    reflexivity.
Defined.

(* ===================================================================== *)
(** * Properties of the path service *)
(* ===================================================================== *)

Section SlugFacts.
Import Py PathService.

Lemma to_int_nonnil n :
  Z.to_int n <> Decimal.Pos Decimal.Nil /\ Z.to_int n <> Decimal.Neg Decimal.Nil.
Proof.
  destruct n as [|p|p]; cbn; split; try discriminate;
    intros [= H]; exact (Unsigned.to_uint_nonnil p H).
Qed.

Lemma str_of_int_inj a b : str_of_int a = str_of_int b -> a = b.
Proof.
  unfold str_of_int. intros H.
  apply (f_equal NilZero.int_of_string) in H.
  destruct (to_int_nonnil a) as [Ha Ha'], (to_int_nonnil b) as [Hb Hb'].
  rewrite !NilZero.isi in H by assumption.
  injection H as H. now apply DecimalZ.to_int_inj.
Qed.

Lemma append_inj_r s t u : s ++ t = s ++ u -> t = u.
Proof.
  induction s as [|c s IH]; [auto|].
  rewrite !append_cons. intros [= H]. auto.
Qed.

Lemma candidate_inj base_slug i j :
  candidate base_slug i = candidate base_slug j -> i = j.
Proof.
  assert (forall k, base_slug <> numbered_slug base_slug k) as Hlen.
  { intros k H. apply (f_equal len) in H. unfold numbered_slug in H.
    rewrite len_app, len_app in H. change (len "-") with 1 in H.
    pose proof (len_nonneg (str_of_int k)). lia. }
  destruct i as [|i], j as [|j]; cbn [candidate]; intros H.
  - reflexivity.
  - now apply Hlen in H.
  - symmetry in H. now apply Hlen in H.
  - unfold numbered_slug in H.
    apply append_inj_r, append_inj_r, str_of_int_inj in H. lia.
Qed.

(** More slugs than there are stored paths cannot all be taken. *)
Lemma candidates_not_all_taken (taken : gset string) base_slug :
  ~ (forall i, (i <= size taken)%nat -> candidate base_slug i ∈ taken).
Proof.
  intros Hall.
  set (l := map (candidate base_slug) (seq 0 (S (size taken)))).
  assert (NoDup l) as Hnd.
  { apply (NoDup_fmap_2_strong (candidate base_slug)); [|apply NoDup_seq].
    intros x y _ _. apply candidate_inj. }
  assert (list_to_set l ⊆ taken) as Hsub.
  { intros x Hx. apply elem_of_list_to_set in Hx.
    apply list_elem_of_fmap in Hx as (i & -> & Hi).
    apply Hall. apply elem_of_seq in Hi. lia. }
  apply subseteq_size in Hsub. rewrite (size_list_to_set l Hnd) in Hsub.
  unfold l in Hsub. rewrite length_map, length_seq in Hsub. lia.
Qed.

(** The loop from round [i], when every slug tried before is taken. *)
Lemma unique_slug_loop_spec (taken : gset string) base_slug fuel :
  forall i,
    (forall j, (j < i)%nat -> candidate base_slug j ∈ taken) ->
    (size taken + 1 <= i + fuel)%nat ->
    exists m,
      unique_slug_loop taken base_slug (candidate base_slug i)
        (Z.of_nat i + 1) fuel
      = Some (candidate base_slug m)
      /\ (candidate base_slug m ∉ taken)
      /\ forall j, (j < m)%nat -> candidate base_slug j ∈ taken.
Proof.
  induction fuel as [|fuel IH]; intros i Hbefore Hfuel.
  - exfalso. apply (candidates_not_all_taken taken base_slug).
    intros j Hj. apply Hbefore. lia.
  - cbn [unique_slug_loop].
    destruct (bool_decide (candidate base_slug i ∉ taken)) eqn:Hfree.
    + apply bool_decide_eq_true in Hfree. exists i. auto.
    + apply bool_decide_eq_false in Hfree.
      assert (candidate base_slug i ∈ taken) as Htaken
        by (destruct (decide (candidate base_slug i ∈ taken)); tauto).
      destruct (IH (S i)) as (m & Hloop & Hm & Hless).
      * intros j Hj. destruct (decide (j = i)) as [->|]; [exact Htaken|].
        apply Hbefore. lia.
      * lia.
      * exists m. split; [|auto].
        rewrite <- Hloop. cbn [candidate].
        replace (Z.of_nat i + 1) with (Z.of_nat (S i)) by lia.
        reflexivity.
Qed.

(** X24. [_ensure_unique_slug] ends and returns a slug no stored path
    has: with as many rounds as there are stored paths, plus one, the
    loop returns; it returns the base slug when that is free, and
    otherwise the base slug followed by "-" and the least number from 1
    on for which that text is free, a number that is at most the number
    of stored paths. *)
Theorem ensure_unique_slug_is_fresh (taken : gset string) base_slug :
  exists slug,
    (forall fuel, (size taken + 1 <= fuel)%nat ->
                  ensure_unique_slug taken base_slug fuel = Some slug)
    /\ (slug ∉ taken)
    /\ (base_slug ∉ taken -> slug = base_slug)
    /\ (base_slug ∈ taken ->
        exists counter,
          1 <= counter <= Z.of_nat (size taken)
          /\ slug = numbered_slug base_slug counter
          /\ forall j, 1 <= j < counter ->
                       numbered_slug base_slug j ∈ taken).
Proof.
  destruct (unique_slug_loop_spec taken base_slug (size taken + 1) O)
    as (m & Hloop & Hm & Hless); [intros j Hj; lia|lia|].
  assert ((m <= size taken)%nat) as Hbound.
  { destruct (le_lt_dec m (size taken)) as [|Hgt]; [assumption|].
    exfalso. apply (candidates_not_all_taken taken base_slug).
    intros i Hi. apply Hless. lia. }
  exists (candidate base_slug m). split; [|split; [exact Hm|split]].
  - intros fuel Hfuel.
    destruct (unique_slug_loop_spec taken base_slug fuel O)
      as (m' & Hloop' & Hm' & Hless'); [intros j Hj; lia|lia|].
    unfold ensure_unique_slug. cbn [candidate] in Hloop'.
    change (Z.of_nat 0 + 1) with 1 in Hloop'. rewrite Hloop'. do 2 f_equal.
    destruct (lt_eq_lt_dec m m') as [[Hlt| ->]|Hlt]; [|reflexivity|].
    + now apply Hless' in Hlt.
    + now apply Hless in Hlt.
  - intros Hfree. destruct m as [|m]; [reflexivity|].
    exfalso. apply Hfree. apply (Hless O). lia.
  - intros Htaken. destruct m as [|m]; [contradiction|].
    exists (Z.of_nat (S m)). split; [lia|]. split; [reflexivity|].
    intros j Hj. specialize (Hless (Z.to_nat j) ltac:(lia)).
    destruct (Z.to_nat j) as [|j'] eqn:Hj'; [lia|].
    cbn [candidate] in Hless. rewrite <- Hj' in Hless.
    now replace (Z.of_nat (Z.to_nat j)) with j in Hless by lia.
Qed.

End SlugFacts.

(* ===================================================================== *)
(** * Further properties of the Quality Gate stage *)
(* ===================================================================== *)

Section ReviewFacts.
Import Py State Spec.

Variable settings : Config.Settings.

(** X25. The review the Quality Gate stores.  For a document with a
    boolean 'approved' and a dict of numeric sub-scores whose mean the
    stage can compute, the stored review carries as 'score' that mean (the
    sum of the sub-scores, added in doubles from left to right, over their
    number) rounded to two decimals by [round], whatever score the
    generator declared, and as 'approved' the verdict of the stage; every
    other entry is stored as generated.  From the fifth iteration on a
    draft that is turned down is stored as approved in the state while the
    stored review still says it is not. *)
Theorem quality_gate_stores_recomputed_score doc reported scores xs avg s :
  dict_get doc "approved" = Some (JBool reported) ->
  dict_has doc "score" = true ->
  dict_has doc "violations" = true ->
  dict_get doc "scores" = Some (JObj scores) ->
  map snd scores = map JNum xs ->
  double_mean xs = ret avg ->
  let s' := QualityAgent.run settings (inr (JObj doc)) s in
  let verdict :=
    gate_approved (Config.QUALITY_THRESHOLD settings) reported
      (round2 avg) xs in
  getitem (quality_review s') "score" = ret (JNum (Float (round2 avg)))
  /\ getitem (quality_review s') "approved" = ret (JBool verdict)
  /\ (forall key, key <> "score" -> key <> "approved" ->
        getitem (quality_review s') key = getitem (JObj doc) key)
  /\ (forall violations,
        dict_get doc "violations" = Some (JList violations) ->
        verdict = false -> 5 <= iteration s ->
        approved s' = JBool true).
Proof.
  intros Happroved Hscore Hviolations Hscores Hnums Hmean s' verdict.
  assert (quality_review s'
          = JObj (dict_set
                    (dict_set doc "score" (JNum (Float (round2 avg))))
                    "approved" (JBool verdict))) as Hstored.
  { unfold s', QualityAgent.run.
    rewrite (review_verdict settings doc reported scores xs avg)
      by assumption.
    cbn [ret]. now rewrite report_keeps_review. }
  rewrite Hstored. cbn [getitem].
  split; [|split; [|split]].
  - rewrite dict_get_set_ne by discriminate. now rewrite dict_get_set_eq.
  - now rewrite dict_get_set_eq.
  - intros key H1 H2. now rewrite !dict_get_set_ne by congruence.
  - intros violations Hlist Hverdict Hfive. unfold s'.
    rewrite (quality_gate_forces_from_five settings doc reported scores xs
               avg violations s) by assumption.
    f_equal. now apply Z.leb_le.
Qed.

Lemma py_sum_fails vs : forall acc,
  Exists (fun v => to_num v = None) vs -> exists e, py_sum vs acc = inl e.
Proof.
  induction vs as [|v vs IH]; intros acc Hex; [inversion Hex|].
  cbn [py_sum]. destruct (to_num v) as [x|] eqn:Hv.
  - destruct (py_add acc x) as [e|acc']; cbn [bind]; [eauto|].
    apply IH. inversion Hex; subst; [congruence|assumption].
  - cbn. eauto.
Qed.

(** X26. Sub-scores the Quality Gate cannot average.  When the
    sub-scores come as an empty dict, or as a dict with a value that is
    not a number, the stage fails: it records one error and leaves the
    stored review and the approval as they were. *)
Theorem quality_gate_fails_on_unusable_scores doc scores s :
  dict_get doc "scores" = Some (JObj scores) ->
  scores = [] \/ Exists (fun v => to_num v = None) (map snd scores) ->
  let s' := QualityAgent.run settings (inr (JObj doc)) s in
  (exists entry, errors s' = (errors s ++ [entry])%list)
  /\ quality_review s' = quality_review s
  /\ approved s' = approved s.
Proof.
  intros Hscores Hbad s'.
  assert (exists e,
             QualityAgent.review (Config.QUALITY_THRESHOLD settings)
               (inr (JObj doc)) = inl e) as [e He].
  { unfold QualityAgent.review. cbn [bind].
    destruct (check_required _ _ _) as [e|[]]; cbn [bind]; [eauto|].
    cbn [getitem]. rewrite Hscores. cbn [bind ret].
    unfold QualityAgent.average_scores, QualityAgent.mean.
    destruct Hbad as [->|Hex].
    - cbn. eauto.
    - destruct (py_sum_fails _ (Int 0) Hex) as [e ->]. cbn. eauto. }
  unfold s', QualityAgent.run. rewrite He.
  split; [eexists; reflexivity|]. split; reflexivity.
Qed.

End ReviewFacts.

(* ===================================================================== *)
(** * Properties of the extraction of the retry delay *)
(* ===================================================================== *)

Section RetryDelayFacts.
Import Py PyText RetryDelay.

Lemma mentions_false lit s :
  mentions lit s = false ->
  literal lit s = None
  /\ match s with
     | String _ s' => mentions lit s' = false
     | EmptyString => True
     end.
Proof.
  destruct s as [|c s]; cbn [mentions];
    destruct (literal lit _); try discriminate; auto.
Qed.

(** A pattern that begins with a literal finds nothing in a text that
    does not mention the literal. *)
Lemma search_unmentioned (pattern : string -> option string) lit :
  (forall s, literal lit s = None -> pattern s = None) ->
  forall s, mentions lit s = false -> search pattern s = None.
Proof.
  intros Hguard. induction s as [|c s IH]; intros Hno;
    apply mentions_false in Hno as [Hlit Hrest]; cbn [search];
    rewrite (Hguard _ Hlit); auto.
Qed.

Lemma digit_value_nonneg c : is_digit c = true -> 0 <= digit_value c.
Proof.
  unfold is_digit, digit_value. cbv zeta. intros H.
  apply andb_true_iff in H as [H _]. apply Z.leb_le in H. lia.
Qed.

Lemma digits_value_nonneg s : forall acc,
  all_digits s = true -> 0 <= acc -> 0 <= digits_value s acc.
Proof.
  induction s as [|c s IH]; intros acc Hall Hacc; [exact Hacc|].
  cbn [all_digits] in Hall. apply andb_true_iff in Hall as [Hc Hs].
  cbn [digits_value]. apply IH; [exact Hs|].
  pose proof (digit_value_nonneg c Hc). lia.
Qed.

Lemma span_digits s :
  all_digits (fst (span is_digit s)) = true.
Proof.
  induction s as [|c s IH]; [reflexivity|]. cbn [span].
  destruct (is_digit c) eqn:Hc; [|reflexivity].
  destruct (span is_digit s) as [run rest]. cbn [fst all_digits] in *.
  now rewrite Hc, IH.
Qed.

(** The number [float] reads from digits and dots is not negative. *)
Lemma float_of_text_nonneg text delay :
  float_of_text text = Some delay -> (0 <= delay)%Q.
Proof.
  unfold float_of_text. pose proof (span_digits text) as Hwhole.
  destruct (span is_digit text) as [whole rest]. cbn [fst] in Hwhole.
  assert (0 <= inject_Z (digits_value whole 0))%Q as Hw.
  { change 0%Q with (inject_Z 0). rewrite <- Zle_Qle.
    now apply digits_value_nonneg. }
  destruct rest as [|c fraction].
  - destruct (String.eqb whole EmptyString); [discriminate|].
    now intros [= <-].
  - destruct (Ascii.eqb c "." && all_digits fraction
              && negb (String.eqb whole EmptyString
                       && String.eqb fraction EmptyString)) eqn:Hok;
      [|discriminate].
    apply andb_true_iff in Hok as [Hok _].
    apply andb_true_iff in Hok as [_ Hfraction].
    intros [= <-].
    change 0%Q with (0 + 0)%Q. apply Qplus_le_compat; [exact Hw|].
    apply Qmult_le_0_compat.
    + change 0%Q with (inject_Z 0). rewrite <- Zle_Qle.
      now apply digits_value_nonneg.
    + apply Qinv_le_0_compat. change 0%Q with (inject_Z 0).
      rewrite <- Zle_Qle. apply Z.pow_nonneg. lia.
Qed.

Lemma first_delay_nonneg ps error_message :
  (0 <= first_delay ps error_message)%Q.
Proof.
  induction ps as [|pattern ps IH]; cbn [first_delay]; [discriminate|].
  destruct (search pattern error_message) as [group|]; [|exact IH].
  destruct (float_of_text group) as [delay|] eqn:Hfloat; [|exact IH].
  exact (float_of_text_nonneg _ _ Hfloat).
Qed.

(** X27. The delay [_extract_retry_delay] reads from an error text is
    never negative, and it is the default of 15 seconds whenever the text
    mentions, in whatever letter case, none of "retry in ", "retryDelay",
    "RetryInfo" and "after ", the words one of which every pattern begins
    with. *)
Theorem extract_retry_delay_default error_message :
  (0 <= extract_retry_delay error_message)%Q
  /\ (mentions "retry in " error_message = false ->
      mentions "retryDelay" error_message = false ->
      mentions "RetryInfo" error_message = false ->
      mentions "after " error_message = false ->
      extract_retry_delay error_message = 15%Q).
Proof.
  split; [apply first_delay_nonneg|].
  intros H1 H2 H3 H4. unfold extract_retry_delay, patterns.
  cbn [first_delay].
  rewrite (search_unmentioned retry_in "retry in ") by
    (try exact H1; intros s Hs; unfold retry_in; now rewrite Hs).
  rewrite (search_unmentioned retry_delay "retryDelay") by
    (try exact H2; intros s Hs; unfold retry_delay; now rewrite Hs).
  rewrite (search_unmentioned retry_info "RetryInfo") by
    (try exact H3; intros s Hs; unfold retry_info; now rewrite Hs).
  rewrite (search_unmentioned after_seconds "after ") by
    (try exact H4; intros s Hs; unfold after_seconds; now rewrite Hs).
  reflexivity.
Qed.

(** X28. With the delay read by [_extract_retry_delay], the retry
    wrapper never pauses for a negative time, whatever the endpoint
    answers. *)
Theorem retry_pauses_are_not_negative
    (http : Z -> list LLM.message -> LLM.http_result) messages max_retries :
  Forall (fun seconds => (0 <= seconds)%Q)
    (Traces.pauses
       (fst (LLM.generate_with_retry extract_retry_delay http messages
               max_retries))).
Proof.
  eapply Forall_impl;
    [apply (retry_loop_pauses extract_retry_delay http); lia|].
  cbv beta. intros seconds [(j & e & _ & ->)|(whole & -> & Hlow & _)].
  - apply first_delay_nonneg.
  - change 0%Q with (inject_Z 0). rewrite <- Zle_Qle. lia.
Qed.

End RetryDelayFacts.

Lemma extract_retry_delay_default_witness :
  RetryDelay.extract_retry_delay Inputs.unspecific_rate_limit = 15%Q.
Proof.
  apply (proj2 (extract_retry_delay_default Inputs.unspecific_rate_limit));
    reflexivity.
Defined.

(* ===================================================================== *)
(** * Further properties of the Technical Review stage *)
(* ===================================================================== *)

Section TechnicalReviewFacts.
Import Py State Spec.



End TechnicalReviewFacts.


(* ===================================================================== *)
(** * Instances of the further properties *)
(* ===================================================================== *)

Lemma discovery_stores_computed_metadata_witness :
  exists kept,
    Py.getitem
      (State.research_findings
         (ResearchAgent.run Examples.one_hit
            (inr (Py.JObj Inputs.findings_doc)) (Examples.state_at 0)))
      "_raw_search_results"
    = Py.ret (Py.JList (map Tools.json_of_result kept))
    /\ (List.length kept <= 10)%nat.
Proof.
  destruct (discovery_stores_computed_metadata Examples.one_hit
              Inputs.findings_doc (Examples.state_at 0))
    as (kept & Hraw & _ & Hlen & _).
  - intros key Hkey. unfold ResearchAgent.required_keys in Hkey.
    repeat (apply elem_of_cons in Hkey as [->|Hkey]; [reflexivity|]).
    inversion Hkey.
  - exists kept. split; [exact Hraw|exact Hlen].
Defined.
Lemma enriched_task_resources_witness :
  exists current added,
    Py.get_default (Examples.task "a") "resources" (Py.JList [])
    = Py.ret (Py.JList current)
    /\ (List.length (firstn 5 (current ++ added)) <= 5)%nat.
Proof.
  destruct (enriched_task_resources [Inputs.docs_hit] (Examples.task "a")
              _ eq_refl)
    as (current & added & Hcurrent & _ & _ & Hlen & _).
  exists current, added. split; [exact Hcurrent|exact Hlen].
Defined.

Lemma enrichment_without_results_changes_nothing_witness :
  CurriculumAgent.enrich_resources_with_search Inputs.no_hits
    Examples.two_phase_doc
  = Examples.two_phase_doc.
Proof.
  apply (enrichment_without_results_changes_nothing Inputs.no_hits).
  intros n. left. reflexivity.
Defined.

Lemma accepted_draft_keeps_generated_entries_witness :
  Py.getitem
    (State.draft_curriculum
       (CurriculumAgent.run Examples.slug_kept Examples.shown
          Examples.one_hit (inr Examples.two_phase_doc)
          (Examples.state_at 0)))
    "title"
  = inr (Py.JStr "Graph traversal").
Proof.
  destruct (accepted_draft_keeps_generated_entries Examples.slug_kept
              Examples.shown Examples.one_hit Examples.two_phase_doc
              (Examples.state_at 0) _ 7 eq_refl) as (Hdraft & _ & Hframe).
  rewrite Hdraft. apply Hframe; discriminate.
Defined.

Lemma structuring_fails_on_unreadable_review_witness :
  Spec.rejected Inputs.reviewed_as_text
    (CurriculumAgent.run Examples.slug_kept Examples.shown Examples.one_hit
       (inr Examples.two_phase_doc) Inputs.reviewed_as_text).
Proof.
  apply (structuring_fails_on_unreadable_review Examples.slug_kept
           Examples.shown Examples.one_hit (inr Examples.two_phase_doc)
           Inputs.reviewed_as_text).
  - cbn. lia.
  - reflexivity.
  - left. intros d. discriminate.
Defined.

Lemma run_without_verdict_reaches_the_ceiling_witness :
  exists s',
    Graph.ainvoke Config.default_settings Examples.slug_kept Examples.shown
      Examples.silent_world 11
      (State.create_initial_state 0 "graph traversal" None "intermediate")
    = Some s'
    /\ State.iteration s' = 2.
Proof.
  destruct (run_without_verdict_reaches_the_ceiling Config.default_settings
              Examples.slug_kept Examples.shown Examples.silent_world
              (State.create_initial_state 0 "graph traversal" None
                 "intermediate"))
    as (s' & Hrun & Hiter & _).
  - intros k s. eexists. reflexivity.
  - reflexivity.
  - exists s'. split; [apply Hrun; vm_compute; lia|exact Hiter].
Defined.

Lemma run_without_draft_yields_no_path_witness :
  exists s',
    Graph.ainvoke Config.default_settings Examples.slug_kept Examples.shown
      Examples.silent_world 11
      (State.create_initial_state 0 "graph traversal" None "intermediate")
    = Some s'
    /\ PathService.path_data s'
       = Py.raise Py.ValueError
           "Workflow completed but no path data generated".
Proof.
  destruct (run_without_draft_yields_no_path Config.default_settings
              Examples.slug_kept Examples.shown Examples.silent_world
              0 "graph traversal" None "intermediate")
    as (s' & Hrun & _ & Hpath).
  - intros k s. eexists. reflexivity.
  - exists s'. split; [apply Hrun; vm_compute; lia|exact Hpath].
Defined.

Lemma quality_gate_stores_recomputed_score_witness :
  Py.getitem
    (State.quality_review
       (QualityAgent.run Config.default_settings
          (inr (Examples.review_doc true Examples.drifting_scores))
          (Examples.state_at 1)))
    "score"
  = Py.ret (Py.JNum (Examples.hundredths 85)).
Proof.
  exact (proj1 (quality_gate_stores_recomputed_score Config.default_settings
                  (Examples.review_dict true Examples.drifting_scores) true
                  (Examples.scores_doc Examples.drifting_scores)
                  (map snd Examples.drifting_scores) Examples.drifting_mean
                  (Examples.state_at 1)
                  eq_refl eq_refl eq_refl eq_refl eq_refl eq_refl)).
Defined.

Lemma quality_gate_fails_on_unusable_scores_witness :
  State.approved
    (QualityAgent.run Config.default_settings
       (inr (Py.JObj Inputs.review_without_scores)) (Examples.state_at 1))
  = State.approved (Examples.state_at 1).
Proof.
  refine (proj2 (proj2 (quality_gate_fails_on_unusable_scores
                          Config.default_settings
                          Inputs.review_without_scores [] (Examples.state_at 1)
                          _ _))).
  - reflexivity.
  - left. reflexivity.
Defined.

(** The Quality Gate on the sub-scores of the end-to-end scenario, 0.9,
    0.85, 0.82, 0.81, 0.83 and 0.8: the stored score is 0.83 and the draft
    is turned down.  On 0.8, 0.8, 0.8 and 0.98 the sum in doubles is
    3.3800000000000003, the stored score 0.85, and the draft is approved.
    A sub-score beyond the range of a double makes the sum raise
    OverflowError: one error is recorded and no review is stored. *)
Lemma quality_gate_computes_in_doubles :
  let gate scores :=
    QualityAgent.run Config.default_settings
      (inr (Examples.review_doc true scores)) (Examples.state_at 1) in
  Py.getitem (State.quality_review (gate Examples.scenario_scores)) "score"
  = Py.ret (Py.JNum (Examples.hundredths 83))
  /\ State.approved (gate Examples.scenario_scores) = Py.JBool false
  /\ Spec.double_mean (map snd Examples.drifting_scores)
     = Py.ret Examples.drifting_mean
  /\ State.approved (gate Examples.drifting_scores) = Py.JBool true
  /\ State.errors (gate Examples.huge_scores)
     = [ "[QualityAgent] Quality review failed: int too large to convert to float" ]
  /\ State.quality_review (gate Examples.huge_scores)
     = State.quality_review (Examples.state_at 1).
Proof.
  cbv zeta. repeat split; vm_compute; reflexivity.
Qed.

(** An answer whose content is a list is handed on by [generate] and
    fails in [generate_json] with the AttributeError of [strip], after a
    single request; an answer without content fails inside [generate] and
    ends, after three requests, in an LLMException. *)
Lemma generate_json_on_other_contents :
  snd (LLM.generate_json Examples.fixed_delay Examples.no_parse
         Inputs.answering_with_list Examples.two_turns [0%nat; 1%nat])
  = Py.raise Py.AttributeError "'list' object has no attribute 'strip'"
  /\ Spec.attempts
       (snd (fst (LLM.generate_json Examples.fixed_delay Examples.no_parse
                    Inputs.answering_with_list Examples.two_turns
                    [0%nat; 1%nat]))) = 1%nat
  /\ option_map Py.exn_cls
       (match snd (LLM.generate_json Examples.fixed_delay Examples.no_parse
                     Inputs.answering_with_null Examples.two_turns
                     [0%nat; 1%nat]) with
        | inl e => Some e
        | inr _ => None
        end) = Some Py.LLMException
  /\ Spec.attempts
       (snd (fst (LLM.generate_json Examples.fixed_delay Examples.no_parse
                    Inputs.answering_with_null Examples.two_turns
                    [0%nat; 1%nat]))) = 3%nat.
Proof.
  repeat split; vm_compute; reflexivity.
Qed.
